(** * serziam-tech: the monthly access code and the gate built on it

    A shallow embedding of the access-code engine of [serziam.py],
    [serziamvalidator.py] and [serziamtest.py]: the HMAC-SHA256 based
    derivation [generate_deterministic_code], the end-of-month expiry
    computed by [get_current_code_with_expiry], [validate_code],
    [is_code_expired] and the unlock dialogue [_prompt_for_new_code].

    Python values are modelled as follows.
    - [int] is [Z] (unbounded, as in Python).
    - [bytes] is [list Z], every element in [0, 256).
    - [str] is [list Z], the list of Unicode code points.
    - an exception is the [Raise] branch of [result].
    - the wall clock, the terminal and the telephony server are an
      explicit [world] that is threaded through the code. *)

From Stdlib Require Import String Ascii ZArith List Bool Lia.
Import ListNotations.
Local Open Scope Z_scope.

(* ================================================================== *)
(** ** Exceptions *)

Inductive pyexc : Type :=
  | IndexError
  | ZeroDivisionError
  | UnicodeEncodeError
  | ValueError
  | OverflowError
  | KeyboardInterrupt
  | EOFError
  | KeyError.

Inductive result (A : Type) : Type :=
  | Ok (a : A)
  | Raise (e : pyexc).
Arguments Ok {A} a.
Arguments Raise {A} e.

Definition rbind {A B} (r : result A) (k : A -> result B) : result B :=
  match r with
  | Ok a => k a
  | Raise e => Raise e
  end.

Declare Scope result_scope.
Delimit Scope result_scope with result.
Notation "x <- r ;; k" := (rbind r (fun x => k))
  (at level 61, r at next level, right associativity) : result_scope.

(* ================================================================== *)
(** ** Python built-ins used by the code *)

Definition pystr := list Z.
Definition pybytes := list Z.

(** A string literal of the source, as code points. *)
Fixpoint lit (s : string) : pystr :=
  match s with
  | EmptyString => []
  | String c r => Z.of_N (N_of_ascii c) :: lit r
  end.

(** [seq[i]]: a negative index counts from the end; [IndexError]
    outside the sequence. *)
Definition getitem {A} (l : list A) (i : Z) : result A :=
  let j := if i <? 0 then i + Z.of_nat (length l) else i in
  if j <? 0 then Raise IndexError
  else match nth_error l (Z.to_nat j) with
       | Some a => Ok a
       | None => Raise IndexError
       end.

(** [a % b] : [ZeroDivisionError] when [b] is zero; the sign of the
    result follows the divisor, which is what [Z.modulo] does. *)
Definition pymod (a b : Z) : result Z :=
  if b =? 0 then Raise ZeroDivisionError else Ok (a mod b).

(** [d[k]] on a dict with integer keys: [KeyError] when absent. *)
Fixpoint dict_get {A} (d : list (Z * A)) (k : Z) : result A :=
  match d with
  | [] => Raise KeyError
  | (k', v) :: r => if k' =? k then Ok v else dict_get r k
  end.

(** [len(l)]. *)
Definition len {A} (l : list A) : Z := Z.of_nat (length l).

(** [range(n)]: empty when [n <= 0]. *)
Definition range (n : Z) : list Z := map Z.of_nat (seq 0 (Z.to_nat n)).

(** [s.encode('utf-8')]: one to four bytes per code point; a surrogate
    (or a value that is no code point) raises. *)
Definition utf8_char (c : Z) : result pybytes :=
  if c <? 0 then Raise UnicodeEncodeError
  else if c <? 128 then Ok [c]
  else if c <? 2048 then
    Ok [Z.lor 192 (Z.shiftr c 6); Z.lor 128 (Z.land c 63)]
  else if (55296 <=? c) && (c <=? 57343) then Raise UnicodeEncodeError
  else if c <? 65536 then
    Ok [Z.lor 224 (Z.shiftr c 12);
        Z.lor 128 (Z.land (Z.shiftr c 6) 63);
        Z.lor 128 (Z.land c 63)]
  else if c <? 1114112 then
    Ok [Z.lor 240 (Z.shiftr c 18);
        Z.lor 128 (Z.land (Z.shiftr c 12) 63);
        Z.lor 128 (Z.land (Z.shiftr c 6) 63);
        Z.lor 128 (Z.land c 63)]
  else Raise UnicodeEncodeError.

Fixpoint encode_utf8 (s : pystr) : result pybytes :=
  match s with
  | [] => Ok []
  | c :: r =>
      (b <- utf8_char c ;;
       bs <- encode_utf8 r ;;
       Ok (b ++ bs))%result
  end.

(* ================================================================== *)
(** ** [hashlib.sha256] (FIPS 180-4) and [hmac] (RFC 2104)

    Both are library code; they are modelled from their standards.
    A word is a [Z] in [0, 2^32). *)

Module SHA256.

(** Reduction modulo 2^32, as a mask. *)
Definition wrap32 (x : Z) : Z := Z.land x 4294967295.
Definition add32 (x y : Z) : Z := wrap32 (x + y).
Definition rotr (n x : Z) : Z :=
  Z.lor (Z.shiftr x n) (wrap32 (Z.shiftl x (32 - n))).
Definition not32 (x : Z) : Z := 4294967295 - x.

Definition Ch (x y z : Z) : Z := Z.lxor (Z.land x y) (Z.land (not32 x) z).
Definition Maj (x y z : Z) : Z :=
  Z.lxor (Z.lxor (Z.land x y) (Z.land x z)) (Z.land y z).
Definition bsig0 (x : Z) : Z :=
  Z.lxor (Z.lxor (rotr 2 x) (rotr 13 x)) (rotr 22 x).
Definition bsig1 (x : Z) : Z :=
  Z.lxor (Z.lxor (rotr 6 x) (rotr 11 x)) (rotr 25 x).
Definition ssig0 (x : Z) : Z :=
  Z.lxor (Z.lxor (rotr 7 x) (rotr 18 x)) (Z.shiftr x 3).
Definition ssig1 (x : Z) : Z :=
  Z.lxor (Z.lxor (rotr 17 x) (rotr 19 x)) (Z.shiftr x 10).

Definition K : list Z :=
  [ 1116352408; 1899447441; 3049323471; 3921009573;
    961987163; 1508970993; 2453635748; 2870763221;
    3624381080; 310598401; 607225278; 1426881987;
    1925078388; 2162078206; 2614888103; 3248222580;
    3835390401; 4022224774; 264347078; 604807628;
    770255983; 1249150122; 1555081692; 1996064986;
    2554220882; 2821834349; 2952996808; 3210313671;
    3336571891; 3584528711; 113926993; 338241895;
    666307205; 773529912; 1294757372; 1396182291;
    1695183700; 1986661051; 2177026350; 2456956037;
    2730485921; 2820302411; 3259730800; 3345764771;
    3516065817; 3600352804; 4094571909; 275423344;
    430227734; 506948616; 659060556; 883997877;
    958139571; 1322822218; 1537002063; 1747873779;
    1955562222; 2024104815; 2227730452; 2361852424;
    2428436474; 2756734187; 3204031479; 3329325298 ].

(** The eight working variables / the chaining value. *)
Record regs : Type := mkregs {
  ra : Z; rb : Z; rc : Z; rd : Z; re : Z; rf : Z; rg : Z; rh : Z
}.

Definition H0 : regs :=
  mkregs 1779033703 3144134277 1013904242 2773480762
         1359893119 2600822924 528734635 1541459225.

(** Message padding: a 1 bit, zeros up to 56 mod 64, the bit length on
    eight bytes, big-endian. *)
Fixpoint be_bytes (n : nat) (x : Z) : list Z :=
  match n with
  | O => []
  | S k => be_bytes k (Z.shiftr x 8) ++ [x mod 256]
  end.

Definition pad (msg : pybytes) : pybytes :=
  let l := len msg in
  msg ++ [128] ++ repeat 0 (Z.to_nat ((55 - l) mod 64)) ++ be_bytes 8 (8 * l).

(** Big-endian words of a block. *)
Fixpoint words (bs : pybytes) (n : nat) : list Z :=
  match n with
  | O => []
  | S k =>
      match bs with
      | b0 :: b1 :: b2 :: b3 :: r =>
          (((b0 * 256 + b1) * 256 + b2) * 256 + b3) :: words r k
      | _ => 0 :: words [] k
      end
  end.

(** The message schedule, kept newest word first: [rev16] holds
    W[t-1], W[t-2], ..., W[t-16]. *)
Definition next_w (rev16 : list Z) : Z :=
  add32 (add32 (ssig1 (nth 1 rev16 0)) (nth 6 rev16 0))
        (add32 (ssig0 (nth 14 rev16 0)) (nth 15 rev16 0)).

Fixpoint extend (n : nat) (rev16 : list Z) (acc : list Z) : list Z :=
  match n with
  | O => rev acc
  | S k =>
      let w := next_w rev16 in
      extend k (w :: firstn 15 rev16) (w :: acc)
  end.

Definition schedule (block : pybytes) : list Z :=
  let w16 := words block 16 in
  w16 ++ extend 48 (rev w16) [].

Definition round (s : regs) (kw : Z * Z) : regs :=
  let (k, w) := kw in
  let t1 := add32 (add32 (add32 (add32 (rh s) (bsig1 (re s)))
                                (Ch (re s) (rf s) (rg s))) k) w in
  let t2 := add32 (bsig0 (ra s)) (Maj (ra s) (rb s) (rc s)) in
  mkregs (add32 t1 t2) (ra s) (rb s) (rc s)
         (add32 (rd s) t1) (re s) (rf s) (rg s).

Definition compress (h : regs) (block : pybytes) : regs :=
  let s := fold_left round (combine K (schedule block)) h in
  mkregs (add32 (ra h) (ra s)) (add32 (rb h) (rb s))
         (add32 (rc h) (rc s)) (add32 (rd h) (rd s))
         (add32 (re h) (re s)) (add32 (rf h) (rf s))
         (add32 (rg h) (rg s)) (add32 (rh h) (rh s)).

Fixpoint blocks (n : nat) (h : regs) (bs : pybytes) : regs :=
  match n with
  | O => h
  | S k => blocks k (compress h (firstn 64 bs)) (skipn 64 bs)
  end.

Definition word_bytes (x : Z) : pybytes :=
  [ Z.shiftr x 24 mod 256; Z.shiftr x 16 mod 256;
    Z.shiftr x 8 mod 256; x mod 256 ].

Definition digest_of (h : regs) : pybytes :=
  word_bytes (ra h) ++ word_bytes (rb h) ++ word_bytes (rc h) ++
  word_bytes (rd h) ++ word_bytes (re h) ++ word_bytes (rf h) ++
  word_bytes (rg h) ++ word_bytes (rh h).

Definition sha256 (msg : pybytes) : pybytes :=
  let p := pad msg in
  digest_of (blocks (length p / 64)%nat H0 p).

End SHA256.

Module HMAC.

Definition block_size : Z := 64.

(** The key is hashed when longer than a block, then zero-padded. *)
Definition block_key (key : pybytes) : pybytes :=
  let k := if block_size <? len key then SHA256.sha256 key else key in
  k ++ repeat 0 (Z.to_nat (block_size - len k)).

Definition xor_with (c : Z) (bs : pybytes) : pybytes :=
  map (fun b => Z.lxor b c) bs.

(** [hmac.new(key, msg, hashlib.sha256).digest()]. *)
Definition hmac_sha256 (key msg : pybytes) : pybytes :=
  let k := block_key key in
  SHA256.sha256 (xor_with 92 k ++ SHA256.sha256 (xor_with 54 k ++ msg)).

End HMAC.


(* ================================================================== *)
(** ** [datetime] (library code, modelled from CPython's [datetime.py])

    Naive datetimes of the proleptic Gregorian calendar, years 1 to
    9999.  Date arithmetic goes through the ordinal of the day. *)

Record datetime : Type := mkdatetime {
  year : Z; month : Z; day : Z;
  hour : Z; minute : Z; second : Z; microsecond : Z
}.

Module PyDatetime.

Definition MINYEAR : Z := 1.
Definition MAXYEAR : Z := 9999.
Definition MAXORDINAL : Z := 3652059.

Definition DAYS_IN_MONTH : list Z :=
  [-1; 31; 28; 31; 30; 31; 30; 31; 31; 30; 31; 30; 31].
Definition DAYS_BEFORE_MONTH : list Z :=
  [-1; 0; 31; 59; 90; 120; 151; 181; 212; 243; 273; 304; 334].

Definition is_leap (y : Z) : bool :=
  (y mod 4 =? 0) && (negb (y mod 100 =? 0) || (y mod 400 =? 0)).

Definition days_in_month (y m : Z) : Z :=
  if (m =? 2) && is_leap y then 29 else nth (Z.to_nat m) DAYS_IN_MONTH 0.

Definition days_before_year (y : Z) : Z :=
  let p := y - 1 in p * 365 + p / 4 - p / 100 + p / 400.

Definition days_before_month (y m : Z) : Z :=
  nth (Z.to_nat m) DAYS_BEFORE_MONTH 0
  + (if (2 <? m) && is_leap y then 1 else 0).

Definition ymd2ord (y m d : Z) : Z :=
  days_before_year y + days_before_month y m + d.

Definition ord2ymd (ordinal : Z) : Z * Z * Z :=
  let n := ordinal - 1 in
  let n400 := n / 146097 in
  let n := n mod 146097 in
  let y := n400 * 400 + 1 in
  let n100 := n / 36524 in
  let n := n mod 36524 in
  let n4 := n / 1461 in
  let n := n mod 1461 in
  let n1 := n / 365 in
  let n := n mod 365 in
  let y := y + n100 * 100 + n4 * 4 + n1 in
  if (n1 =? 4) || (n100 =? 4) then (y - 1, 12, 31)
  else
    let leapyear := (n1 =? 3) && (negb (n4 =? 24) || (n100 =? 3)) in
    let m := Z.shiftr (n + 50) 5 in
    let preceding :=
      nth (Z.to_nat m) DAYS_BEFORE_MONTH 0
      + (if (2 <? m) && leapyear then 1 else 0) in
    if n <? preceding then
      let m := m - 1 in
      let preceding :=
        preceding - (nth (Z.to_nat m) DAYS_IN_MONTH 0
                     + (if (m =? 2) && leapyear then 1 else 0)) in
      (y, m, n - preceding + 1)
    else (y, m, n - preceding + 1).

Definition check_date_fields (y m d : Z) : bool :=
  (MINYEAR <=? y) && (y <=? MAXYEAR) && (1 <=? m) && (m <=? 12)
  && (1 <=? d) && (d <=? days_in_month y m).

Definition check_time_fields (hh mm ss us : Z) : bool :=
  (0 <=? hh) && (hh <=? 23) && (0 <=? mm) && (mm <=? 59)
  && (0 <=? ss) && (ss <=? 59) && (0 <=? us) && (us <=? 999999).

(** [datetime(y, m, d, hh, mm, ss, us)]: [ValueError] on a field out
    of range. *)
Definition new (y m d hh mm ss us : Z) : result datetime :=
  if check_date_fields y m d && check_time_fields hh mm ss us
  then Ok (mkdatetime y m d hh mm ss us)
  else Raise ValueError.

(** [datetime(y, m, d)]: the time fields default to zero. *)
Definition new_date (y m d : Z) : result datetime := new y m d 0 0 0 0.

(** What [datetime.now()] can return. *)
Definition valid (t : datetime) : bool :=
  check_date_fields (year t) (month t) (day t)
  && check_time_fields (hour t) (minute t) (second t) (microsecond t).

Definition toordinal (t : datetime) : Z := ymd2ord (year t) (month t) (day t).

(** [t - timedelta(days=n)]: the day moves, the time of day stays;
    [OverflowError] when the day leaves the calendar. *)
Definition sub_days (t : datetime) (n : Z) : result datetime :=
  let o := toordinal t - n in
  if (0 <? o) && (o <=? MAXORDINAL) then
    let '(y, m, d) := ord2ymd o in
    Ok (mkdatetime y m d (hour t) (minute t) (second t) (microsecond t))
  else Raise OverflowError.

(** [t.replace(hour=hh, minute=mm, second=ss)]. *)
Definition replace_hms (t : datetime) (hh mm ss : Z) : result datetime :=
  new (year t) (month t) (day t) hh mm ss (microsecond t).

(** [(a - b).days]: the difference is normalised so that its seconds
    and microseconds are not negative, hence the floor. *)
Definition microseconds_of (t : datetime) : Z :=
  ((toordinal t * 24 + hour t) * 60 + minute t) * 60000000
  + second t * 1000000 + microsecond t.

Definition diff_days (a b : datetime) : Z :=
  (microseconds_of a - microseconds_of b) / 86400000000.

(** [a > b] on naive datetimes: lexicographic on the seven fields. *)
Fixpoint lex_gt (a b : list Z) : bool :=
  match a, b with
  | x :: a', y :: b' => (y <? x) || ((x =? y) && lex_gt a' b')
  | _, _ => false
  end.

Definition fields (t : datetime) : list Z :=
  [year t; month t; day t; hour t; minute t; second t; microsecond t].

Definition gt (a b : datetime) : bool := lex_gt (fields a) (fields b).

End PyDatetime.

(* ================================================================== *)
(** ** The world: clock, terminal, telephony server

    [clock w k] is what the k-th call of [datetime.now()] returns,
    [keyboard w k] what the operator does at the k-th [input()], and
    [asterisk w k] whether the k-th start or stop of the server
    succeeds.  [trace] records what the program did, newest first. *)

Inductive key : Type :=
  | Line (s : pystr)     (* a line, without its newline *)
  | CtrlC                (* KeyboardInterrupt *)
  | CtrlD.               (* end of input: EOFError *)

(** The [print] statements of the access gate. *)
Inductive message : Type :=
  | MsgExpired | MsgBlockedUntilNewCode | MsgAccessValid
  | MsgPeriod (t : datetime) | MsgGenerated | MsgPleaseEnter
  | MsgCorrect | MsgUnlocked | MsgRestartError
  | MsgRemaining (attempts : Z) | MsgTooMany | MsgCancelled
  | MsgCodeVisible (month_name : pystr) (y : Z) (code : pystr)
  | MsgExpiresOn (t : datetime) | MsgDaysRemaining (d : Z).

Inductive event : Type :=
  | Printed (m : message)
  | Asked                (* [input("Code d'accès: ")] *)
  | Started              (* [AsteriskManager.start()] *)
  | Stopped.             (* [AsteriskManager.stop()] *)

Record world : Type := mkworld {
  clock : nat -> datetime;  ticks : nat;
  keyboard : nat -> key;    reads : nat;
  asterisk : nat -> bool;   calls : nat;
  trace : list event
}.

Definition M (A : Type) : Type := world -> result A * world.

Definition ret {A} (a : A) : M A := fun w => (Ok a, w).

Definition bind {A B} (m : M A) (k : A -> M B) : M B :=
  fun w =>
    match m w with
    | (Ok a, w') => k a w'
    | (Raise e, w') => (Raise e, w')
    end.

Definition lift {A} (r : result A) : M A := fun w => (r, w).

Declare Scope py_scope.
Delimit Scope py_scope with py.
Notation "x <- m ;; k" := (bind m (fun x => k))
  (at level 61, m at next level, right associativity) : py_scope.
Notation "m ;; k" := (bind m (fun _ => k))
  (at level 61, right associativity) : py_scope.

Definition pyexc_eqb (a b : pyexc) : bool :=
  match a, b with
  | IndexError, IndexError | ZeroDivisionError, ZeroDivisionError
  | UnicodeEncodeError, UnicodeEncodeError | ValueError, ValueError
  | OverflowError, OverflowError | KeyboardInterrupt, KeyboardInterrupt
  | EOFError, EOFError | KeyError, KeyError => true
  | _, _ => false
  end.

(** [try: body except exc: handler]. *)
Definition try_except {A} (body : M A) (exc : pyexc) (handler : M A) : M A :=
  fun w =>
    match body w with
    | (Raise e, w') => if pyexc_eqb e exc then handler w' else (Raise e, w')
    | done => done
    end.

(** [for x in l: s = body(s, x)]. *)
Fixpoint for_each {A S} (l : list A) (s : S) (body : S -> A -> M S) : M S :=
  match l with
  | [] => ret s
  | x :: r => (s' <- body s x ;; for_each r s' body)%py
  end.

Definition emit (e : event) (w : world) : world :=
  mkworld (clock w) (ticks w) (keyboard w) (reads w)
          (asterisk w) (calls w) (e :: trace w).

(** [datetime.now()]. *)
Definition now : M datetime :=
  fun w =>
    (Ok (clock w (ticks w)),
     mkworld (clock w) (S (ticks w)) (keyboard w) (reads w)
             (asterisk w) (calls w) (trace w)).

(** [print(...)]. *)
Definition print (m : message) : M unit :=
  fun w => (Ok tt, emit (Printed m) w).

(** [input(...)]. *)
Definition input : M pystr :=
  fun w =>
    let w' := mkworld (clock w) (ticks w) (keyboard w) (S (reads w))
                      (asterisk w) (calls w) (Asked :: trace w) in
    match keyboard w (reads w) with
    | Line s => (Ok s, w')
    | CtrlC => (Raise KeyboardInterrupt, w')
    | CtrlD => (Raise EOFError, w')
    end.

(** [AsteriskManager.start()] and [stop()]: they run external programs
    and answer whether the server is then in the wanted state; every
    exception of theirs is caught inside and answered [False]. *)
Definition server_call (e : event) : M bool :=
  fun w =>
    (Ok (asterisk w (calls w)),
     mkworld (clock w) (ticks w) (keyboard w) (reads w)
             (asterisk w) (S (calls w)) (e :: trace w)).

(** [s.strip()]: drops the white space at both ends; the characters
    are those of [str.isspace]. *)
Definition isspace (c : Z) : bool :=
  ((9 <=? c) && (c <=? 13)) || ((28 <=? c) && (c <=? 32))
  || (c =? 133) || (c =? 160) || (c =? 5760)
  || ((8192 <=? c) && (c <=? 8202)) || (c =? 8232) || (c =? 8233)
  || (c =? 8239) || (c =? 8287) || (c =? 12288).

Fixpoint lstrip (s : pystr) : pystr :=
  match s with
  | c :: r => if isspace c then lstrip r else s
  | [] => []
  end.

Definition strip (s : pystr) : pystr := rev (lstrip (rev (lstrip s))).

(** [a == b] on strings. *)
Fixpoint str_eqb (a b : pystr) : bool :=
  match a, b with
  | [], [] => true
  | x :: a', y :: b' => (x =? y) && str_eqb a' b'
  | _, _ => false
  end.

(** [''.join(l)]. *)
Definition join (l : list pystr) : pystr := concat l.

(** [f"{n}"] and [f"{n:02d}"] for an integer. *)
Fixpoint digits (fuel : nat) (n : Z) (acc : pystr) : pystr :=
  match fuel with
  | O => acc
  | S f =>
      if n <? 10 then (48 + n) :: acc
      else digits f (n / 10) ((48 + n mod 10) :: acc)
  end.

Definition format_d (n : Z) : pystr :=
  if n <? 0 then 45 :: digits (S (Z.to_nat (Z.log2 (- n)))) (- n) []
  else digits (S (Z.to_nat (Z.log2 n))) n [].

Definition format_02d (n : Z) : pystr :=
  let s := format_d n in
  if len s <? 2 then 48 :: s else s.

(** [s.upper()]: character by character.  The ASCII letters are
    written out; for the other characters the mapping is the Unicode
    table of the interpreter, [unicode_upper], which may give several
    characters for one. *)
Definition upper_char (unicode_upper : Z -> pystr) (c : Z) : pystr :=
  if (97 <=? c) && (c <=? 122) then [c - 32]
  else if c <? 128 then [c]
  else unicode_upper c.

Definition upper (unicode_upper : Z -> pystr) (s : pystr) : pystr :=
  concat (map (upper_char unicode_upper) s).

(** The month names that both generator classes store. *)
Definition MONTH_NAMES : list (Z * pystr) :=
  [ (1, lit "Janvier"); (2, lit "F" ++ [233] ++ lit "vrier");
    (3, lit "Mars"); (4, lit "Avril"); (5, lit "Mai"); (6, lit "Juin");
    (7, lit "Juillet"); (8, lit "Ao" ++ [251] ++ lit "t");
    (9, lit "Septembre"); (10, lit "Octobre"); (11, lit "Novembre");
    (12, lit "D" ++ [233] ++ lit "cembre") ].

(* ================================================================== *)
(** ** serziam.py *)

Module Serziam.

Module Config.
Definition SECRET_SEED : pystr := lit "asterisk_secure_deterministic_v1".
End Config.

(** *** class DeterministicCodeGenerator

    The object holds [secret_seed] and the table of month names. *)
Record DeterministicCodeGenerator : Type := mkgen {
  secret_seed : pystr;
  month_names : list (Z * pystr)
}.

(** [DeterministicCodeGenerator(secret_seed)]. *)
Definition DeterministicCodeGenerator_init (secret_seed : pystr)
    : DeterministicCodeGenerator :=
  mkgen secret_seed MONTH_NAMES.

Definition get_current_period (self : DeterministicCodeGenerator) : M pystr :=
  (current_date <- now ;;
   ret (format_02d (month current_date) ++ lit "-"
        ++ format_d (year current_date)))%py.

Definition generate_deterministic_code (self : DeterministicCodeGenerator)
    (month_year : option pystr) (length : Z) : M pystr :=
  (month_year <- match month_year with
                 | None => get_current_period self
                 | Some p => ret p
                 end ;;
   key <- lift (encode_utf8 (secret_seed self)) ;;
   msg <- lift (encode_utf8 month_year) ;;
   let hash_bytes := HMAC.hmac_sha256 key msg in
   let chars := lit "ABCDEFGHIJKLMNOPQRSTUVWXYZ0123456789" in
   code_chars <-
     for_each (range length) []
       (fun code_chars i =>
          j <- lift (pymod i (len hash_bytes)) ;;
          b <- lift (getitem hash_bytes j) ;;
          let byte_val := b + i in
          k <- lift (pymod byte_val (len chars)) ;;
          c <- lift (getitem chars k) ;;
          ret (code_chars ++ [[c]])) ;;
   ret (join code_chars))%py.

(** The default of the [length] argument. *)
Definition default_length : Z := 8.

Definition get_current_code (self : DeterministicCodeGenerator) : M pystr :=
  (month_year <- get_current_period self ;;
   generate_deterministic_code self (Some month_year) default_length)%py.

(** *** class HiddenAccessCodeManager(DeterministicCodeGenerator)

    Its constructor passes [Config.SECRET_SEED] to the parent (and
    creates the tables of the registry, which play no part here). *)
Definition HiddenAccessCodeManager : DeterministicCodeGenerator :=
  DeterministicCodeGenerator_init Config.SECRET_SEED.

Definition get_current_code_with_expiry (self : DeterministicCodeGenerator)
    : M (pystr * datetime) :=
  (current_date <- now ;;
   month_year <- get_current_period self ;;
   code <- get_current_code self ;;
   next_month <-
     lift (if month current_date =? 12
           then PyDatetime.new_date (year current_date + 1) 1 1
           else PyDatetime.new_date (year current_date)
                                    (month current_date + 1) 1) ;;
   expires_at <- lift (PyDatetime.sub_days next_month 1) ;;
   expires_at <- lift (PyDatetime.replace_hms expires_at 23 59 59) ;;
   ret (code, expires_at))%py.

Definition validate_code (self : DeterministicCodeGenerator)
    (input_code : pystr) : M bool :=
  (expected_code <- get_current_code self ;;
   ret (str_eqb input_code expected_code))%py.

Definition is_code_expired (self : DeterministicCodeGenerator) : M bool :=
  (ce <- get_current_code_with_expiry self ;;
   let expires_at := snd ce in
   t <- now ;;
   ret (PyDatetime.gt t expires_at))%py.

(** *** class AccessControlSystem *)

Record AccessControlSystem : Type := mkacs {
  code_manager : DeterministicCodeGenerator
}.

Definition AccessControlSystem_init : AccessControlSystem :=
  mkacs HiddenAccessCodeManager.

Section Dialogue.

Variable unicode_upper : Z -> pystr.

(** What one turn of the [while] loop does to the function: it returns,
    or the loop goes on with the new value of [attempts]. *)
Inductive flow : Type :=
  | Return (b : bool)
  | Continue (attempts : Z).

(** The body of [while attempts > 0:]. *)
Definition prompt_turn (self : AccessControlSystem) (attempts : Z) : M flow :=
  try_except
    (raw <- input ;;
     let entered_code := upper unicode_upper (strip raw) in
     ok <- validate_code (code_manager self) entered_code ;;
     if ok then
       print MsgCorrect ;;
       started <- server_call Started ;;
       if started then print MsgUnlocked ;; ret (Return true)
       else print MsgRestartError ;; ret (Return false)
     else
       let attempts := attempts - 1 in
       if 0 <? attempts then
         print (MsgRemaining attempts) ;; ret (Continue attempts)
       else
         print MsgTooMany ;; ret (Return false))%py
    KeyboardInterrupt
    (print MsgCancelled ;; ret (Return false))%py.

(** The loop; [fuel] bounds the number of turns, and [None] says that
    the bound was reached before the loop ended. *)
Fixpoint prompt_loop (fuel : nat) (self : AccessControlSystem)
    (attempts : Z) : M (option bool) :=
  match fuel with
  | O => ret None
  | S f =>
      if 0 <? attempts then
        (r <- prompt_turn self attempts ;;
         match r with
         | Return b => ret (Some b)
         | Continue attempts' => prompt_loop f self attempts'
         end)%py
      else ret (Some false)
  end.

(** Every turn that goes on has decremented [attempts], so [attempts]
    itself bounds the number of turns. *)
Definition _prompt_for_new_code (self : AccessControlSystem)
    : M (option bool) :=
  (current_date <- now ;;
   month_year <- get_current_period (code_manager self) ;;
   expected_code <- get_current_code (code_manager self) ;;
   print (MsgPeriod current_date) ;;
   print MsgGenerated ;;
   print MsgPleaseEnter ;;
   let attempts := 3 in
   prompt_loop (Z.to_nat attempts) self attempts)%py.

Definition check_access (self : AccessControlSystem) : M (option bool) :=
  (expired <- is_code_expired (code_manager self) ;;
   if expired then
     print MsgExpired ;;
     print MsgBlockedUntilNewCode ;;
     _ <- server_call Stopped ;;
     _prompt_for_new_code self
   else
     print MsgAccessValid ;; ret (Some true))%py.

End Dialogue.

End Serziam.

(* ================================================================== *)
(** ** serziamvalidator.py *)

Module Validator.

Module Config.
Definition SECRET_SEED : pystr := lit "asterisk_secure_deterministic_v1".
End Config.

Record DeterministicCodeGenerator : Type := mkgen {
  secret_seed : pystr;
  month_names : list (Z * pystr)
}.

Definition DeterministicCodeGenerator_init (secret_seed : pystr)
    : DeterministicCodeGenerator :=
  mkgen secret_seed MONTH_NAMES.

Definition get_current_period (self : DeterministicCodeGenerator) : M pystr :=
  (current_date <- now ;;
   ret (format_02d (month current_date) ++ lit "-"
        ++ format_d (year current_date)))%py.

Definition generate_deterministic_code (self : DeterministicCodeGenerator)
    (month_year : option pystr) (length : Z) : M pystr :=
  (month_year <- match month_year with
                 | None => get_current_period self
                 | Some p => ret p
                 end ;;
   key <- lift (encode_utf8 (secret_seed self)) ;;
   msg <- lift (encode_utf8 month_year) ;;
   let hash_bytes := HMAC.hmac_sha256 key msg in
   let chars := lit "ABCDEFGHIJKLMNOPQRSTUVWXYZ0123456789" in
   code_chars <-
     for_each (range length) []
       (fun code_chars i =>
          j <- lift (pymod i (len hash_bytes)) ;;
          b <- lift (getitem hash_bytes j) ;;
          let byte_val := b + i in
          k <- lift (pymod byte_val (len chars)) ;;
          c <- lift (getitem chars k) ;;
          ret (code_chars ++ [[c]])) ;;
   ret (join code_chars))%py.

Definition default_length : Z := 8.

Definition get_current_code (self : DeterministicCodeGenerator) : M pystr :=
  (month_year <- get_current_period self ;;
   generate_deterministic_code self (Some month_year) default_length)%py.

(** *** class VisibleAccessCodeManager(DeterministicCodeGenerator) *)
Definition VisibleAccessCodeManager : DeterministicCodeGenerator :=
  DeterministicCodeGenerator_init Config.SECRET_SEED.

Definition display_code_status (self : DeterministicCodeGenerator)
    : M (pystr * datetime) :=
  (current_date <- now ;;
   month_year <- get_current_period self ;;
   code <- get_current_code self ;;
   next_month <-
     lift (if month current_date =? 12
           then PyDatetime.new_date (year current_date + 1) 1 1
           else PyDatetime.new_date (year current_date)
                                    (month current_date + 1) 1) ;;
   expires_at <- lift (PyDatetime.sub_days next_month 1) ;;
   expires_at <- lift (PyDatetime.replace_hms expires_at 23 59 59) ;;
   let days_remaining := PyDatetime.diff_days expires_at current_date in
   month_name <- lift (dict_get (month_names self) (month current_date)) ;;
   print (MsgCodeVisible month_name (year current_date) code) ;;
   print (MsgExpiresOn expires_at) ;;
   print (MsgDaysRemaining days_remaining) ;;
   ret (code, expires_at))%py.

Definition validate_code (self : DeterministicCodeGenerator)
    (input_code : pystr) : M bool :=
  (expected_code <- get_current_code self ;;
   ret (str_eqb input_code expected_code))%py.

End Validator.

(* ================================================================== *)
(** ** serziamtest.py *)

Module SyncTest.

Definition SECRET_SEED : pystr := lit "asterisk_secure_deterministic_v1".

Definition generate_deterministic_code (month_year : pystr) (length : Z)
    : M pystr :=
  (key <- lift (encode_utf8 SECRET_SEED) ;;
   msg <- lift (encode_utf8 month_year) ;;
   let hash_bytes := HMAC.hmac_sha256 key msg in
   let chars := lit "ABCDEFGHIJKLMNOPQRSTUVWXYZ0123456789" in
   code_chars <-
     for_each (range length) []
       (fun code_chars i =>
          j <- lift (pymod i (len hash_bytes)) ;;
          b <- lift (getitem hash_bytes j) ;;
          let byte_val := b + i in
          k <- lift (pymod byte_val (len chars)) ;;
          c <- lift (getitem chars k) ;;
          ret (code_chars ++ [[c]])) ;;
   ret (join code_chars))%py.

Definition default_length : Z := 8.

End SyncTest.

(* ================================================================== *)
(** ** The derivation, as the specification words it *)

Definition alphabet : pystr := lit "ABCDEFGHIJKLMNOPQRSTUVWXYZ0123456789".

(** The character at position [i]: index [(digest[i mod 32] + i) mod 36]
    of the alphabet. *)
Definition code_char (digest : pybytes) (i : Z) : Z :=
  nth (Z.to_nat ((nth (Z.to_nat (i mod 32)) digest 0 + i) mod 36)) alphabet 0.

(** The concatenation for [i] from 0 to [n - 1], for the digest of the
    period bytes [p] keyed by the secret bytes [s]. *)
Definition deriveCode_spec (p s : pybytes) (n : Z) : pystr :=
  map (code_char (HMAC.hmac_sha256 s p)) (range n).

(** The body of the [for] loop of the three copies. *)
Definition code_turn (hash_bytes : pybytes) (chars : pystr)
    (code_chars : list pystr) (i : Z) : M (list pystr) :=
  (j <- lift (pymod i (len hash_bytes)) ;;
   b <- lift (getitem hash_bytes j) ;;
   let byte_val := b + i in
   k <- lift (pymod byte_val (len chars)) ;;
   c <- lift (getitem chars k) ;;
   ret (code_chars ++ [[c]]))%py.


(** What a copy of the derivation returns, errors included: the secret
    is encoded first, then the period. *)
Definition derive_result (s p : pystr) (n : Z) : result pystr :=
  (sb <- encode_utf8 s ;;
   pb <- encode_utf8 p ;;
   Ok (deriveCode_spec pb sb n))%result.

(** The bytes of a digest read as one big-endian number, to state test
    vectors. *)
Definition as_number (bs : pybytes) : Z :=
  fold_left (fun a b => a * 256 + b) bs 0.

(** ** Sample worlds

    A world whose clock stands still at [t], whose operator types
    [keys] and then closes the terminal, and whose server answers
    [server_ok] to every start and stop. *)
Definition still_world (t : datetime) (keys : list key) (server_ok : bool)
    : world :=
  mkworld (fun _ => t) 0 (fun k => nth k keys CtrlD) 0
          (fun _ => server_ok) 0 [].

Definition june_2025 : datetime := mkdatetime 2025 6 15 10 30 0 500000.
Definition new_year_2025 : datetime := mkdatetime 2025 1 1 0 0 0 0.

(** ** The expiry, as the specification words it *)

(** The last calendar day of a month. *)
Definition last_day_of_month (y m : Z) : Z :=
  if m =? 2 then
    if (y mod 4 =? 0) && (negb (y mod 100 =? 0) || (y mod 400 =? 0))
    then 29 else 28
  else if (m =? 4) || (m =? 6) || (m =? 9) || (m =? 11) then 30
  else 31.

(** 23:59:59 on the last day of the month. *)
Definition end_of_month (y m : Z) : datetime :=
  mkdatetime y m (last_day_of_month y m) 23 59 59 0.

(** The lines that [get_current_code_with_expiry] and
    [display_code_status] share: from [current_date] to [expires_at]. *)
Definition expires_at_of (current_date : datetime) : result datetime :=
  (next_month <-
     (if month current_date =? 12
      then PyDatetime.new_date (year current_date + 1) 1 1
      else PyDatetime.new_date (year current_date)
                               (month current_date + 1) 1) ;;
   expires_at <- PyDatetime.sub_days next_month 1 ;;
   PyDatetime.replace_hms expires_at 23 59 59)%result.

(** The world after [k] more readings of the clock. *)
Definition advance (k : nat) (w : world) : world :=
  mkworld (clock w) (k + ticks w) (keyboard w) (reads w)
          (asterisk w) (calls w) (trace w).

(** The period string of an instant. *)
Definition period_of (t : datetime) : pystr :=
  format_02d (month t) ++ lit "-" ++ format_d (year t).

(** The day before the first day of the next month, as the ordinal
    arithmetic of [datetime] finds it. *)
Definition eve_of_next_month (y m : Z) : Z * Z * Z :=
  if m =? 12 then PyDatetime.ord2ymd (PyDatetime.ymd2ord (y + 1) 1 1 - 1)
  else PyDatetime.ord2ymd (PyDatetime.ymd2ord y (m + 1) 1 - 1).

(** Whether that day is the last day of the month. *)
Definition month_checked (y m : Z) : bool :=
  let '(y', m', d') := eve_of_next_month y m in
  (y' =? y) && (m' =? m) && (d' =? last_day_of_month y m).

Definition interval (lo hi : Z) : list Z :=
  map (fun k => lo + Z.of_nat k) (seq 0 (Z.to_nat (hi + 1 - lo))).

(** The code of the month of [t] for a secret whose bytes are [sb]. *)
Definition code_of_month (sb : pybytes) (t : datetime) : pystr :=
  deriveCode_spec (period_of t) sb 8.

Definition is_ascii (c : Z) : Prop := 0 <= c < 128.

(** Instants used as examples. *)
Definition december_9999 : datetime := mkdatetime 9999 12 15 12 0 0 0.
Definition mid_december_2024 : datetime := mkdatetime 2024 12 15 10 30 0 500000.
Definition last_second_2024 : datetime := mkdatetime 2024 12 31 23 59 59 500000.
Definition february_2024 : datetime := mkdatetime 2024 2 10 8 0 0 0.
Definition february_2025 : datetime := mkdatetime 2025 2 10 8 0 0 0.

(** ** Reading a run of the dialogue *)

(** The world after an [input()], and after a start or stop of the
    server. *)
Definition asked (w : world) : world :=
  mkworld (clock w) (ticks w) (keyboard w) (S (reads w))
          (asterisk w) (calls w) (Asked :: trace w).

Definition called (e : event) (w : world) : world :=
  mkworld (clock w) (ticks w) (keyboard w) (reads w)
          (asterisk w) (S (calls w)) (e :: trace w).

(** A failed validation is answered by one of two messages. *)
Definition is_failure (e : event) : bool :=
  match e with
  | Printed (MsgRemaining _) | Printed MsgTooMany => true
  | _ => false
  end.

Definition is_asked (e : event) : bool :=
  match e with Asked => true | _ => false end.

Definition is_too_many (e : event) : bool :=
  match e with Printed MsgTooMany => true | _ => false end.

Definition is_correct (e : event) : bool :=
  match e with Printed MsgCorrect => true | _ => false end.

Definition is_started (e : event) : bool :=
  match e with Started => true | _ => false end.

Definition count (p : event -> bool) (evs : list event) : nat :=
  length (filter p evs).

(** The messages that answer the failed validations when the counter
    starts at [n], oldest first: [n - 1] attempts left, ..., one
    attempt left, too many attempts. *)
Fixpoint countdown (n : nat) : list event :=
  match n with
  | O => []
  | S k =>
      match k with
      | O => [Printed MsgTooMany]
      | S _ => Printed (MsgRemaining (Z.of_nat k)) :: countdown k
      end
  end.

(** The secret of [HiddenAccessCodeManager], as bytes. *)
Definition secret_bytes : pybytes := Serziam.Config.SECRET_SEED.

(** What a turn of the loop comes to, effects resolved. *)
Definition turn_outcome (unicode_upper : Z -> pystr) (attempts : Z)
    (w : world) : result Serziam.flow * world :=
  match keyboard w (reads w) with
  | CtrlC => (Ok (Serziam.Return false), emit (Printed MsgCancelled) (asked w))
  | CtrlD => (Raise EOFError, asked w)
  | Line raw =>
      let w2 := advance 1 (asked w) in
      if str_eqb (upper unicode_upper (strip raw))
                 (code_of_month secret_bytes (clock w (ticks w)))
      then
        let w3 := called Started (emit (Printed MsgCorrect) w2) in
        if asterisk w (calls w)
        then (Ok (Serziam.Return true), emit (Printed MsgUnlocked) w3)
        else (Ok (Serziam.Return false), emit (Printed MsgRestartError) w3)
      else if 0 <? attempts - 1
      then (Ok (Serziam.Continue (attempts - 1)),
            emit (Printed (MsgRemaining (attempts - 1))) w2)
      else (Ok (Serziam.Return false), emit (Printed MsgTooMany) w2)
  end.

(** The runs of the loop entered with [n] attempts left: the events in
    the order they happen, and what the loop returns. *)
Inductive loop_run : nat -> list event -> result (option bool) -> Prop :=
  | run_cancelled n :
      loop_run (S n) [Asked; Printed MsgCancelled] (Ok (Some false))
  | run_closed n :
      loop_run (S n) [Asked] (Raise EOFError)
  | run_unlocked n :
      loop_run (S n) [Asked; Printed MsgCorrect; Started; Printed MsgUnlocked]
               (Ok (Some true))
  | run_restart_error n :
      loop_run (S n)
               [Asked; Printed MsgCorrect; Started; Printed MsgRestartError]
               (Ok (Some false))
  | run_exhausted :
      loop_run 1 [Asked; Printed MsgTooMany] (Ok (Some false))
  | run_retry n evs r :
      loop_run (S n) evs r ->
      loop_run (S (S n))
               (Asked :: Printed (MsgRemaining (Z.of_nat (S n))) :: evs) r.

(** The world in which the loop of [_prompt_for_new_code] starts: the
    clock was read three times and three lines were printed. *)
Definition dialogue_start (w : world) : world :=
  emit (Printed MsgPleaseEnter)
    (emit (Printed MsgGenerated)
       (emit (Printed (MsgPeriod (clock w (ticks w)))) (advance 3 w))).

(** A table for the examples: the characters beyond ASCII are left as
    they are. *)
Definition plain_upper : Z -> pystr := fun c => [c].


(** ** Months that follow each other *)

Definition next_month_of (y m : Z) : Z * Z :=
  if m =? 12 then (y + 1, 1) else (y, m + 1).

Definition first_instant (ym : Z * Z) : datetime :=
  mkdatetime (fst ym) (snd ym) 1 0 0 0 0.

Definition codes_differ (a b : pystr) : bool := negb (str_eqb a b).

(* ================================================================== *)
(** * The rest of the program *)

(** ** Reading decimal digits back *)

(** The number that a string of decimal digits writes. *)
Definition dec_value (s : pystr) : Z :=
  fold_left (fun a c => 10 * a + (c - 48)) s 0.

(** ** More sample worlds *)

(** A world whose first three readings of the clock fall on the last
    second of 2024 and the later ones on new year's day. *)
Definition new_year_world (keys : list key) (server_ok : bool) : world :=
  mkworld (fun k => if (k <? 3)%nat
                    then mkdatetime 2024 12 31 23 59 59 0
                    else new_year_2025)
          0 (fun k => nth k keys CtrlD) 0 (fun _ => server_ok) 0 [].

(** ** Renditions of a code *)

(** [x] is the character [y] of a code, or its lowercase letter. *)
Definition same_letter (x y : Z) : Prop :=
  x = y \/ (65 <= y <= 90 /\ x = y + 32).

(** An uppercase ASCII letter or a digit. *)
Definition is_code_char (c : Z) : Prop := 65 <= c <= 90 \/ 48 <= c <= 57.

(* ================================================================== *)
(** ** The machine around the gate

    The rest of the program runs external programs, writes files and
    keeps a table of users.  What it does to the machine is written to
    a journal; whether an operation on the machine succeeds is not in
    the hands of the program, and is read from [answers]: the k-th
    operation ends with an exit status, or breaks with an exception. *)

(** What can be raised: the exceptions of the first part and those of
    the operations on the machine. *)
Inductive fault : Type :=
  | Py (e : pyexc)
  | CalledProcessError   (* [subprocess.run(check=True)], status not 0 *)
  | DatabaseError        (* any [sqlite3.Error] *)
  | OSError              (* files, directories, programs that do not run *)
  | SystemExit (status : Z).

(** [except Exception] lets [SystemExit] and [KeyboardInterrupt]
    through. *)
Definition is_exception (f : fault) : bool :=
  match f with
  | SystemExit _ | Py KeyboardInterrupt => false
  | _ => true
  end.

Inductive outcome (A : Type) : Type :=
  | Fine (a : A)
  | Fault (f : fault).
Arguments Fine {A} a.
Arguments Fault {A} f.

Inductive answer : Type :=
  | Exits (status : Z)
  | Breaks.

(** The pieces of an f-string: its text, and the values put in. *)
Inductive part : Type :=
  | T (text : string)
  | V (value : pystr)
  | N (number : Z)
  | E (error : fault).

Inductive action : Type :=
  | Ran (argv : list string)           (* [subprocess.run(argv, ...)] *)
  | MadeDir (path : string)            (* [os.makedirs(path, exist_ok=True)] *)
  | Wrote (path : string) (content : pystr)   (* [open(path, "w")], [write] *)
  | ReadFile (path : string)           (* [open(path, "r")], [read] *)
  | Connected                          (* [sqlite3.connect(Config.DB_PATH)] *)
  | Executed (statement : string)      (* [cursor.execute], by its first words *)
  | Committed                          (* [conn.commit()] *)
  | Slept (seconds : Z)                (* [time.sleep] *)
  | Cleared                            (* [os.system('clear')] *)
  | Traced (error : fault)             (* [traceback.print_exc()] *)
  | Prompted (line : list part)        (* the prompt of an [input] *)
  | Said (line : list part).           (* [print] *)

(** A row of the table [users]. *)
Record user : Type := mkuser {
  user_id : Z;
  numero : pystr;
  password : pystr;
  context : pystr;
  created_at : Z
}.

Record machine : Type := mkmachine {
  term : world;                 (* clock, keyboard and server, as before *)
  answers : nat -> answer;      (* the fate of the k-th operation *)
  operations : nat;
  dice : nat -> nat;            (* the k-th draw of [random.choice] *)
  draws : nat;
  euid : Z;                     (* [os.geteuid()] *)
  os_release : pystr;           (* the content of /etc/os-release *)
  stamps : nat -> Z;            (* CURRENT_TIMESTAMP at the k-th operation *)
  table : list user;            (* the rows of [users], in rowid order *)
  disk : list (string * pystr); (* the files written, latest first *)
  journal : list action         (* what was done, latest first *)
}.

Definition P (A : Type) : Type := machine -> outcome A * machine.

Definition pret {A} (a : A) : P A := fun s => (Fine a, s).

Definition pbind {A B} (m : P A) (k : A -> P B) : P B :=
  fun s =>
    match m s with
    | (Fine a, s') => k a s'
    | (Fault f, s') => (Fault f, s')
    end.

Definition raise {A} (f : fault) : P A := fun s => (Fault f, s).

Declare Scope machine_scope.
Delimit Scope machine_scope with machine.
Notation "x <- m ;; k" := (pbind m (fun x => k))
  (at level 61, m at next level, right associativity) : machine_scope.
Notation "m ;; k" := (pbind m (fun _ => k))
  (at level 61, right associativity) : machine_scope.

(** [try: body except ...: handler]: [handler f] is [None] when no
    clause matches [f]. *)
Definition try_catch {A} (body : P A) (handler : fault -> option (P A)) : P A :=
  fun s =>
    match body s with
    | (Fault f, s') =>
        match handler f with
        | Some h => h s'
        | None => (Fault f, s')
        end
    | done => done
    end.

(** The clause [except Exception as e]. *)
Definition on_exception {A} (h : fault -> P A) (f : fault) : option (P A) :=
  if is_exception f then Some (h f) else None.

(** The bare clause [except:]. *)
Definition on_anything {A} (h : P A) (f : fault) : option (P A) := Some h.

Definition set_term (w : world) (s : machine) : machine :=
  mkmachine w (answers s) (operations s) (dice s) (draws s) (euid s)
            (os_release s) (stamps s) (table s) (disk s) (journal s).

Definition set_table (t : list user) (s : machine) : machine :=
  mkmachine (term s) (answers s) (operations s) (dice s) (draws s) (euid s)
            (os_release s) (stamps s) t (disk s) (journal s).

Definition set_disk (d : list (string * pystr)) (s : machine) : machine :=
  mkmachine (term s) (answers s) (operations s) (dice s) (draws s) (euid s)
            (os_release s) (stamps s) (table s) d (journal s).

Definition note (a : action) (s : machine) : machine :=
  mkmachine (term s) (answers s) (operations s) (dice s) (draws s) (euid s)
            (os_release s) (stamps s) (table s) (disk s) (a :: journal s).

Definition next_operation (s : machine) : machine :=
  mkmachine (term s) (answers s) (S (operations s)) (dice s) (draws s)
            (euid s) (os_release s) (stamps s) (table s) (disk s) (journal s).

Definition next_draw (s : machine) : machine :=
  mkmachine (term s) (answers s) (operations s) (dice s) (S (draws s))
            (euid s) (os_release s) (stamps s) (table s) (disk s) (journal s).

(** A function of the first part, run on the terminal of the machine. *)
Definition on_term {A} (m : M A) : P A :=
  fun s =>
    match m (term s) with
    | (Ok a, w) => (Fine a, set_term w s)
    | (Raise e, w) => (Fault (Py e), set_term w s)
    end.

(** [print(f"...")]. *)
Definition say (line : list part) : P unit :=
  fun s => (Fine tt, note (Said line) s).

(** [input(f"...")]. *)
Definition ask (line : list part) : P pystr :=
  ((fun s => (Fine tt, note (Prompted line) s)) ;; on_term input)%machine.

(** An operation on the machine: it is written to the journal, and it
    ends with a status or breaks with [broken]. *)
Definition operate (a : action) (broken : fault) : P Z :=
  fun s =>
    let s' := next_operation (note a s) in
    match answers s (operations s) with
    | Exits status => (Fine status, s')
    | Breaks => (Fault broken, s')
    end.

(** [subprocess.run(argv, ...)]: gives the return code. *)
Definition run (argv : list string) : P Z := operate (Ran argv) OSError.

(** [subprocess.run(argv, check=True)]. *)
Definition run_checked (argv : list string) : P unit :=
  (status <- run argv ;;
   if status =? 0 then pret tt else raise CalledProcessError)%machine.

(** [for x in l: body(x)]. *)
Fixpoint for_all {A} (l : list A) (body : A -> P unit) : P unit :=
  match l with
  | [] => pret tt
  | x :: r => (body x ;; for_all r body)%machine
  end.

(** [for x in l: s = body(s, x)]. *)
Fixpoint for_fold {A S} (l : list A) (s : S) (body : S -> A -> P S) : P S :=
  match l with
  | [] => pret s
  | x :: r => (s' <- body s x ;; for_fold r s' body)%machine
  end.

(** [time.sleep(n)]. *)
Definition sleep (seconds : Z) : P unit :=
  fun s => (Fine tt, note (Slept seconds) s).

(** A line break inside an f-string. *)
Definition nl : string := String "010"%char EmptyString.

(** [os.makedirs(path, exist_ok=True)]. *)
Definition makedirs (path : string) : P unit :=
  (_ <- operate (MadeDir path) OSError ;; pret tt)%machine.

(** [with open(path, "w") as f: f.write(content)]. *)
Definition write_file (path : string) (content : pystr) : P unit :=
  (_ <- operate (Wrote path content) OSError ;;
   fun s => (Fine tt, set_disk ((path, content) :: disk s) s))%machine.

(** [with open('/etc/os-release', 'r') as f: f.read()]. *)
Definition read_os_release : P pystr :=
  (_ <- operate (ReadFile "/etc/os-release") OSError ;;
   fun s => (Fine (os_release s), s))%machine.

(** [sqlite3.connect(Config.DB_PATH)], [cursor.execute(...)] and
    [conn.commit()], as far as they can break. *)
Definition DB_PATH : string := "/home/vps/asterisk/asterisk.db".
Definition DB_DIR : string := "/home/vps/asterisk".
Definition connect : P unit :=
  (_ <- operate Connected DatabaseError ;; pret tt)%machine.
Definition execute (statement : string) : P unit :=
  (_ <- operate (Executed statement) DatabaseError ;; pret tt)%machine.
Definition commit : P unit :=
  (_ <- operate Committed DatabaseError ;; pret tt)%machine.

(** [needle in hay], for strings. *)
Fixpoint starts_with (needle hay : pystr) : bool :=
  match needle, hay with
  | [], _ => true
  | _ :: _, [] => false
  | a :: n, b :: h => (a =? b) && starts_with n h
  end.

Fixpoint contains (needle hay : pystr) : bool :=
  starts_with needle hay
  || match hay with
     | [] => false
     | _ :: h => contains needle h
     end.

(** [str.lower()]: the ASCII letters, and for the rest the table of the
    interpreter. *)
Definition lower_char (unicode_lower : Z -> pystr) (c : Z) : pystr :=
  if (65 <=? c) && (c <=? 90) then [c + 32]
  else if c <? 128 then [c]
  else unicode_lower c.

Definition lower (unicode_lower : Z -> pystr) (s : pystr) : pystr :=
  concat (map (lower_char unicode_lower) s).

(** The truth value of what a function returns: [None] for a function
    that ends without [return]. *)
Definition truthy (v : option bool) : bool :=
  match v with
  | Some b => b
  | None => false
  end.

(* ================================================================== *)
(** ** serziamupdate.py

    The file is a patch of serziam.py: it is read with the imports and
    the [Config] of that file. *)

Module SystemInstaller.

Definition required_packages : list (string * string) :=
  [ ("asterisk", "Asterisk PBX");
    ("iptables", "Système de firewall");
    ("ufw", "Firewall simplifié");
    ("sqlite3", "Base de données SQLite");
    ("python3-pip", "Gestionnaire de paquets Python") ]%string.

(** [', '.join(names)]. *)
Fixpoint comma_join (names : list string) : string :=
  match names with
  | [] => EmptyString
  | [x] => x
  | x :: r => (x ++ ", " ++ comma_join r)%string
  end.

Definition install_packages (missing_packages : list (string * string))
    : P bool :=
  (try_catch
     (say [T "🔄 Mise à jour des dépôts..."] ;;
      run_checked ["apt"; "update"]%string ;;
      let packages_to_install := map fst missing_packages in
      say [T "📦 Installation: "; T (comma_join packages_to_install)] ;;
      run_checked (["apt"; "install"; "-y"]%string ++ packages_to_install) ;;
      say [T "✅ Tous les paquets installés avec succès"] ;;
      pret true)
     (fun f =>
        match f with
        | CalledProcessError =>
            Some (say [T "❌ Erreur lors de l'installation: "; E f] ;;
                  say [T "💡 Essayez: sudo apt update && sudo apt install asterisk iptables ufw sqlite3 python3-pip"] ;;
                  pret false)
        | _ =>
            on_exception
              (fun e => say [T "❌ Erreur inattendue: "; E e] ;; pret false) f
        end))%machine.

(** One turn of the loop over [required_packages.items()]. *)
Definition check_package (missing_packages : list (string * string))
    (item : string * string) : P (list (string * string)) :=
  (let '(package, description) := item in
   try_catch
     (status <- run ["dpkg"; "-l"; package]%string ;;
      if negb (status =? 0) then pret (missing_packages ++ [item])
      else
        say [T "✅ "; T package; T " ("; T description; T ") - Installé"] ;;
        pret missing_packages)
     (on_exception
        (fun e =>
           say [T "❌ Erreur vérification "; T package; T ": "; E e] ;;
           pret missing_packages)))%machine.

(** The function has no [return]: it gives [None]. *)
Definition check_and_install_packages : P (option bool) :=
  (say [T "🔍 Vérification des paquets système..."] ;;
   missing_packages <- for_fold required_packages [] check_package ;;
   match missing_packages with
   | _ :: _ =>
       say [T nl; T "📦 Installation de ";
            N (Z.of_nat (List.length missing_packages));
            T " paquet(s) manquant(s)..."] ;;
       _ <- install_packages missing_packages ;;
       pret None
   | [] =>
       say [T "✅ Tous les paquets nécessaires sont installés"] ;;
       pret None
   end)%machine.

Definition asterisk_ports : list string :=
  [ "5060/tcp"; "5060/udp"; "5061/tcp"; "5061/udp"; "10000:20000/udp";
    "5038/tcp"; "8088/tcp"; "8089/tcp" ]%string.

Definition configure_firewall : P (option bool) :=
  (say [T "🔥 Configuration du firewall..."] ;;
   try_catch
     (run_checked ["ufw"; "--force"; "reset"]%string ;;
      run_checked ["ufw"; "default"; "deny"; "incoming"]%string ;;
      run_checked ["ufw"; "default"; "allow"; "outgoing"]%string ;;
      for_all asterisk_ports
        (fun port =>
           run_checked ["ufw"; "allow"; port]%string ;;
           say [T "✅ Port "; T port; T " ouvert"]) ;;
      run_checked ["ufw"; "--force"; "enable"]%string ;;
      run_checked ["iptables-save"]%string ;;
      say [T "✅ Firewall configuré avec succès"] ;;
      pret (Some true))
     (on_exception
        (fun e =>
           say [T "❌ Erreur configuration firewall: "; E e] ;;
           say [T "💡 Configuration manuelle requise"] ;;
           pret (Some false))))%machine.

Definition directories : list string :=
  [ "/etc/asterisk"; "/var/log/asterisk"; "/var/run/asterisk";
    "/var/spool/asterisk"; "/var/lib/asterisk" ]%string.

Definition basic_config : pystr := lit "
[directories]
astetcdir => /etc/asterisk
astmoddir => /usr/lib/asterisk/modules
astvarlibdir => /var/lib/asterisk
astdbdir => /var/lib/asterisk
astkeydir => /var/lib/asterisk
astdatadir => /var/lib/asterisk
astagidir => /var/lib/asterisk/agi-bin
astspooldir => /var/spool/asterisk
astrundir => /var/run/asterisk
astlogdir => /var/log/asterisk

[options]
verbose = 3
debug = 0
maxfiles = 100000
".

Definition setup_asterisk : P (option bool) :=
  (say [T "📞 Configuration d'Asterisk..."] ;;
   try_catch
     (for_all directories
        (fun directory =>
           makedirs directory ;;
           run_checked ["chown"; "asterisk:asterisk"; directory]%string) ;;
      write_file "/etc/asterisk/asterisk.conf" basic_config ;;
      run_checked ["systemctl"; "restart"; "asterisk"]%string ;;
      run_checked ["systemctl"; "enable"; "asterisk"]%string ;;
      say [T "✅ Asterisk configuré avec succès"] ;;
      pret (Some true))
     (on_exception
        (fun e =>
           say [T "❌ Erreur configuration Asterisk: "; E e] ;;
           pret (Some false))))%machine.

(** The statements create the tables that are not there, and the one
    row of [system_status]: the rows of [users] are as before. *)
Definition initialize_database : P (option bool) :=
  (say [T "🗄️  Initialisation de la base de données..."] ;;
   try_catch
     (makedirs DB_DIR ;;
      connect ;;
      execute "CREATE TABLE IF NOT EXISTS access_codes" ;;
      execute "CREATE TABLE IF NOT EXISTS users" ;;
      execute "CREATE TABLE IF NOT EXISTS system_status" ;;
      execute "INSERT OR IGNORE INTO system_status (id, asterisk_running) VALUES (1, 0)" ;;
      commit ;;
      run_checked ["chmod"; "755"; DB_DIR]%string ;;
      run_checked ["chmod"; "644"; DB_PATH]%string ;;
      say [T "✅ Base de données initialisée avec succès"] ;;
      pret (Some true))
     (on_exception
        (fun e =>
           say [T "❌ Erreur initialisation base de données: "; E e] ;;
           pret (Some false))))%machine.

Definition steps : list (string * P (option bool)) :=
  [ ("Vérification des paquets", check_and_install_packages);
    ("Configuration du firewall", configure_firewall);
    ("Configuration d'Asterisk", setup_asterisk);
    ("Initialisation base de données", initialize_database) ]%string.

(** The loop over [steps], and what follows it. *)
Fixpoint run_steps (l : list (string * P (option bool))) : P bool :=
  match l with
  | [] =>
      (say [T nl; T "🎉 INSTALLATION TERMINÉE AVEC SUCCÈS!"] ;;
       say [T "Le système est maintenant prêt à être utilisé."] ;;
       pret true)%machine
  | (step_name, step_function) :: rest =>
      (say [T nl; T "📋 "; T step_name; T "..."] ;;
       done <- step_function ;;
       if truthy done then
         say [T "✅ "; T step_name; T " - TERMINÉ"] ;;
         sleep 1 ;;
         run_steps rest
       else
         say [T "❌ "; T step_name; T " - ÉCHEC"] ;;
         pret false)%machine
  end.

Definition full_system_install : P bool :=
  (say [T "🚀 INSTALLATION AUTOMATIQUE DU SYSTÈME"] ;;
   say [T "=================================================="] ;;
   run_steps steps)%machine.

End SystemInstaller.

Module SystemChecker.

Section Checks.

Variable unicode_lower : Z -> pystr.

Definition _check_ubuntu : P bool :=
  try_catch
    (content <- read_os_release ;;
     let content := lower unicode_lower content in
     pret (contains (lit "ubuntu") content || contains (lit "debian") content))%machine
    (on_anything (pret false)).

Definition _check_root : P bool :=
  fun s => (Fine (euid s =? 0), s).

Definition _check_internet : P bool :=
  try_catch
    (_ <- run ["ping"; "-c"; "1"; "8.8.8.8"]%string ;; pret true)%machine
    (on_anything (pret false)).

(** [conn.close()] follows at once: there is nothing it can do. *)
Definition _check_database : P bool :=
  try_catch (connect ;; pret true)%machine (on_anything (pret false)).

Definition _check_asterisk_service : P bool :=
  try_catch
    (status <- run ["systemctl"; "is-active"; "asterisk"]%string ;;
     pret (status =? 0))%machine
    (on_anything (pret false)).

Definition checks : list (string * P bool) :=
  [ ("Système Ubuntu/Debian", _check_ubuntu);
    ("Privilèges root", _check_root);
    ("Connectivité Internet", _check_internet);
    ("Base de données", _check_database);
    ("Service Asterisk", _check_asterisk_service) ]%string.

Definition check_system_requirements : P bool :=
  (say [T "🔍 Diagnostic du système..."] ;;
   for_fold checks true
     (fun all_ok check =>
        let '(check_name, check_function) := check in
        ok <- check_function ;;
        if ok then say [T "✅ "; T check_name] ;; pret all_ok
        else say [T "❌ "; T check_name] ;; pret false))%machine.

End Checks.

End SystemChecker.

(** [main] of serziamupdate.py.  The menu it opens at the end is the
    one of serziam.py, [CompleteMenuManager().main_menu()]; it is taken
    as it comes. *)
Module Update.

Section Main.

Variable unicode_lower : Z -> pystr.
Variable main_menu : P unit.

Definition main : P unit :=
  try_catch
    (say [T "🚀 ASTERISK MANAGER - INSTALLATION AUTOMATIQUE"] ;;
     say [T "   Système professionnel de gestion Asterisk"] ;;
     say [T "============================================================"] ;;
     ready <- SystemChecker.check_system_requirements unicode_lower ;;
     (if negb ready then
        say [T nl; T "❌ Prérequis système non satisfaits."] ;;
        say [T "🔧 Lancement de l'installation automatique..."] ;;
        installed <- SystemInstaller.full_system_install ;;
        if negb installed then
          say [T "❌ Échec de l'installation automatique"] ;;
          say [T "💡 Solutions manuelles:"] ;;
          say [T "   1. sudo apt update && sudo apt install asterisk iptables ufw sqlite3"] ;;
          say [T "   2. Configurer le firewall: sudo ufw allow 5060,5061,10000:20000/udp"] ;;
          say [T "   3. Redémarrer: sudo systemctl restart asterisk"] ;;
          raise (SystemExit 1)
        else pret tt
      else pret tt) ;;
     (fun s =>
        if negb (euid s =? 0) then
          (say [T "❌ Ce script doit être exécuté en tant que root"] ;;
           say [T "💡 Utilisez: sudo python3 script_complet.py"] ;;
           raise (SystemExit 1)) s
        else pret tt s) ;;
     say [T nl; T "✅ Système prêt!"] ;;
     say [T "📞 Démarrage du gestionnaire Asterisk..."] ;;
     main_menu)%machine
    (fun f =>
       match f with
       | Py KeyboardInterrupt =>
           Some (say [T nl; T "⏹️  Arrêt demandé par l'utilisateur"])
       | _ =>
           on_exception
             (fun e =>
                say [T "❌ Erreur critique: "; E e] ;;
                (fun s => (Fine tt, note (Traced e) s)) ;;
                raise (SystemExit 1))%machine
             f
       end).

End Main.

End Update.

(** ** Reading a journal *)

(** The fate of the next [n] operations. *)
Definition fates (s : machine) (n : nat) : list answer :=
  map (fun k => answers s (k + operations s)%nat) (seq 0 n).

Definition succeeded (a : answer) : bool :=
  match a with
  | Exits status => status =? 0
  | Breaks => false
  end.

(** The programs run, the oldest first. *)
Definition commands (j : list action) : list (list string) :=
  rev (flat_map (fun a => match a with Ran argv => [argv] | _ => [] end) j).

(** The operations on the machine, the oldest first. *)
Definition is_operation (a : action) : bool :=
  match a with
  | Ran _ | MadeDir _ | Wrote _ _ | ReadFile _
  | Connected | Executed _ | Committed => true
  | _ => false
  end.

Definition performed (j : list action) : list action :=
  rev (filter is_operation j).

(** How many of a list of commands, each checked, are run: all up to
    the first that does not succeed. *)
Fixpoint attempted (fs : list answer) : nat :=
  match fs with
  | [] => 0
  | a :: r => if succeeded a then S (attempted r) else 1
  end.

Definition firewall_commands : list (list string) :=
  [ ["ufw"; "--force"; "reset"];
    ["ufw"; "default"; "deny"; "incoming"];
    ["ufw"; "default"; "allow"; "outgoing"] ]%string
  ++ map (fun port => ["ufw"; "allow"; port]%string)
         SystemInstaller.asterisk_ports
  ++ [ ["ufw"; "--force"; "enable"]; ["iptables-save"] ]%string.

(** A machine on which nothing was done yet. *)
Definition fresh_machine (w : world) (fate : nat -> answer) (die : nat -> nat)
    (uid : Z) (release : pystr) (rows : list user) : machine :=
  mkmachine w fate 0 die 0 uid release (fun _ => 0) rows [] [].

(** ** The packages that are asked for *)

(** [dpkg -l] says that a package is missing by a status that is not 0;
    a query that breaks says nothing. *)
Definition is_missing (a : answer) : bool :=
  match a with
  | Exits status => negb (status =? 0)
  | Breaks => false
  end.

(** The packages of [l] found missing, when the query of the first is
    the [k]-th operation. *)
Fixpoint missing_among (fate : nat -> answer) (k : nat)
    (l : list (string * string)) : list (string * string) :=
  match l with
  | [] => []
  | p :: r =>
      (if is_missing (fate k) then [p] else []) ++ missing_among fate (S k) r
  end.

Definition query (p : string * string) : list string :=
  ["dpkg"; "-l"; fst p]%string.

(** The programs that [check_and_install_packages] runs on [s]. *)
Definition installer_commands (s : machine) : list (list string) :=
  let missing :=
    missing_among (answers s) (operations s)
      SystemInstaller.required_packages in
  map query SystemInstaller.required_packages
  ++ match missing with
     | [] => []
     | _ :: _ =>
         ["apt"; "update"]%string
         :: (if succeeded (answers s (5 + operations s)%nat)
             then [ ["apt"; "install"; "-y"]%string ++ map fst missing ]
             else [])
     end.

(** What a run did to the machine: [n] operations, [acts] in this
    order, and nothing to the files or the table. *)
Definition did (n : nat) (acts : list action) (s s' : machine) : Prop :=
  answers s' = answers s
  /\ operations s' = (n + operations s)%nat
  /\ performed (journal s') = performed (journal s) ++ acts
  /\ disk s' = disk s
  /\ table s' = table s
  /\ term s' = term s
  /\ euid s' = euid s.

(** An operation that did not break. *)
Definition answered (a : answer) : bool :=
  match a with
  | Exits _ => true
  | Breaks => false
  end.

(** The operations of [check_system_requirements], in their order. *)
Definition requirement_operations : list action :=
  [ ReadFile "/etc/os-release";
    Ran ["ping"; "-c"; "1"; "8.8.8.8"]%string;
    Connected;
    Ran ["systemctl"; "is-active"; "asterisk"]%string ].

(** What the five checks of [check_system_requirements] find on [s]. *)
Definition requirements (unicode_lower : Z -> pystr) (s : machine)
    : list bool :=
  let content := lower unicode_lower (os_release s) in
  [ answered (answers s (operations s))
    && (contains (lit "ubuntu") content || contains (lit "debian") content);
    euid s =? 0;
    answered (answers s (1 + operations s)%nat);
    answered (answers s (2 + operations s)%nat);
    succeeded (answers s (3 + operations s)%nat) ].

(* ================================================================== *)
(** ** serziam.py: the users and the configuration of Asterisk *)

(** A row as [list_users] selects it: numero, context, created_at. *)
Definition listing : Type := (pystr * pystr * Z)%type.

Definition selected (u : user) : listing :=
  (numero u, context u, created_at u).

(** [conn.commit()] after a statement that changes the table: the
    change is kept when the commit succeeds. *)
Definition commit_with (change : list user -> list user) : P unit :=
  (_ <- operate Committed DatabaseError ;;
   fun s => (Fine tt, set_table (change (table s)) s))%machine.

(** The id of a new row: one more than the largest in use. *)
Definition next_id (t : list user) : Z :=
  1 + fold_right Z.max 0 (map user_id t).

Module UserManager.

Definition EXTENSION_PREFIX : pystr := lit "601".

(** [string.digits]. *)
Definition string_digits : pystr := lit "0123456789".

Definition initialize_database : P unit :=
  try_catch
    (connect ;;
     execute "CREATE TABLE IF NOT EXISTS users" ;;
     commit)%machine
    (on_exception
       (fun e => say [T "❌ Erreur initialisation utilisateurs: "; E e])).

(** [random.choice(string.digits)]: the draw picks the place. *)
Definition choice_digit : P Z :=
  fun s =>
    (Fine (nth (dice s (draws s) mod 10) string_digits 48), next_draw s).

(** [''.join(random.choice(string.digits) for _ in range(n))]. *)
Fixpoint random_digits (n : nat) : P pystr :=
  match n with
  | O => pret []
  | S m => (c <- choice_digit ;; r <- random_digits m ;; pret (c :: r))%machine
  end.

(** [cursor.execute("SELECT id FROM users WHERE numero = ?", ...)] and
    [cursor.fetchone()]. *)
Definition select_id (phone_number : pystr) : P (option Z) :=
  (_ <- operate (Executed "SELECT id FROM users WHERE numero = ?")
                DatabaseError ;;
   fun s =>
     (Fine (option_map user_id
              (find (fun u => str_eqb (numero u) phone_number) (table s))),
      s))%machine.

(** The [while True] loop; [fuel] bounds the number of turns, and the
    outer [None] says that the bound was reached. *)
Fixpoint number_loop (fuel : nat) : P (option (option pystr)) :=
  match fuel with
  | O => pret None
  | S f =>
      (digits <- random_digits 6 ;;
       let phone_number := EXTENSION_PREFIX ++ digits in
       found <- select_id phone_number ;;
       match found with
       | None => pret (Some (Some phone_number))
       | Some _ => number_loop f
       end)%machine
  end.

(** The number, or [Some None] for the [None] of the handler. *)
Definition generate_phone_number (fuel : nat) : P (option (option pystr)) :=
  try_catch
    (connect ;; number_loop fuel)%machine
    (on_exception
       (fun e =>
          say [T "❌ Erreur génération numéro: "; E e] ;;
          pret (Some None))%machine).

(** [cursor.execute("INSERT INTO users (numero, password, context)
    VALUES (?, ?, ?)", ...)]: [numero] is UNIQUE. *)
Definition insert_user (phone_number password context : pystr) : P user :=
  (_ <- operate
          (Executed "INSERT INTO users (numero, password, context) VALUES (?, ?, ?)")
          DatabaseError ;;
   fun s =>
     if existsb (fun u => str_eqb (numero u) phone_number) (table s)
     then (Fault DatabaseError, s)
     else (Fine (mkuser (next_id (table s)) phone_number password context
                        (stamps s (operations s))), s))%machine.

(** The number for a user that was added, [Some None] for [False]. *)
Definition add_user (fuel : nat) (password context : pystr)
    : P (option (option pystr)) :=
  try_catch
    (generated <- generate_phone_number fuel ;;
     match generated with
     | None => pret None
     | Some None | Some (Some []) => pret (Some None)
     | Some (Some phone_number) =>
         connect ;;
         row <- insert_user phone_number password context ;;
         commit_with (fun t => t ++ [row]) ;;
         say [T "✅ Utilisateur ajouté: "; V phone_number] ;;
         pret (Some (Some phone_number))
     end)%machine
    (on_exception
       (fun e =>
          say [T "❌ Erreur ajout utilisateur: "; E e] ;;
          pret (Some None))%machine).

Section Listing.

(** The rows with the latest [created_at] first; the order of the rows
    of one instant is the choice of the database. *)
Variable order_by_created_at_desc : list listing -> list listing.

Definition list_users : P (list listing) :=
  try_catch
    (connect ;;
     _ <- operate
            (Executed "SELECT numero, context, created_at FROM users ORDER BY created_at DESC")
            DatabaseError ;;
     fun s => (Fine (order_by_created_at_desc (map selected (table s))), s))%machine
    (on_exception
       (fun e =>
          say [T "❌ Erreur liste utilisateurs: "; E e] ;;
          pret [])%machine).

End Listing.

Definition delete_user (phone_number : pystr) : P bool :=
  try_catch
    (connect ;;
     execute "DELETE FROM users WHERE numero = ?" ;;
     commit_with (filter (fun u => negb (str_eqb (numero u) phone_number))) ;;
     say [T "✅ Utilisateur "; V phone_number; T " supprimé"] ;;
     pret true)%machine
    (on_exception
       (fun e =>
          say [T "❌ Erreur suppression utilisateur: "; E e] ;;
          pret false)%machine).

End UserManager.

Module AsteriskConfigurator.

(** [self.user_manager = UserManager()]. *)
Definition __init__ : P unit := UserManager.initialize_database.

Definition sip_conf : pystr := lit "
[general]
context=default
bindport=5060
bindaddr=0.0.0.0
srvlookup=yes
".

Definition extensions_head : pystr :=
  lit "
[default]
exten => 100,1,Answer()
exten => 100,n,Playback(hello)
exten => 100,n,Hangup()

; Utilisateurs g" ++ [233] ++ lit "n" ++ [233] ++ lit "r" ++ [233]
  ++ lit "s automatiquement
".

Definition extension_of (phone_number : pystr) : pystr :=
  [10] ++ lit "exten => " ++ phone_number ++ lit ",1,Dial(SIP/"
  ++ phone_number ++ lit ")" ++ [10].

Definition pjsip_head : pystr := lit "
[transport-udp]
type=transport
protocol=udp
bind=0.0.0.0:5060

".

Definition pjsip_of (phone_number : pystr) : pystr :=
  lit "
[" ++ phone_number ++ lit "]
type=endpoint
context=default
disallow=all
allow=ulaw,alaw
auth=" ++ phone_number ++ lit "
aors=" ++ phone_number ++ lit "

[" ++ phone_number ++ lit "]
type=auth
auth_type=userpass
password=" ++ phone_number ++ lit "
username=" ++ phone_number ++ lit "

[" ++ phone_number ++ lit "]
type=aor
max_contacts=1
".

Section Configuration.

Variable order_by_created_at_desc : list listing -> list listing.

Definition _create_sip_config : P unit :=
  write_file "/etc/asterisk/sip.conf" sip_conf.

Definition _create_extensions_config : P unit :=
  (users <- UserManager.list_users order_by_created_at_desc ;;
   let extensions_conf :=
     fold_left
       (fun conf (user : listing) =>
          let '(phone_number, context, _) := user in
          conf ++ extension_of phone_number)
       users extensions_head in
   write_file "/etc/asterisk/extensions.conf" extensions_conf)%machine.

Definition _create_pjsip_config : P unit :=
  (users <- UserManager.list_users order_by_created_at_desc ;;
   let pjsip_conf :=
     fold_left
       (fun conf (user : listing) =>
          let '(phone_number, context, _) := user in
          conf ++ pjsip_of phone_number)
       users pjsip_head in
   write_file "/etc/asterisk/pjsip.conf" pjsip_conf)%machine.

Definition configure_asterisk : P bool :=
  (say [T "🔄 Configuration d'Asterisk en cours..."] ;;
   try_catch
     (makedirs "/etc/asterisk" ;;
      _create_sip_config ;;
      _create_extensions_config ;;
      _create_pjsip_config ;;
      say [T "✅ Configuration Asterisk terminée"] ;;
      pret true)
     (on_exception
        (fun e =>
           say [T "❌ Erreur configuration Asterisk: "; E e] ;;
           pret false)))%machine.

End Configuration.

End AsteriskConfigurator.

(** ** Numbers and tables *)

Definition is_digit (c : Z) : Prop := 48 <= c <= 57.

(** The number made of the [k]-th six draws after those of [s]. *)
Definition candidate (s : machine) (k : nat) : pystr :=
  UserManager.EXTENSION_PREFIX
  ++ map (fun i => nth (dice s (i + (6 * k + draws s)) mod 10)
                       UserManager.string_digits 48)
         (seq 0 6).

(** A number that a row of the table has. *)
Definition taken (t : list user) (phone_number : pystr) : bool :=
  existsb (fun u => str_eqb (numero u) phone_number) t.

(** The table without the passwords and the ids. *)
Definition forget_passwords (s : machine) : machine :=
  set_table
    (map (fun u => mkuser 0 (numero u) [] (context u) (created_at u))
         (table s))
    s.

(** A program that does the same whatever the passwords are. *)
Definition blind {A} (m : P A) : Prop :=
  forall s, m (forget_passwords s)
            = (fst (m s), forget_passwords (snd (m s))).

(** ** Sample machines *)

Definition all_well : nat -> answer := fun _ => Exits 0.

Definition sample_rows : list user :=
  [ mkuser 1 (lit "601000000") (lit "secret") (lit "default") 0 ].

(** Six draws of 0, then draws of 1. *)
Definition sample_dice : nat -> nat :=
  fun k => if (k <? 6)%nat then 0%nat else 1%nat.

Definition sample_machine (keys : list key) (fate : nat -> answer)
    : machine :=
  fresh_machine (still_world june_2025 keys true) fate sample_dice 0 []
                sample_rows.

(** The numbers of a listing, in its order. *)
Definition numbers (users : list listing) : list pystr :=
  map (fun user => fst (fst user)) users.

(** A database that cannot be reached while a configuration is written:
    the third and the fifth operation break. *)
Definition unreachable_database : nat -> answer :=
  fun k => if ((k =? 2) || (k =? 4))%nat then Breaks else Exits 0.

(* ================================================================== *)
(** ** serziam.py: the menus of the users *)

(** [enumerate(l, start)]. *)
Fixpoint enumerate {A} (l : list A) (start : Z) : list (Z * A) :=
  match l with
  | [] => []
  | x :: r => (start, x) :: enumerate r (start + 1)
  end.

Module CompleteMenuManager.

Definition clear_screen : P unit :=
  fun s => (Fine tt, note Cleared s).

Definition show_header : P unit :=
  (clear_screen ;;
   say [T "╔══════════════════════════════════════════════════════════════╗"] ;;
   say [T "║              ASTERISK MANAGER - VERSION COMPLÈTE            ║"] ;;
   say [T "║         Configuration Auto + Codes + Blocage Sécurité       ║"] ;;
   say [T "╚══════════════════════════════════════════════════════════════╝"] ;;
   say [])%machine.

Section Menus.

Variable order_by_created_at_desc : list listing -> list listing.
Variable unicode_lower : Z -> pystr.

(** [int(s)] for a string: [None] stands for ValueError. *)
Variable int : pystr -> option Z.

Definition add_user_menu (fuel : nat) : P (option unit) :=
  (show_header ;;
   say [T "➕ AJOUT D'UTILISATEUR"] ;;
   say [] ;;
   raw <- ask [T "Mot de passe pour l'utilisateur: "] ;;
   let password := strip raw in
   raw <- ask [T "Contexte [default]: "] ;;
   let context := match strip raw with
                  | [] => lit "default"
                  | given => given
                  end in
   done <- match password with
           | _ :: _ =>
               phone_number <- UserManager.add_user fuel password context ;;
               match phone_number with
               | None => pret None
               | Some (Some (c :: r)) =>
                   say [T "✅ Utilisateur créé: "; V (c :: r)] ;;
                   say [T "🔄 Mise à jour de la configuration Asterisk..."] ;;
                   _ <- AsteriskConfigurator.configure_asterisk
                          order_by_created_at_desc ;;
                   pret (Some tt)
               | Some _ =>
                   say [T "❌ Erreur lors de la création de l'utilisateur"] ;;
                   pret (Some tt)
               end
           | [] =>
               say [T "❌ Le mot de passe est obligatoire"] ;;
               pret (Some tt)
           end ;;
   match done with
   | None => pret None
   | Some _ =>
       _ <- ask [T nl; T "Appuyez sur Entrée pour continuer..."] ;;
       pret (Some tt)
   end)%machine.

(** The [try] block of [delete_user_menu]: [true] when it ends with
    [return]. *)
Definition delete_choice (users : list listing) : P bool :=
  (raw <- ask [T nl; T "Numéro de l'utilisateur à supprimer (0 pour annuler): "] ;;
   choice <- match int (strip raw) with
             | Some n => pret n
             | None => raise (Py ValueError)
             end ;;
   if choice =? 0 then pret true
   else
     (if (1 <=? choice) && (choice <=? len users) then
        match nth_error users (Z.to_nat (choice - 1)) with
        | None => raise (Py IndexError)
        | Some user =>
            let phone_number := fst (fst user) in
            raw <- ask [T "Confirmer la suppression de "; V phone_number;
                        T "? (o/N): "] ;;
            let confirm := lower unicode_lower (strip raw) in
            if str_eqb confirm (lit "o") || str_eqb confirm (lit "oui") then
              deleted <- UserManager.delete_user phone_number ;;
              if deleted then
                say [T "🔄 Mise à jour de la configuration Asterisk..."] ;;
                _ <- AsteriskConfigurator.configure_asterisk
                       order_by_created_at_desc ;;
                pret tt
              else pret tt
            else say [T "❌ Suppression annulée"]
        end
      else say [T "❌ Choix invalide"]) ;;
     pret false)%machine.

Definition delete_user_menu (users : list listing) : P unit :=
  match users with
  | [] =>
      (say [T "❌ Aucun utilisateur à supprimer"] ;;
       _ <- ask [T "Appuyez sur Entrée pour continuer..."] ;;
       pret tt)%machine
  | _ :: _ =>
      (show_header ;;
       say [T "🗑️  SUPPRESSION D'UTILISATEUR"] ;;
       say [] ;;
       say [T "Utilisateurs existants:"] ;;
       for_all (enumerate users 1)
         (fun numbered =>
            let '(i, (numero, context, _)) := numbered in
            say [T "  "; N i; T ". "; V numero]) ;;
       returned <- try_catch (delete_choice users)
                     (fun f =>
                        match f with
                        | Py ValueError =>
                            Some (say [T "❌ Veuillez entrer un numéro valide"] ;;
                                  pret false)
                        | _ => None
                        end) ;;
       if returned then pret tt
       else
         _ <- ask [T nl; T "Appuyez sur Entrée pour continuer..."] ;;
         pret tt)%machine
  end.

End Menus.

Section Validation.

Variable unicode_upper : Z -> pystr.

(** [self.code_manager] is the [HiddenAccessCodeManager()] of the
    constructor. *)
Definition validate_code_menu : P unit :=
  (show_header ;;
   say [T "🔐 VALIDATION DE CODE"] ;;
   say [] ;;
   raw <- ask [T "Code à valider: "] ;;
   let test_code := upper unicode_upper (strip raw) in
   valid <- on_term (Serziam.validate_code Serziam.HiddenAccessCodeManager
                       test_code) ;;
   (if valid then say [T "✅ Code valide!"]
    else say [T "❌ Code invalide ou expiré"]) ;;
   _ <- ask [T nl; T "Appuyez sur Entrée pour continuer..."] ;;
   pret tt)%machine.

End Validation.

End CompleteMenuManager.

(** ** serziamvalidator.py: the menu of the validation *)

Module VisibleMenuManager.

Definition clear_screen : P unit :=
  fun s => (Fine tt, note Cleared s).

Definition show_header : P unit :=
  (clear_screen ;;
   say [T "╔══════════════════════════════════════════════════════════════╗"] ;;
   say [T "║              ASTERISK MANAGER - CODES VISIBLES              ║"] ;;
   say [T "║             Algorithme déterministe synchronisé             ║"] ;;
   say [T "╚══════════════════════════════════════════════════════════════╝"] ;;
   say [])%machine.

Section Validation.

Variable unicode_upper : Z -> pystr.

Definition validate_code_menu (code_manager : Validator.DeterministicCodeGenerator)
    : P unit :=
  (show_header ;;
   say [T "🔐 VALIDATION DE CODE"] ;;
   current_code <- on_term (Validator.get_current_code code_manager) ;;
   say [T "Code actuel: "; V current_code] ;;
   say [] ;;
   raw <- ask [T "Code à valider: "] ;;
   let test_code := upper unicode_upper (strip raw) in
   valid <- on_term (Validator.validate_code code_manager test_code) ;;
   (if valid then say [T "✅ Code valide!"]
    else say [T "❌ Code invalide ou expiré"]) ;;
   _ <- ask [T nl; T "Appuyez sur Entrée pour continuer..."] ;;
   pret tt)%machine.

End Validation.

End VisibleMenuManager.

(** ** What a program leaves alone *)

(** A program that leaves the table as it is and raises nothing but
    exceptions. *)
Definition harmless {A} (m : P A) : Prop :=
  forall s,
    table (snd (m s)) = table s
    /\ forall f, fst (m s) = Fault f -> is_exception f = true.

(* ================================================================== *)
(** ** serziamtest.py: the test of the synchronization *)

Module SerziamTest.

(** The fixed periods of [test_periods]. *)
Definition fixed_periods : list pystr :=
  map lit [ "01-2024"; "02-2024"; "03-2024"; "06-2024"; "12-2024";
            "01-2025"; "06-2025"; "12-2025" ]%string.

(** One turn of the loop over [test_periods]. *)
Definition check_period (all_synchronized : bool) (period : pystr) : P bool :=
  (code1 <- on_term (SyncTest.generate_deterministic_code
                       period SyncTest.default_length) ;;
   code2 <- on_term (SyncTest.generate_deterministic_code
                       period SyncTest.default_length) ;;
   let status := (if str_eqb code1 code2 then "✅" else "❌")%string in
   say [T status; T " "; V period; T ": "; V code1] ;;
   if negb (str_eqb code1 code2) then
     say [T "   ERREUR: "; V code1; T " != "; V code2] ;;
     pret false
   else pret all_synchronized)%machine.

(** One turn of the loop over [range(10)]; the state is [test_code]
    and [reproducible]. *)
Definition check_generation (current_period : pystr)
    (state : option pystr * bool) (i : Z) : P (option pystr * bool) :=
  (let '(test_code, reproducible) := state in
   new_code <- on_term (SyncTest.generate_deterministic_code
                          current_period SyncTest.default_length) ;;
   match test_code with
   | None =>
       say [T "Génération 1: "; V new_code] ;;
       pret (Some new_code, reproducible)
   | Some code =>
       let status := (if str_eqb new_code code then "✅" else "❌")%string in
       say [T "Génération "; N (i + 1); T ": "; V new_code; T " "; T status] ;;
       if negb (str_eqb new_code code) then pret (test_code, false)
       else pret (test_code, reproducible)
   end)%machine.

Definition test_synchronization : P unit :=
  (say [T "🧪 TEST DE SYNCHRONISATION COMPLET"] ;;
   say [T "=================================================="] ;;
   current_date <- on_term now ;;
   let current_period :=
     format_02d (month current_date) ++ lit "-"
     ++ format_d (year current_date) in
   current_code <- on_term (SyncTest.generate_deterministic_code
                              current_period SyncTest.default_length) ;;
   say [T "Période actuelle: "; V current_period] ;;
   say [T "Code généré: "; V current_code] ;;
   say [] ;;
   let test_periods := current_period :: fixed_periods in
   say [T "📅 TEST AVEC DIFFÉRENTES PÉRIODES:"] ;;
   say [T "----------------------------------------"] ;;
   all_synchronized <- for_fold test_periods true check_period ;;
   say [] ;;
   say [T "🔍 TEST DE REPRODUCTIBILITÉ:"] ;;
   say [T "----------------------------------------"] ;;
   state <- for_fold (range 10) (None, true)
              (check_generation current_period) ;;
   let reproducible := snd state in
   say [] ;;
   say [T "📊 RÉSULTATS:"] ;;
   say [T "----------------------------------------"] ;;
   if all_synchronized && reproducible then
     say [T "🎉 SUCCÈS: Tous les tests de synchronisation sont passés!"] ;;
     say [T "   - Codes identiques pour toutes les périodes"] ;;
     say [T "   - Génération parfaitement reproductible"] ;;
     say [T "   - Les deux scripts produiront les mêmes codes"]
   else
     say [T "💥 ÉCHEC: Problèmes de synchronisation détectés"] ;;
     (if negb all_synchronized then
        say [T "   - Inconsistance entre différentes périodes"]
      else pret tt) ;;
     (if negb reproducible then
        say [T "   - Génération non reproductible"]
      else pret tt))%machine.

End SerziamTest.

(** The last lines of a successful test, the latest first. *)
Definition success_lines : list action :=
  [ Said [T "   - Les deux scripts produiront les mêmes codes"];
    Said [T "   - Génération parfaitement reproductible"];
    Said [T "   - Codes identiques pour toutes les périodes"];
    Said [T "🎉 SUCCÈS: Tous les tests de synchronisation sont passés!"] ].

(* ================================================================== *)
(** ** serziam.py: the test of the synchronization in the menu *)

Module SynchronizationMenu.

Definition test_synchronization : P unit :=
  (CompleteMenuManager.show_header ;;
   say [T "🔍 TEST DE SYNCHRONISATION"] ;;
   say [] ;;
   current_code <- on_term (Serziam.get_current_code
                              Serziam.HiddenAccessCodeManager) ;;
   month_year <- on_term (Serziam.get_current_period
                            Serziam.HiddenAccessCodeManager) ;;
   regenerated_code <- on_term (Serziam.generate_deterministic_code
                                  Serziam.HiddenAccessCodeManager
                                  (Some month_year) Serziam.default_length) ;;
   say [T "Période: "; V month_year] ;;
   say [T "Code généré: *** MASQUÉ ***"] ;;
   say [T "Code régénéré: *** MASQUÉ ***"] ;;
   (if str_eqb current_code regenerated_code then
      say [T "✅ Synchronisation: PARFAITE"] ;;
      say [T "   Les deux instances génèrent le même code"]
    else say [T "❌ Synchronisation: ÉCHEC"]) ;;
   _ <- ask [T nl; T "Appuyez sur Entrée pour continuer..."] ;;
   pret tt)%machine.

End SynchronizationMenu.

(** The verdict of the test in the menu, the latest line first. *)
Definition verdict (synchronized : bool) : list action :=
  if synchronized then
    [ Said [T "   Les deux instances génèrent le même code"];
      Said [T "✅ Synchronisation: PARFAITE"] ]
  else [ Said [T "❌ Synchronisation: ÉCHEC"] ].

(** A clock that shows [t1] at its first reading and [t2] from then on. *)
Definition turning_world (t1 t2 : datetime) (keys : list key) : world :=
  mkworld (fun k => if (k <? 1)%nat then t1 else t2)
          0 (fun k => nth k keys CtrlD) 0 (fun _ => true) 0 [].

(** ** Reading a number *)

(** A string of decimal digits, as [int] reads it. *)
Definition decimal (s : pystr) : option Z :=
  match s with
  | [] => None
  | _ :: _ =>
      if forallb (fun c => (48 <=? c) && (c <=? 57)) s
      then Some (dec_value s)
      else None
  end.

(** A machine whose clock turns from [t1] to [t2] after one reading. *)
Definition turning_machine (t1 t2 : datetime) : machine :=
  fresh_machine (turning_world t1 t2 []) all_well sample_dice 0 [] [].

(* ================================================================== *)
(** ** The validations of a dialogue *)

(** What [validate_code] answers on the [k]-th line entered after [w],
    stripped and put to uppercase, at the [k]-th reading of the clock
    after [w]; [None] when the keyboard gives no line there. *)
Definition validation (unicode_upper : Z -> pystr) (w : world) (k : nat)
    : option bool :=
  match keyboard w (k + reads w) with
  | Line raw =>
      match fst (Serziam.validate_code Serziam.HiddenAccessCodeManager
                   (upper unicode_upper (strip raw)) (advance k w)) with
      | Ok valid => Some valid
      | Raise _ => None
      end
  | _ => None
  end.

(** The events of [k] turns whose validation failed, in a dialogue that
    started with three attempts; the latest first. *)
Fixpoint failed_turns (k : nat) : list event :=
  match k with
  | O => []
  | S j =>
      Printed (MsgRemaining (3 - Z.of_nat (S j))) :: Asked :: failed_turns j
  end.

(** The verdict of a validation menu. *)
Definition validation_line (valid : bool) : action :=
  Said [T (if valid then "✅ Code valide!"
           else "❌ Code invalide ou expiré")%string].

(** A machine at whose keyboard the lines [keys] are entered, in June
    2025. *)
Definition typing_machine (keys : list key) : machine :=
  sample_machine keys all_well.
(* ================================================================== *)
(** * Properties *)

Arguments HMAC.hmac_sha256 : simpl never.
Arguments SHA256.sha256 : simpl never.

(** ** The monad *)

Lemma bind_ok {A B} (m : M A) (k : A -> M B) w a w' :
  m w = (Ok a, w') -> bind m k w = k a w'.
Proof. intros H. unfold bind. rewrite H. reflexivity. Qed.

Lemma bind_raise {A B} (m : M A) (k : A -> M B) w e w' :
  m w = (Raise e, w') -> bind m k w = (Raise e, w').
Proof. intros H. unfold bind. rewrite H. reflexivity. Qed.

Lemma bind_lift_ok {A B} (r : result A) (k : A -> M B) w a :
  r = Ok a -> bind (lift r) k w = k a w.
Proof. intros ->. reflexivity. Qed.

Lemma bind_ret {A B} (a : A) (k : A -> M B) w : bind (ret a) k w = k a w.
Proof. reflexivity. Qed.

(** ** Indexing *)

Lemma getitem_nth {A} (l : list A) (i : Z) (d : A) :
  0 <= i < len l -> getitem l i = Ok (nth (Z.to_nat i) l d).
Proof.
  unfold getitem, len. intros [H0 H1]. cbv zeta.
  destruct (i <? 0) eqn:E; [apply Z.ltb_lt in E; lia|]. rewrite E.
  destruct (nth_error l (Z.to_nat i)) eqn:N.
  - f_equal. symmetry. apply nth_error_nth. exact N.
  - apply nth_error_None in N. lia.
Qed.

Lemma getitem_ok_inv {A} (l : list A) (i : Z) (a : A) :
  getitem l i = Ok a -> - len l <= i < len l.
Proof.
  unfold getitem, len. cbv zeta.
  destruct (i <? 0) eqn:E.
  - apply Z.ltb_lt in E.
    destruct (i + Z.of_nat (length l) <? 0) eqn:F; [discriminate|].
    apply Z.ltb_ge in F. intros _. lia.
  - apply Z.ltb_ge in E. rewrite (proj2 (Z.ltb_ge i 0) E).
    destruct (nth_error l (Z.to_nat i)) eqn:N; [|discriminate].
    intros _.
    assert (Z.to_nat i < length l)%nat
      by (apply nth_error_Some; rewrite N; discriminate).
    lia.
Qed.

Lemma pymod_pos (a b : Z) : 0 < b -> pymod a b = Ok (a mod b).
Proof.
  intros H. unfold pymod.
  destruct (b =? 0) eqn:E; [apply Z.eqb_eq in E; lia | reflexivity].
Qed.

Lemma range_nonneg (n i : Z) : In i (range n) -> 0 <= i < n.
Proof.
  unfold range. rewrite in_map_iff. intros [k [<- H]].
  apply in_seq in H. lia.
Qed.

Lemma range_in (n i : Z) : 0 <= i < n -> In i (range n).
Proof.
  intros H. unfold range. apply in_map_iff.
  exists (Z.to_nat i). split; [lia|]. apply in_seq. lia.
Qed.

Lemma range_length (n : Z) : length (range n) = Z.to_nat n.
Proof. unfold range. rewrite length_map, length_seq. reflexivity. Qed.

(** ** The digest *)

Lemma word_bytes_range (x : Z) :
  Forall (fun b => 0 <= b < 256) (SHA256.word_bytes x).
Proof.
  unfold SHA256.word_bytes.
  repeat constructor; apply Z.mod_pos_bound; lia.
Qed.

Lemma digest_of_length (h : SHA256.regs) :
  length (SHA256.digest_of h) = 32%nat.
Proof. reflexivity. Qed.

Lemma digest_of_range (h : SHA256.regs) :
  Forall (fun b => 0 <= b < 256) (SHA256.digest_of h).
Proof.
  unfold SHA256.digest_of.
  repeat (apply Forall_app; split); apply word_bytes_range.
Qed.

Lemma sha256_length (msg : pybytes) : length (SHA256.sha256 msg) = 32%nat.
Proof. unfold SHA256.sha256. apply digest_of_length. Qed.

Lemma hmac_sha256_length (key msg : pybytes) :
  len (HMAC.hmac_sha256 key msg) = 32.
Proof. unfold len, HMAC.hmac_sha256. rewrite sha256_length. reflexivity. Qed.

Lemma hmac_sha256_range (key msg : pybytes) :
  Forall (fun b => 0 <= b < 256) (HMAC.hmac_sha256 key msg).
Proof. unfold HMAC.hmac_sha256, SHA256.sha256. apply digest_of_range. Qed.

(** The models of the library functions reproduce the published test
    vectors: SHA-256 of "abc" (FIPS 180-4), of the empty message and of
    a message of two blocks, and case 2 of RFC 4231 for HMAC. *)
Example sha256_abc :
  as_number (SHA256.sha256 (lit "abc"))
  = 0xba7816bf8f01cfea414140de5dae2223b00361a396177a9cb410ff61f20015ad.
Proof. vm_compute. reflexivity. Qed.

Example sha256_empty :
  as_number (SHA256.sha256 [])
  = 0xe3b0c44298fc1c149afbf4c8996fb92427ae41e4649b934ca495991b7852b855.
Proof. vm_compute. reflexivity. Qed.

Example sha256_two_blocks :
  as_number
    (SHA256.sha256
       (lit "abcdbcdecdefdefgefghfghighijhijkijkljklmklmnlmnomnopnopq"))
  = 0x248d6a61d20638b8e5c026930c3e6039a33ce45964ff2167f6ecedd419db06c1.
Proof. vm_compute. reflexivity. Qed.

Example hmac_sha256_rfc4231_case2 :
  as_number (HMAC.hmac_sha256 (lit "Jefe")
                              (lit "what do ya want for nothing?"))
  = 0x5bdcc146bf60754e6a042426089575c75a003f089d2739839dec58b964ec3843.
Proof. vm_compute. reflexivity. Qed.

(** ** The derivation loop *)

Lemma code_turn_ok (hash_bytes : pybytes) acc i w :
  len hash_bytes = 32 -> 0 <= i ->
  code_turn hash_bytes alphabet acc i w
  = (Ok (acc ++ [[code_char hash_bytes i]]), w).
Proof.
  intros L Hi. unfold code_turn.
  rewrite (bind_lift_ok _ _ _ (i mod 32)) by (rewrite L; apply pymod_pos; lia).
  rewrite (bind_lift_ok _ _ _ (nth (Z.to_nat (i mod 32)) hash_bytes 0)).
  2:{ apply getitem_nth. rewrite L. apply Z.mod_pos_bound. lia. }
  cbv zeta.
  set (b := nth (Z.to_nat (i mod 32)) hash_bytes 0).
  rewrite (bind_lift_ok _ _ _ ((b + i) mod 36)) by (apply pymod_pos; reflexivity).
  rewrite (bind_lift_ok _ _ _ (nth (Z.to_nat ((b + i) mod 36)) alphabet 0)).
  2:{ apply getitem_nth. change (len alphabet) with 36.
      apply Z.mod_pos_bound. lia. }
  reflexivity.
Qed.

Lemma for_each_code_turn (hash_bytes : pybytes) (l : list Z) acc w :
  len hash_bytes = 32 -> Forall (fun i => 0 <= i) l ->
  for_each l acc (code_turn hash_bytes alphabet) w
  = (Ok (acc ++ map (fun i => [code_char hash_bytes i]) l), w).
Proof.
  intros L. revert acc. induction l as [|i l IH]; intros acc F.
  - simpl. rewrite app_nil_r. reflexivity.
  - inversion F; subst. cbn [for_each].
    rewrite (bind_ok _ _ _ _ _ (code_turn_ok hash_bytes acc i w L H1)).
    rewrite IH by assumption. rewrite <- app_assoc. reflexivity.
Qed.

Lemma join_singletons {A} (f : A -> Z) (l : list A) :
  join (map (fun i => [f i]) l) = map f l.
Proof.
  unfold join. induction l; simpl; [reflexivity | f_equal; assumption].
Qed.

Lemma range_Forall_nonneg (n : Z) : Forall (fun i => 0 <= i) (range n).
Proof. apply Forall_forall. intros i H. apply range_nonneg in H. lia. Qed.

(** ** The three copies compute the specified code *)

(** Unfolds the body of a copy of [generate_deterministic_code] once
    the two encodings are known, and runs its loop. *)
Ltac run_derivation sb pb w n :=
  cbv zeta;
  change (fun (code_chars : list (list Z)) (i : Z) => _)
    with (code_turn (HMAC.hmac_sha256 sb pb) alphabet);
  rewrite (bind_ok _ _ _ _ _
             (for_each_code_turn _ _ [] w (hmac_sha256_length sb pb)
                                 (range_Forall_nonneg n)));
  unfold ret; simpl app; rewrite join_singletons; reflexivity.

Lemma serziam_generate_pure self p n w :
  Serziam.generate_deterministic_code self (Some p) n w
  = (derive_result (Serziam.secret_seed self) p n, w).
Proof.
  unfold Serziam.generate_deterministic_code, derive_result.
  rewrite bind_ret.
  destruct (encode_utf8 (Serziam.secret_seed self)) as [sb|e]; [|reflexivity].
  rewrite (bind_lift_ok _ _ _ sb eq_refl).
  destruct (encode_utf8 p) as [pb|e]; [|reflexivity].
  rewrite (bind_lift_ok _ _ _ pb eq_refl).
  run_derivation sb pb w n.
Qed.

Lemma validator_generate_pure self p n w :
  Validator.generate_deterministic_code self (Some p) n w
  = (derive_result (Validator.secret_seed self) p n, w).
Proof.
  unfold Validator.generate_deterministic_code, derive_result.
  rewrite bind_ret.
  destruct (encode_utf8 (Validator.secret_seed self)) as [sb|e]; [|reflexivity].
  rewrite (bind_lift_ok _ _ _ sb eq_refl).
  destruct (encode_utf8 p) as [pb|e]; [|reflexivity].
  rewrite (bind_lift_ok _ _ _ pb eq_refl).
  run_derivation sb pb w n.
Qed.

Lemma synctest_generate_pure p n w :
  SyncTest.generate_deterministic_code p n w
  = (derive_result SyncTest.SECRET_SEED p n, w).
Proof.
  unfold SyncTest.generate_deterministic_code, derive_result.
  destruct (encode_utf8 SyncTest.SECRET_SEED) as [sb|e]; [|reflexivity].
  rewrite (bind_lift_ok _ _ _ sb eq_refl).
  destruct (encode_utf8 p) as [pb|e]; [|reflexivity].
  rewrite (bind_lift_ok _ _ _ pb eq_refl).
  run_derivation sb pb w n.
Qed.

Lemma derive_result_ok s p n sb pb :
  encode_utf8 p = Ok pb -> encode_utf8 s = Ok sb ->
  derive_result s p n = Ok (deriveCode_spec pb sb n).
Proof. intros Hp Hs. unfold derive_result. rewrite Hs, Hp. reflexivity. Qed.

(** C1. For every period string [p], secret [s] and length [n], the
    derivation of serziam.py and that of serziamvalidator.py return the
    concatenation, for [i] from 0 to [n - 1], of the character at index
    [(digest[i mod 32] + i) mod 36] of the alphabet, where [digest] is
    the 32-byte HMAC-SHA256 of the UTF-8 bytes [pb] of [p] keyed by the
    UTF-8 bytes [sb] of [s]; the world is left as it was. *)
Theorem generate_deterministic_code_spec :
  forall (s p : pystr) (n : Z) (w : world) (sb pb : pybytes),
    encode_utf8 s = Ok sb ->
    encode_utf8 p = Ok pb ->
    let digest := HMAC.hmac_sha256 sb pb in
    let code :=
      map (fun i =>
             nth (Z.to_nat ((nth (Z.to_nat (i mod 32)) digest 0 + i) mod 36))
                 (lit "ABCDEFGHIJKLMNOPQRSTUVWXYZ0123456789") 0)
          (range n) in
    len digest = 32
    /\ Serziam.generate_deterministic_code
         (Serziam.DeterministicCodeGenerator_init s) (Some p) n w
       = (Ok code, w)
    /\ Validator.generate_deterministic_code
         (Validator.DeterministicCodeGenerator_init s) (Some p) n w
       = (Ok code, w).
Proof.
  intros s p n w sb pb Hs Hp digest code.
  split; [apply hmac_sha256_length|].
  rewrite serziam_generate_pure, validator_generate_pure. simpl.
  rewrite (derive_result_ok s p n sb pb Hp Hs). split; reflexivity.
Qed.

Lemma generate_deterministic_code_spec_witness :
  encode_utf8 (lit "asterisk_secure_deterministic_v1")
  = Ok (lit "asterisk_secure_deterministic_v1")
  /\ encode_utf8 (lit "06-2025") = Ok (lit "06-2025")
  /\ Serziam.generate_deterministic_code
       (Serziam.DeterministicCodeGenerator_init
          (lit "asterisk_secure_deterministic_v1"))
       (Some (lit "06-2025")) 8 (still_world june_2025 [] true)
     = (Ok (lit "TESXSJGM"), still_world june_2025 [] true).
Proof.
  split; [reflexivity|]. split; [reflexivity|].
  etransitivity.
  - exact (proj1 (proj2
      (generate_deterministic_code_spec
         (lit "asterisk_secure_deterministic_v1") (lit "06-2025") 8
         (still_world june_2025 [] true)
         (lit "asterisk_secure_deterministic_v1") (lit "06-2025")
         eq_refl eq_refl))).
  - vm_compute. reflexivity.
Defined.

(** ** Totality *)

Lemma deriveCode_spec_length pb sb n : len (deriveCode_spec pb sb n) = Z.max 0 n.
Proof.
  unfold deriveCode_spec, len. rewrite length_map, range_length. lia.
Qed.

Lemma Forall_nth_range (l : list Z) (k : nat) :
  Forall (fun b => 0 <= b < 256) l -> (k < length l)%nat ->
  0 <= nth k l 0 < 256.
Proof.
  intros F H. rewrite Forall_forall in F. apply F. apply nth_In. exact H.
Qed.

(** C8. The derivation is total for every length, also beyond the 32
    bytes of the digest: it returns a code of [n] characters (none when
    [n] is negative), and at every position [i] of the loop the digest
    is read at [i mod 32], inside its bounds, the byte [b] read there
    is added to [i] as integers, and the alphabet is read at
    [(b + i) mod 36], inside its bounds; no access raises. *)
Theorem generate_deterministic_code_total :
  forall (s p : pystr) (n : Z) (w : world) (sb pb : pybytes),
    encode_utf8 s = Ok sb ->
    encode_utf8 p = Ok pb ->
    let digest := HMAC.hmac_sha256 sb pb in
    let chars := lit "ABCDEFGHIJKLMNOPQRSTUVWXYZ0123456789" in
    (exists code,
        Serziam.generate_deterministic_code
          (Serziam.DeterministicCodeGenerator_init s) (Some p) n w
        = (Ok code, w)
        /\ len code = Z.max 0 n
        /\ (s = SyncTest.SECRET_SEED ->
            SyncTest.generate_deterministic_code p n w = (Ok code, w)))
    /\ forall i, 0 <= i < n ->
         pymod i (len digest) = Ok (i mod 32)
         /\ 0 <= i mod 32 < len digest
         /\ exists b c,
              getitem digest (i mod 32) = Ok b
              /\ 0 <= b <= 255
              /\ pymod (b + i) (len chars) = Ok ((b + i) mod 36)
              /\ 0 <= (b + i) mod 36 < len chars
              /\ getitem chars ((b + i) mod 36) = Ok c
              /\ forall code_chars,
                   code_turn digest chars code_chars i w
                   = (Ok (code_chars ++ [[c]]), w).
Proof.
  intros s p n w sb pb Hs Hp digest chars.
  pose proof (hmac_sha256_length sb pb) as L. fold digest in L.
  split.
  - exists (deriveCode_spec pb sb n). split; [|split].
    + rewrite serziam_generate_pure. simpl.
      rewrite (derive_result_ok s p n sb pb Hp Hs). reflexivity.
    + apply deriveCode_spec_length.
    + intros ->. rewrite synctest_generate_pure.
      rewrite (derive_result_ok _ p n sb pb Hp Hs). reflexivity.
  - intros i Hi.
    assert (Hm : 0 <= i mod 32 < 32) by (apply Z.mod_pos_bound; lia).
    split; [rewrite L; apply pymod_pos; lia|].
    split; [rewrite L; exact Hm|].
    set (b := nth (Z.to_nat (i mod 32)) digest 0).
    exists b, (nth (Z.to_nat ((b + i) mod 36)) chars 0).
    assert (Hc : 0 <= (b + i) mod 36 < 36) by (apply Z.mod_pos_bound; lia).
    split; [apply getitem_nth; rewrite L; exact Hm|].
    split.
    { assert (0 <= b < 256); [|lia]. apply Forall_nth_range.
      - apply hmac_sha256_range.
      - unfold len in L. fold digest. lia. }
    split; [apply pymod_pos; reflexivity|].
    split; [exact Hc|].
    split; [apply getitem_nth; exact Hc|].
    intros code_chars. apply (code_turn_ok digest code_chars i w L). lia.
Qed.

Lemma generate_deterministic_code_total_witness :
  encode_utf8 (lit "asterisk_secure_deterministic_v1")
  = Ok (lit "asterisk_secure_deterministic_v1")
  /\ encode_utf8 (lit "06-2025") = Ok (lit "06-2025")
  /\ exists code,
       Serziam.generate_deterministic_code
         (Serziam.DeterministicCodeGenerator_init
            (lit "asterisk_secure_deterministic_v1"))
         (Some (lit "06-2025")) 40 (still_world june_2025 [] true)
       = (Ok code, still_world june_2025 [] true)
       /\ len code = 40.
Proof.
  split; [reflexivity|]. split; [reflexivity|].
  destruct (proj1
    (generate_deterministic_code_total
       (lit "asterisk_secure_deterministic_v1") (lit "06-2025") 40
       (still_world june_2025 [] true)
       (lit "asterisk_secure_deterministic_v1") (lit "06-2025")
       eq_refl eq_refl)) as [code [H [L _]]].
  exists code. split; [exact H | exact L].
Defined.

(** The sum is an integer, not a byte: for the period 06-2025 the byte
    read at position 1 is 255, the sum is 256, and the character is the
    one at index [256 mod 36 = 4], not the one at index 0 that a sum
    wrapped to eight bits would give. *)
Example sum_is_not_wrapped :
  let digest :=
    HMAC.hmac_sha256 (lit "asterisk_secure_deterministic_v1") (lit "06-2025") in
  getitem digest 1 = Ok 255
  /\ code_turn digest alphabet [] 1 (still_world june_2025 [] true)
     = (Ok [lit "E"], still_world june_2025 [] true)
  /\ getitem alphabet (((255 + 1) mod 256) mod 36) = Ok 65.
Proof.
  cbv zeta. split; [vm_compute; reflexivity|].
  split; [vm_compute; reflexivity | reflexivity].
Qed.

(** ** Prefixes *)

Lemma range_prefix (m n : Z) : m <= n -> exists t, range n = range m ++ t.
Proof.
  intros H. unfold range.
  exists (map Z.of_nat (seq (Z.to_nat m) (Z.to_nat n - Z.to_nat m))).
  rewrite <- map_app. f_equal.
  replace (Z.to_nat n) with (Z.to_nat m + (Z.to_nat n - Z.to_nat m))%nat
    at 1 by lia.
  apply seq_app.
Qed.

Lemma deriveCode_spec_prefix pb sb m n :
  m <= n -> exists t, deriveCode_spec pb sb n = deriveCode_spec pb sb m ++ t.
Proof.
  intros H. destruct (range_prefix m n H) as [t E].
  exists (map (code_char (HMAC.hmac_sha256 sb pb)) t).
  unfold deriveCode_spec. rewrite E. apply map_app.
Qed.

(** C9. For lengths [m <= n] the code of length [m] is a prefix of the
    code of length [n], and the code of length 0 is the empty string;
    in serziam.py and, for its own secret, in serziamtest.py. *)
Theorem generate_deterministic_code_prefix :
  forall (s p : pystr) (m n : Z) (w : world) (sb pb : pybytes),
    encode_utf8 s = Ok sb ->
    encode_utf8 p = Ok pb ->
    m <= n ->
    let gen := Serziam.DeterministicCodeGenerator_init s in
    exists code_m rest,
      Serziam.generate_deterministic_code gen (Some p) m w = (Ok code_m, w)
      /\ Serziam.generate_deterministic_code gen (Some p) n w
         = (Ok (code_m ++ rest), w)
      /\ Serziam.generate_deterministic_code gen (Some p) 0 w = (Ok [], w)
      /\ (s = SyncTest.SECRET_SEED ->
          SyncTest.generate_deterministic_code p m w = (Ok code_m, w)
          /\ SyncTest.generate_deterministic_code p n w
             = (Ok (code_m ++ rest), w)
          /\ SyncTest.generate_deterministic_code p 0 w = (Ok [], w)).
Proof.
  intros s p m n w sb pb Hs Hp Hmn gen.
  destruct (deriveCode_spec_prefix pb sb m n Hmn) as [t E].
  exists (deriveCode_spec pb sb m), t.
  unfold gen. rewrite !serziam_generate_pure. simpl Serziam.secret_seed.
  rewrite !(derive_result_ok s p _ sb pb Hp Hs), <- E.
  repeat split; try reflexivity; subst s;
    rewrite synctest_generate_pure, (derive_result_ok _ p _ sb pb Hp Hs);
    rewrite <- ?E; reflexivity.
Qed.

Lemma generate_deterministic_code_prefix_witness :
  encode_utf8 (lit "asterisk_secure_deterministic_v1")
  = Ok (lit "asterisk_secure_deterministic_v1")
  /\ encode_utf8 (lit "06-2025") = Ok (lit "06-2025")
  /\ 8 <= 40
  /\ exists code_m rest,
       Serziam.generate_deterministic_code
         (Serziam.DeterministicCodeGenerator_init
            (lit "asterisk_secure_deterministic_v1"))
         (Some (lit "06-2025")) 8 (still_world june_2025 [] true)
       = (Ok code_m, still_world june_2025 [] true)
       /\ Serziam.generate_deterministic_code
            (Serziam.DeterministicCodeGenerator_init
               (lit "asterisk_secure_deterministic_v1"))
            (Some (lit "06-2025")) 40 (still_world june_2025 [] true)
          = (Ok (code_m ++ rest), still_world june_2025 [] true).
Proof.
  split; [reflexivity|]. split; [reflexivity|]. split; [lia|].
  destruct (generate_deterministic_code_prefix
       (lit "asterisk_secure_deterministic_v1") (lit "06-2025") 8 40
       (still_world june_2025 [] true)
       (lit "asterisk_secure_deterministic_v1") (lit "06-2025")
       eq_refl eq_refl ltac:(lia)) as [cm [t [H1 [H2 _]]]].
  exists cm, t. split; [exact H1 | exact H2].
Defined.

(** ** Determinism *)

(** C2. The derivation is a function of the period, the secret and the
    length alone: two generator objects with the same secret, run in
    any two worlds (other clocks, other terminals), return the same
    result and change nothing; the copy of serziamvalidator.py returns
    that result too, and so does the copy of serziamtest.py when the
    secret is its own. *)
Theorem generate_deterministic_code_deterministic :
  forall (g1 g2 : Serziam.DeterministicCodeGenerator)
         (v : Validator.DeterministicCodeGenerator)
         (p : pystr) (n : Z) (w1 w2 w3 w4 : world),
    Serziam.secret_seed g1 = Serziam.secret_seed g2 ->
    Validator.secret_seed v = Serziam.secret_seed g1 ->
    let r := fst (Serziam.generate_deterministic_code g1 (Some p) n w1) in
    snd (Serziam.generate_deterministic_code g1 (Some p) n w1) = w1
    /\ fst (Serziam.generate_deterministic_code g2 (Some p) n w2) = r
    /\ fst (Validator.generate_deterministic_code v (Some p) n w3) = r
    /\ (Serziam.secret_seed g1 = SyncTest.SECRET_SEED ->
        fst (SyncTest.generate_deterministic_code p n w4) = r).
Proof.
  intros g1 g2 v p n w1 w2 w3 w4 H12 Hv r. unfold r.
  rewrite !serziam_generate_pure, validator_generate_pure,
          synctest_generate_pure.
  simpl. rewrite Hv, <- H12.
  repeat split. intros ->. reflexivity.
Qed.

Lemma generate_deterministic_code_deterministic_witness :
  Serziam.secret_seed Serziam.HiddenAccessCodeManager
  = Serziam.secret_seed
      (Serziam.DeterministicCodeGenerator_init Serziam.Config.SECRET_SEED)
  /\ Validator.secret_seed Validator.VisibleAccessCodeManager
     = Serziam.secret_seed Serziam.HiddenAccessCodeManager
  /\ fst (Validator.generate_deterministic_code
            Validator.VisibleAccessCodeManager (Some (lit "12-2024")) 8
            (still_world new_year_2025 [CtrlC] false))
     = fst (Serziam.generate_deterministic_code
              Serziam.HiddenAccessCodeManager (Some (lit "12-2024")) 8
              (still_world june_2025 [] true)).
Proof.
  split; [reflexivity|]. split; [reflexivity|].
  exact (proj1 (proj2 (proj2
    (generate_deterministic_code_deterministic
       Serziam.HiddenAccessCodeManager
       (Serziam.DeterministicCodeGenerator_init Serziam.Config.SECRET_SEED)
       Validator.VisibleAccessCodeManager (lit "12-2024") 8
       (still_world june_2025 [] true) (still_world june_2025 [] true)
       (still_world new_year_2025 [CtrlC] false)
       (still_world june_2025 [] true)
       eq_refl eq_refl)))).
Defined.

(** ** The expiry *)

Lemma str_eqb_eq (a b : pystr) : str_eqb a b = true <-> a = b.
Proof.
  revert b. induction a as [|x a IH]; intros [|y b]; simpl;
    try (split; [discriminate | intros H; discriminate H]);
    try (split; reflexivity).
  rewrite andb_true_iff, Z.eqb_eq, IH.
  split; [intros [-> ->]; reflexivity | intros H; inversion H; auto].
Qed.

Lemma in_interval (lo hi z : Z) : lo <= z <= hi -> In z (interval lo hi).
Proof.
  intros H. unfold interval. apply in_map_iff. exists (Z.to_nat (z - lo)).
  split; [lia|]. apply in_seq. lia.
Qed.

Lemma forallb_interval (f : Z -> bool) (lo hi : Z) :
  forallb f (interval lo hi) = true -> forall z, lo <= z <= hi -> f z = true.
Proof.
  intros H z Hz. rewrite forallb_forall in H. apply H, in_interval, Hz.
Qed.

(** The expiry only looks at the year and the month of [current_date]. *)
Lemma expires_at_of_year_month (t : datetime) :
  expires_at_of t = expires_at_of (mkdatetime (year t) (month t) 1 0 0 0 0).
Proof. reflexivity. Qed.

Lemma days_in_month_last_day (y m : Z) :
  1 <= m <= 12 -> PyDatetime.days_in_month y m = last_day_of_month y m.
Proof.
  intros H.
  assert (m = 1 \/ m = 2 \/ m = 3 \/ m = 4 \/ m = 5 \/ m = 6 \/ m = 7
          \/ m = 8 \/ m = 9 \/ m = 10 \/ m = 11 \/ m = 12) as C by lia.
  unfold PyDatetime.days_in_month, last_day_of_month, PyDatetime.is_leap.
  repeat (destruct C as [-> | C];
          [simpl; try reflexivity;
           destruct ((y mod 4 =? 0)
                     && (negb (y mod 100 =? 0) || (y mod 400 =? 0)));
           reflexivity|]).
  subst m. reflexivity.
Qed.

(** The calendar repeats every 400 years, 146097 days; the months of
    the first 400 years are checked by evaluation. *)
Lemma four_centuries_checked :
  forallb (fun y => forallb (month_checked y) (interval 1 12))
          (interval 1 400) = true.
Proof. vm_compute. reflexivity. Qed.

Lemma is_leap_period (y : Z) : PyDatetime.is_leap (y + 400) = PyDatetime.is_leap y.
Proof.
  unfold PyDatetime.is_leap.
  replace ((y + 400) mod 4) with (y mod 4)
    by (replace (y + 400) with (y + 100 * 4) by lia; symmetry; apply Z_mod_plus_full).
  replace ((y + 400) mod 100) with (y mod 100)
    by (replace (y + 400) with (y + 4 * 100) by lia; symmetry; apply Z_mod_plus_full).
  replace ((y + 400) mod 400) with (y mod 400)
    by (replace (y + 400) with (y + 1 * 400) by lia; symmetry; apply Z_mod_plus_full).
  reflexivity.
Qed.

Lemma last_day_period (y m : Z) :
  last_day_of_month (y + 400) m = last_day_of_month y m.
Proof.
  unfold last_day_of_month.
  replace ((y + 400) mod 4) with (y mod 4)
    by (replace (y + 400) with (y + 100 * 4) by lia; symmetry; apply Z_mod_plus_full).
  replace ((y + 400) mod 100) with (y mod 100)
    by (replace (y + 400) with (y + 4 * 100) by lia; symmetry; apply Z_mod_plus_full).
  replace ((y + 400) mod 400) with (y mod 400)
    by (replace (y + 400) with (y + 1 * 400) by lia; symmetry; apply Z_mod_plus_full).
  reflexivity.
Qed.

Lemma ymd2ord_period (y m d : Z) :
  PyDatetime.ymd2ord (y + 400) m d = PyDatetime.ymd2ord y m d + 146097.
Proof.
  unfold PyDatetime.ymd2ord, PyDatetime.days_before_month,
    PyDatetime.days_before_year.
  rewrite is_leap_period. cbv zeta.
  replace ((y + 400 - 1) / 4) with ((y - 1) / 4 + 100)
    by (replace (y + 400 - 1) with (y - 1 + 100 * 4) by lia;
        symmetry; apply Z.div_add; lia).
  replace ((y + 400 - 1) / 100) with ((y - 1) / 100 + 4)
    by (replace (y + 400 - 1) with (y - 1 + 4 * 100) by lia;
        symmetry; apply Z.div_add; lia).
  replace ((y + 400 - 1) / 400) with ((y - 1) / 400 + 1)
    by (replace (y + 400 - 1) with (y - 1 + 1 * 400) by lia;
        symmetry; apply Z.div_add; lia).
  lia.
Qed.

Lemma ord2ymd_period (o : Z) :
  PyDatetime.ord2ymd (o + 146097)
  = let '(y, m, d) := PyDatetime.ord2ymd o in (y + 400, m, d).
Proof.
  unfold PyDatetime.ord2ymd. cbv zeta.
  replace (o + 146097 - 1) with (o - 1 + 1 * 146097) by lia.
  rewrite Z.div_add, Z_mod_plus_full by lia.
  set (n := (o - 1) mod 146097). set (q := (o - 1) / 146097).
  destruct ((n mod 36524 mod 1461 / 365 =? 4) || (n / 36524 =? 4)).
  - f_equal. f_equal. lia.
  - destruct (_ <? _); f_equal; f_equal; lia.
Qed.

Lemma eve_of_next_month_period (y m : Z) :
  eve_of_next_month (y + 400) m
  = let '(y', m', d') := eve_of_next_month y m in (y' + 400, m', d').
Proof.
  unfold eve_of_next_month. destruct (m =? 12).
  - replace (y + 400 + 1) with (y + 1 + 400) by lia.
    rewrite ymd2ord_period.
    replace (PyDatetime.ymd2ord (y + 1) 1 1 + 146097 - 1)
      with (PyDatetime.ymd2ord (y + 1) 1 1 - 1 + 146097) by lia.
    apply ord2ymd_period.
  - rewrite ymd2ord_period.
    replace (PyDatetime.ymd2ord y (m + 1) 1 + 146097 - 1)
      with (PyDatetime.ymd2ord y (m + 1) 1 - 1 + 146097) by lia.
    apply ord2ymd_period.
Qed.

Lemma month_checked_period (y m : Z) :
  month_checked (y + 400) m = month_checked y m.
Proof.
  unfold month_checked. rewrite eve_of_next_month_period, last_day_period.
  destruct (eve_of_next_month y m) as [[y' m'] d'].
  replace (y' + 400 =? y + 400) with (y' =? y); [reflexivity|].
  destruct (y' =? y) eqn:E; symmetry.
  - apply Z.eqb_eq in E. apply Z.eqb_eq. lia.
  - apply Z.eqb_neq in E. apply Z.eqb_neq. lia.
Qed.

Lemma month_checked_cycles (k : nat) (y m : Z) :
  1 <= y <= 400 -> 1 <= m <= 12 ->
  month_checked (y + 400 * Z.of_nat k) m = true.
Proof.
  intros Hy Hm. induction k as [|k IH].
  - rewrite Z.add_0_r.
    pose proof (forallb_interval _ 1 400 four_centuries_checked y Hy) as B.
    cbv beta in B. exact (forallb_interval _ 1 12 B m Hm).
  - replace (y + 400 * Z.of_nat (S k)) with (y + 400 * Z.of_nat k + 400) by lia.
    rewrite month_checked_period. exact IH.
Qed.

Lemma month_checked_all (y m : Z) :
  1 <= y -> 1 <= m <= 12 -> month_checked y m = true.
Proof.
  intros Hy Hm.
  replace y with ((y - 1) mod 400 + 1 + 400 * Z.of_nat (Z.to_nat ((y - 1) / 400))).
  - apply month_checked_cycles; [|exact Hm].
    pose proof (Z.mod_pos_bound (y - 1) 400 ltac:(lia)). lia.
  - rewrite Z2Nat.id by (apply Z.div_pos; lia).
    pose proof (Z.div_mod (y - 1) 400 ltac:(lia)). lia.
Qed.

Lemma eve_of_next_month_last_day (y m : Z) :
  1 <= y -> 1 <= m <= 12 ->
  eve_of_next_month y m = (y, m, last_day_of_month y m).
Proof.
  intros Hy Hm. pose proof (month_checked_all y m Hy Hm) as C.
  unfold month_checked in C.
  destruct (eve_of_next_month y m) as [[y' m'] d'].
  rewrite !andb_true_iff, !Z.eqb_eq in C. destruct C as [[-> ->] ->].
  reflexivity.
Qed.

Lemma last_day_bounds (y m : Z) : 28 <= last_day_of_month y m <= 31.
Proof.
  unfold last_day_of_month.
  destruct (m =? 2); [destruct (_ && _); lia|].
  destruct (_ || _); lia.
Qed.

Lemma new_date_first (y m : Z) :
  1 <= y <= 9999 -> 1 <= m <= 12 ->
  PyDatetime.new_date y m 1 = Ok (mkdatetime y m 1 0 0 0 0).
Proof.
  intros Hy Hm. unfold PyDatetime.new_date, PyDatetime.new.
  replace (PyDatetime.check_date_fields y m 1) with true; [reflexivity|].
  symmetry. unfold PyDatetime.check_date_fields, PyDatetime.MINYEAR,
    PyDatetime.MAXYEAR.
  rewrite (days_in_month_last_day y m Hm).
  pose proof (last_day_bounds y m).
  rewrite !andb_true_iff, !Z.leb_le. lia.
Qed.

Lemma days_before_month_bounds (y m : Z) :
  1 <= m <= 12 ->
  0 <= PyDatetime.days_before_month y m <= 335
  /\ (2 <= m -> 31 <= PyDatetime.days_before_month y m).
Proof.
  intros H.
  assert (m = 1 \/ m = 2 \/ m = 3 \/ m = 4 \/ m = 5 \/ m = 6 \/ m = 7
          \/ m = 8 \/ m = 9 \/ m = 10 \/ m = 11 \/ m = 12) as C by lia.
  unfold PyDatetime.days_before_month.
  repeat (destruct C as [-> | C];
          [simpl; destruct (PyDatetime.is_leap y); simpl; lia|]).
  subst m. simpl. destruct (PyDatetime.is_leap y); simpl; lia.
Qed.

Lemma days_before_year_bounds (y : Z) :
  1 <= y <= 9999 ->
  0 <= PyDatetime.days_before_year y <= 3651694
  /\ (2 <= y -> 365 <= PyDatetime.days_before_year y).
Proof.
  intros H. unfold PyDatetime.days_before_year. cbv zeta.
  pose proof (Z.div_mod (y - 1) 4 ltac:(lia)).
  pose proof (Z.mod_pos_bound (y - 1) 4 ltac:(lia)).
  pose proof (Z.div_mod (y - 1) 100 ltac:(lia)).
  pose proof (Z.mod_pos_bound (y - 1) 100 ltac:(lia)).
  pose proof (Z.div_mod (y - 1) 400 ltac:(lia)).
  pose proof (Z.mod_pos_bound (y - 1) 400 ltac:(lia)).
  lia.
Qed.

Lemma sub_days_first (y m : Z) :
  1 <= y <= 9999 -> 1 <= m <= 12 -> ~ (y = 1 /\ m = 1) ->
  PyDatetime.sub_days (mkdatetime y m 1 0 0 0 0) 1
  = let '(y', m', d') := PyDatetime.ord2ymd (PyDatetime.ymd2ord y m 1 - 1) in
    Ok (mkdatetime y' m' d' 0 0 0 0).
Proof.
  intros Hy Hm Hn. unfold PyDatetime.sub_days, PyDatetime.toordinal. simpl.
  replace ((0 <? PyDatetime.ymd2ord y m 1 - 1)
           && (PyDatetime.ymd2ord y m 1 - 1 <=? PyDatetime.MAXORDINAL))
    with true; [reflexivity|].
  symmetry. rewrite andb_true_iff, Z.ltb_lt, Z.leb_le.
  unfold PyDatetime.ymd2ord, PyDatetime.MAXORDINAL.
  destruct (days_before_month_bounds y m Hm) as [B1 B2].
  destruct (days_before_year_bounds y Hy) as [C1 C2].
  lia.
Qed.

Lemma replace_hms_last (y m : Z) :
  1 <= y <= 9999 -> 1 <= m <= 12 ->
  PyDatetime.replace_hms (mkdatetime y m (last_day_of_month y m) 0 0 0 0)
                         23 59 59
  = Ok (end_of_month y m).
Proof.
  intros Hy Hm. unfold PyDatetime.replace_hms, PyDatetime.new. simpl.
  replace (PyDatetime.check_date_fields y m (last_day_of_month y m))
    with true; [reflexivity|].
  symmetry. unfold PyDatetime.check_date_fields, PyDatetime.MINYEAR,
    PyDatetime.MAXYEAR.
  rewrite (days_in_month_last_day y m Hm).
  pose proof (last_day_bounds y m).
  rewrite !andb_true_iff, !Z.leb_le. lia.
Qed.

Lemma expires_at_of_end_of_month (t : datetime) :
  1 <= year t <= 9999 -> 1 <= month t <= 12 ->
  ~ (year t = 9999 /\ month t = 12) ->
  expires_at_of t = Ok (end_of_month (year t) (month t)).
Proof.
  intros Hy Hm Hd. unfold expires_at_of.
  pose proof (eve_of_next_month_last_day (year t) (month t)
                ltac:(lia) Hm) as E.
  unfold eve_of_next_month in E.
  destruct (month t =? 12) eqn:M.
  - apply Z.eqb_eq in M.
    rewrite new_date_first by lia. cbn [rbind].
    rewrite sub_days_first by lia. rewrite E. cbn [rbind].
    apply replace_hms_last; assumption.
  - apply Z.eqb_neq in M.
    rewrite new_date_first by lia. cbn [rbind].
    rewrite sub_days_first by lia. rewrite E. cbn [rbind].
    apply replace_hms_last; assumption.
Qed.

Lemma expires_at_of_december_9999 (t : datetime) :
  year t = 9999 -> month t = 12 -> expires_at_of t = Raise ValueError.
Proof.
  intros Hy Hm. rewrite expires_at_of_year_month, Hy, Hm. reflexivity.
Qed.

(** ** The period string *)

Lemma encode_utf8_ascii (s : pystr) : Forall is_ascii s -> encode_utf8 s = Ok s.
Proof.
  induction 1 as [|c s [H0 H1] _ IH]; [reflexivity|].
  simpl. unfold utf8_char.
  destruct (c <? 0) eqn:E0; [apply Z.ltb_lt in E0; lia|].
  destruct (c <? 128) eqn:E1; [|apply Z.ltb_ge in E1; lia].
  simpl. rewrite IH. reflexivity.
Qed.

Lemma digits_ascii (fuel : nat) (n : Z) (acc : pystr) :
  0 <= n -> Forall is_ascii acc -> Forall is_ascii (digits fuel n acc).
Proof.
  revert n acc. induction fuel as [|f IH]; intros n acc Hn Ha; cbn [digits].
  - exact Ha.
  - destruct (n <? 10) eqn:E.
    + apply Z.ltb_lt in E. constructor; [unfold is_ascii; lia | exact Ha].
    + apply IH.
      * apply Z.div_pos; lia.
      * constructor; [|exact Ha].
        pose proof (Z.mod_pos_bound n 10 ltac:(lia)). unfold is_ascii. lia.
Qed.

Lemma format_d_ascii (n : Z) : Forall is_ascii (format_d n).
Proof.
  unfold format_d. destruct (n <? 0) eqn:E.
  - apply Z.ltb_lt in E. constructor; [unfold is_ascii; lia|].
    apply digits_ascii; [lia | constructor].
  - apply Z.ltb_ge in E. apply digits_ascii; [lia | constructor].
Qed.

Lemma format_02d_ascii (n : Z) : Forall is_ascii (format_02d n).
Proof.
  unfold format_02d. destruct (len (format_d n) <? 2).
  - constructor; [unfold is_ascii; lia | apply format_d_ascii].
  - apply format_d_ascii.
Qed.

Lemma period_of_ascii (t : datetime) : Forall is_ascii (period_of t).
Proof.
  unfold period_of. apply Forall_app. split; [apply format_02d_ascii|].
  apply Forall_app. split; [|apply format_d_ascii].
  repeat constructor; unfold is_ascii; lia.
Qed.

Lemma encode_period_of (t : datetime) :
  encode_utf8 (period_of t) = Ok (period_of t).
Proof. apply encode_utf8_ascii, period_of_ascii. Qed.

Example period_of_june_2025 : period_of june_2025 = lit "06-2025".
Proof. reflexivity. Qed.

Example period_of_december_9999 : period_of december_9999 = lit "12-9999".
Proof. reflexivity. Qed.

Example utf8_of_e_acute_and_euro :
  encode_utf8 [233; 8364] = Ok [195; 169; 226; 130; 172].
Proof. reflexivity. Qed.

Example utf8_of_lone_surrogate :
  encode_utf8 [55296] = Raise UnicodeEncodeError.
Proof. reflexivity. Qed.

(** ** The methods, run in a world *)

Lemma serziam_get_current_period self w :
  Serziam.get_current_period self w
  = (Ok (period_of (clock w (ticks w))), advance 1 w).
Proof. reflexivity. Qed.

Lemma validator_get_current_period self w :
  Validator.get_current_period self w
  = (Ok (period_of (clock w (ticks w))), advance 1 w).
Proof. reflexivity. Qed.

Lemma serziam_get_current_code self w sb :
  encode_utf8 (Serziam.secret_seed self) = Ok sb ->
  Serziam.get_current_code self w
  = (Ok (code_of_month sb (clock w (ticks w))), advance 1 w).
Proof.
  intros Hs. unfold Serziam.get_current_code.
  rewrite (bind_ok _ _ _ _ _ (serziam_get_current_period self w)).
  rewrite serziam_generate_pure.
  rewrite (derive_result_ok _ _ _ sb _ (encode_period_of _) Hs).
  reflexivity.
Qed.

Lemma validator_get_current_code self w sb :
  encode_utf8 (Validator.secret_seed self) = Ok sb ->
  Validator.get_current_code self w
  = (Ok (code_of_month sb (clock w (ticks w))), advance 1 w).
Proof.
  intros Hs. unfold Validator.get_current_code.
  rewrite (bind_ok _ _ _ _ _ (validator_get_current_period self w)).
  rewrite validator_generate_pure.
  rewrite (derive_result_ok _ _ _ sb _ (encode_period_of _) Hs).
  reflexivity.
Qed.

Lemma now_run w : now w = (Ok (clock w (ticks w)), advance 1 w).
Proof. reflexivity. Qed.

Lemma serziam_get_current_code_with_expiry self w sb :
  encode_utf8 (Serziam.secret_seed self) = Ok sb ->
  Serziam.get_current_code_with_expiry self w
  = (rbind (expires_at_of (clock w (ticks w)))
           (fun e => Ok (code_of_month sb (clock w (2 + ticks w)%nat), e)),
     advance 3 w).
Proof.
  intros Hs. unfold Serziam.get_current_code_with_expiry.
  rewrite (bind_ok _ _ _ _ _ (now_run w)).
  rewrite (bind_ok _ _ _ _ _ (serziam_get_current_period self _)).
  rewrite (bind_ok _ _ _ _ _ (serziam_get_current_code self _ sb Hs)).
  unfold expires_at_of, bind, lift, ret, rbind.
  set (t := clock w (ticks w)).
  destruct (if month t =? 12 then _ else _) as [nm|]; [|reflexivity].
  destruct (PyDatetime.sub_days nm 1) as [e|]; [|reflexivity].
  destruct (PyDatetime.replace_hms e 23 59 59); reflexivity.
Qed.

Lemma secret_seed_bytes :
  encode_utf8 Serziam.Config.SECRET_SEED = Ok Serziam.Config.SECRET_SEED.
Proof. reflexivity. Qed.

Lemma month_name_found (m : Z) :
  1 <= m <= 12 -> exists name, dict_get MONTH_NAMES m = Ok name.
Proof.
  intros H.
  assert (m = 1 \/ m = 2 \/ m = 3 \/ m = 4 \/ m = 5 \/ m = 6 \/ m = 7
          \/ m = 8 \/ m = 9 \/ m = 10 \/ m = 11 \/ m = 12) as C by lia.
  repeat (destruct C as [-> | C]; [eexists; reflexivity|]).
  subst m. eexists. reflexivity.
Qed.

Lemma validator_display_code_status self w sb e name :
  encode_utf8 (Validator.secret_seed self) = Ok sb ->
  expires_at_of (clock w (ticks w)) = Ok e ->
  dict_get (Validator.month_names self) (month (clock w (ticks w))) = Ok name ->
  let current_date := clock w (ticks w) in
  let code := code_of_month sb (clock w (2 + ticks w)%nat) in
  Validator.display_code_status self w
  = (Ok (code, e),
     emit (Printed (MsgDaysRemaining (PyDatetime.diff_days e current_date)))
       (emit (Printed (MsgExpiresOn e))
          (emit (Printed (MsgCodeVisible name (year current_date) code))
             (advance 3 w)))).
Proof.
  intros Hs He Hn current_date code.
  unfold Validator.display_code_status.
  rewrite (bind_ok _ _ _ _ _ (now_run w)).
  rewrite (bind_ok _ _ _ _ _ (validator_get_current_period self _)).
  rewrite (bind_ok _ _ _ _ _ (validator_get_current_code self _ sb Hs)).
  revert He. unfold expires_at_of, bind, lift, ret, rbind. fold current_date.
  destruct (if month current_date =? 12 then _ else _) as [nm|];
    [|discriminate].
  destruct (PyDatetime.sub_days nm 1) as [e1|]; [|discriminate].
  intros ->. unfold current_date. rewrite Hn. reflexivity.
Qed.

(** C3, as the code has it.  For every instant of a month other than
    December 9999, the expiry that [get_current_code_with_expiry] and
    [display_code_status] return is 23:59:59 (and no microsecond) on
    the last calendar day of that month, December rolling to January of
    the next year; for 12-2024 it is 2024-12-31T23:59:59, for 02-2024
    2024-02-29T23:59:59 and for 02-2025 2025-02-28T23:59:59. *)
Theorem expiry_is_end_of_month :
  forall (w : world),
    let current_date := clock w (ticks w) in
    let y := year current_date in
    let m := month current_date in
    1 <= y <= 9999 -> 1 <= m <= 12 -> ~ (y = 9999 /\ m = 12) ->
    let expires_at := mkdatetime y m (last_day_of_month y m) 23 59 59 0 in
    (exists code,
        Serziam.get_current_code_with_expiry Serziam.HiddenAccessCodeManager w
        = (Ok (code, expires_at), advance 3 w))
    /\ (exists code w',
           Validator.display_code_status Validator.VisibleAccessCodeManager w
           = (Ok (code, expires_at), w'))
    /\ (y = 2024 -> m = 12 ->
        expires_at = mkdatetime 2024 12 31 23 59 59 0)
    /\ (y = 2024 -> m = 2 ->
        expires_at = mkdatetime 2024 2 29 23 59 59 0)
    /\ (y = 2025 -> m = 2 ->
        expires_at = mkdatetime 2025 2 28 23 59 59 0).
Proof.
  intros w current_date y m Hy Hm Hd expires_at.
  pose proof (expires_at_of_end_of_month current_date Hy Hm Hd) as E.
  fold y m in E. change (end_of_month y m) with expires_at in E.
  split; [|split].
  - eexists.
    rewrite (serziam_get_current_code_with_expiry
               Serziam.HiddenAccessCodeManager w _ secret_seed_bytes).
    fold current_date. rewrite E. reflexivity.
  - destruct (month_name_found m Hm) as [name Hn].
    do 2 eexists.
    apply (validator_display_code_status
             Validator.VisibleAccessCodeManager w _ expires_at name
             secret_seed_bytes E Hn).
  - repeat split; intros Ey Em; unfold expires_at; rewrite Ey, Em; reflexivity.
Qed.

Lemma expiry_is_end_of_month_witness :
  1 <= 2024 <= 9999 /\ 1 <= 12 <= 12 /\ ~ (2024 = 9999 /\ 12 = 12)
  /\ exists code,
       Serziam.get_current_code_with_expiry Serziam.HiddenAccessCodeManager
         (still_world mid_december_2024 [] true)
       = (Ok (code, mkdatetime 2024 12 31 23 59 59 0),
          advance 3 (still_world mid_december_2024 [] true)).
Proof.
  split; [lia|]. split; [lia|]. split; [lia|].
  exact (proj1 (expiry_is_end_of_month (still_world mid_december_2024 [] true)
                  ltac:(simpl; lia) ltac:(simpl; lia) ltac:(simpl; lia))).
Defined.

(** C3 as stated fails in December 9999: the first day of the next
    month is outside the calendar and no expiry is returned. *)
Lemma expiry_december_9999_raises :
  1 <= month december_9999 <= 12 /\ 1970 <= year december_9999
  /\ fst (Serziam.get_current_code_with_expiry Serziam.HiddenAccessCodeManager
            (still_world december_9999 [] true))
     = Raise ValueError
  /\ fst (Validator.display_code_status Validator.VisibleAccessCodeManager
            (still_world december_9999 [] true))
     = Raise ValueError.
Proof.
  split; [simpl; lia|]. split; [simpl; lia|].
  split; vm_compute; reflexivity.
Qed.

(** ** Comparing with the expiry *)

Lemma valid_inv (t : datetime) :
  PyDatetime.valid t = true ->
  (1 <= year t <= 9999 /\ 1 <= month t <= 12
   /\ 1 <= day t <= PyDatetime.days_in_month (year t) (month t))
  /\ 0 <= hour t <= 23 /\ 0 <= minute t <= 59 /\ 0 <= second t <= 59
  /\ 0 <= microsecond t <= 999999.
Proof.
  unfold PyDatetime.valid, PyDatetime.check_date_fields,
    PyDatetime.check_time_fields, PyDatetime.MINYEAR, PyDatetime.MAXYEAR.
  rewrite !andb_true_iff, !Z.leb_le. lia.
Qed.

Lemma gt_end_of_month (t : datetime) :
  PyDatetime.valid t = true ->
  (PyDatetime.gt t (end_of_month (year t) (month t)) = true
   <-> day t = last_day_of_month (year t) (month t)
       /\ hour t = 23 /\ minute t = 59 /\ second t = 59
       /\ 1 <= microsecond t).
Proof.
  intros V. apply valid_inv in V.
  destruct V as [[Hy [Hm Hd]] [Hh [Hmi [Hs Hu]]]].
  rewrite (days_in_month_last_day _ _ Hm) in Hd.
  unfold PyDatetime.gt, end_of_month, PyDatetime.fields. simpl.
  rewrite !orb_true_iff, !andb_true_iff, !orb_true_iff, !andb_true_iff.
  rewrite !orb_true_iff, !andb_true_iff, !orb_true_iff, !andb_true_iff.
  rewrite ?orb_true_iff, ?andb_true_iff, ?orb_false_r.
  rewrite !Z.ltb_lt, !Z.eqb_eq. lia.
Qed.

Lemma serziam_is_code_expired self w sb e :
  encode_utf8 (Serziam.secret_seed self) = Ok sb ->
  expires_at_of (clock w (ticks w)) = Ok e ->
  Serziam.is_code_expired self w
  = (Ok (PyDatetime.gt (clock w (3 + ticks w)%nat) e), advance 4 w).
Proof.
  intros Hs He. unfold Serziam.is_code_expired.
  rewrite (bind_ok _ _ _ (code_of_month sb (clock w (2 + ticks w)%nat), e)
             (advance 3 w)).
  2:{ rewrite (serziam_get_current_code_with_expiry self w sb Hs), He.
      reflexivity. }
  reflexivity.
Qed.

Lemma serziam_validate_code self input_code w sb :
  encode_utf8 (Serziam.secret_seed self) = Ok sb ->
  Serziam.validate_code self input_code w
  = (Ok (str_eqb input_code (code_of_month sb (clock w (ticks w)))),
     advance 1 w).
Proof.
  intros Hs. unfold Serziam.validate_code.
  rewrite (bind_ok _ _ _ _ _ (serziam_get_current_code self w sb Hs)).
  reflexivity.
Qed.

Lemma validator_validate_code self input_code w sb :
  encode_utf8 (Validator.secret_seed self) = Ok sb ->
  Validator.validate_code self input_code w
  = (Ok (str_eqb input_code (code_of_month sb (clock w (ticks w)))),
     advance 1 w).
Proof.
  intros Hs. unfold Validator.validate_code.
  rewrite (bind_ok _ _ _ _ _ (validator_get_current_code self w sb Hs)).
  reflexivity.
Qed.

(** C7, as the code has it.  [is_code_expired] answers whether the
    instant [now] it reads last is later than 23:59:59 of the last day
    of the month of the instant it read first.  When [now] lies in that
    same month, the answer is true exactly in the last second of the
    month, after 23:59:59.000000; it is false up to and including that
    instant. *)
Theorem is_code_expired_spec :
  forall (w : world),
    let first := clock w (ticks w) in
    let now := clock w (3 + ticks w)%nat in
    let expiry := end_of_month (year first) (month first) in
    1 <= year first <= 9999 -> 1 <= month first <= 12 ->
    ~ (year first = 9999 /\ month first = 12) ->
    Serziam.is_code_expired Serziam.HiddenAccessCodeManager w
    = (Ok (PyDatetime.gt now expiry), advance 4 w)
    /\ (PyDatetime.valid now = true ->
        year now = year first -> month now = month first ->
        (PyDatetime.gt now expiry = true
         <-> day now = last_day_of_month (year now) (month now)
             /\ hour now = 23 /\ minute now = 59 /\ second now = 59
             /\ 1 <= microsecond now)).
Proof.
  intros w first now expiry Hy Hm Hd. split.
  - apply (serziam_is_code_expired Serziam.HiddenAccessCodeManager w _ expiry
             secret_seed_bytes).
    apply expires_at_of_end_of_month; assumption.
  - intros V Ey Em. unfold expiry. rewrite <- Ey, <- Em.
    apply gt_end_of_month. exact V.
Qed.

Lemma is_code_expired_spec_witness :
  1 <= 2024 <= 9999 /\ 1 <= 12 <= 12 /\ ~ (2024 = 9999 /\ 12 = 12)
  /\ Serziam.is_code_expired Serziam.HiddenAccessCodeManager
       (still_world mid_december_2024 [] true)
     = (Ok false, advance 4 (still_world mid_december_2024 [] true)).
Proof.
  split; [lia|]. split; [lia|]. split; [lia|].
  exact (proj1 (is_code_expired_spec (still_world mid_december_2024 [] true)
                  ltac:(simpl; lia) ltac:(simpl; lia) ltac:(simpl; lia))).
Defined.

(** C7 as stated fails in the last second of a month: half a second
    after 23:59:59 on 31 December 2024 the instant is still in December
    2024, and the code is reported expired. *)
Lemma is_code_expired_within_month :
  PyDatetime.valid last_second_2024 = true
  /\ year last_second_2024 = 2024 /\ month last_second_2024 = 12
  /\ fst (Serziam.is_code_expired Serziam.HiddenAccessCodeManager
            (still_world last_second_2024 [] true))
     = Ok true.
Proof.
  split; [vm_compute; reflexivity|].
  split; [reflexivity|]. split; [reflexivity|].
  vm_compute. reflexivity.
Qed.

(** C10, as the code has it.  The expiry is built from the year and the
    month of the invocation time alone: two invocations in the same
    month return the same expiry, whose hour, minute and second are 23,
    59 and 59 and whose microsecond is 0; it is exactly
    23:59:59.000000 of the last day, not later, and [is_code_expired]
    compares with that instant. *)
Theorem expiry_has_no_microsecond :
  forall (w1 w2 : world),
    let t1 := clock w1 (ticks w1) in
    let t2 := clock w2 (ticks w2) in
    1 <= year t1 <= 9999 -> 1 <= month t1 <= 12 ->
    ~ (year t1 = 9999 /\ month t1 = 12) ->
    year t2 = year t1 -> month t2 = month t1 ->
    exists code1 code2 name expires_at,
      Serziam.get_current_code_with_expiry Serziam.HiddenAccessCodeManager w1
      = (Ok (code1, expires_at), advance 3 w1)
      /\ Serziam.get_current_code_with_expiry Serziam.HiddenAccessCodeManager
           w2
         = (Ok (code2, expires_at), advance 3 w2)
      /\ Validator.display_code_status Validator.VisibleAccessCodeManager w2
         = (Ok (code2, expires_at),
            emit (Printed (MsgDaysRemaining
                             (PyDatetime.diff_days expires_at t2)))
              (emit (Printed (MsgExpiresOn expires_at))
                 (emit (Printed (MsgCodeVisible name (year t2) code2))
                    (advance 3 w2))))
      /\ hour expires_at = 23 /\ minute expires_at = 59
      /\ second expires_at = 59 /\ microsecond expires_at = 0
      /\ PyDatetime.gt expires_at
           (mkdatetime (year t1) (month t1)
                       (last_day_of_month (year t1) (month t1)) 23 59 59 0)
         = false
      /\ Serziam.is_code_expired Serziam.HiddenAccessCodeManager w1
         = (Ok (PyDatetime.gt (clock w1 (3 + ticks w1)%nat) expires_at),
            advance 4 w1).
Proof.
  intros w1 w2 t1 t2 Hy Hm Hd Ey Em.
  pose proof (expires_at_of_end_of_month t1 Hy Hm Hd) as E1.
  assert (E2 : expires_at_of t2 = Ok (end_of_month (year t1) (month t1))).
  { rewrite <- Ey, <- Em. apply expires_at_of_end_of_month; rewrite ?Ey, ?Em;
      assumption. }
  destruct (month_name_found (month t2)) as [name Hn]; [rewrite Em; exact Hm|].
  exists (code_of_month Serziam.Config.SECRET_SEED (clock w1 (2 + ticks w1)%nat)),
         (code_of_month Serziam.Config.SECRET_SEED (clock w2 (2 + ticks w2)%nat)),
         name, (end_of_month (year t1) (month t1)).
  split; [|split; [|split]].
  - rewrite (serziam_get_current_code_with_expiry
               Serziam.HiddenAccessCodeManager w1 _ secret_seed_bytes).
    fold t1. rewrite E1. reflexivity.
  - rewrite (serziam_get_current_code_with_expiry
               Serziam.HiddenAccessCodeManager w2 _ secret_seed_bytes).
    fold t2. rewrite E2. reflexivity.
  - apply (validator_display_code_status
             Validator.VisibleAccessCodeManager w2 _ _ name
             secret_seed_bytes E2 Hn).
  - repeat split.
    + unfold PyDatetime.gt, end_of_month, PyDatetime.fields. simpl.
      rewrite !Z.ltb_irrefl, !Z.eqb_refl. reflexivity.
    + apply (serziam_is_code_expired Serziam.HiddenAccessCodeManager w1 _ _
               secret_seed_bytes E1).
Qed.

Lemma expiry_has_no_microsecond_witness :
  1 <= 2024 <= 9999 /\ 1 <= 12 <= 12 /\ ~ (2024 = 9999 /\ 12 = 12)
  /\ 2024 = 2024 /\ 12 = 12
  /\ exists code1 code2 expires_at,
       Serziam.get_current_code_with_expiry Serziam.HiddenAccessCodeManager
         (still_world mid_december_2024 [] true)
       = (Ok (code1, expires_at),
          advance 3 (still_world mid_december_2024 [] true))
       /\ Serziam.get_current_code_with_expiry Serziam.HiddenAccessCodeManager
            (still_world last_second_2024 [] true)
          = (Ok (code2, expires_at),
             advance 3 (still_world last_second_2024 [] true))
       /\ microsecond expires_at = 0.
Proof.
  split; [lia|]. split; [lia|]. split; [lia|].
  split; [reflexivity|]. split; [reflexivity|].
  destruct (expiry_has_no_microsecond
              (still_world mid_december_2024 [] true)
              (still_world last_second_2024 [] true)
              ltac:(simpl; lia) ltac:(simpl; lia) ltac:(simpl; lia)
              eq_refl eq_refl)
    as [c1 [c2 [name [e [H1 [H2 [_ [_ [_ [_ [Hu _]]]]]]]]]]].
  exists c1, c2, e. split; [exact H1|]. split; [exact H2 | exact Hu].
Defined.

(** C10 as stated fails: invoked at 10:30:00.500000 on 15 December
    2024, the code returns an expiry whose microsecond is 0, not
    500000, and which is not later than 23:59:59.000000 of 31
    December. *)
Lemma expiry_drops_microsecond :
  microsecond mid_december_2024 = 500000
  /\ exists code expires_at,
       fst (Serziam.get_current_code_with_expiry
              Serziam.HiddenAccessCodeManager
              (still_world mid_december_2024 [] true))
       = Ok (code, expires_at)
       /\ fst (Validator.display_code_status
                 Validator.VisibleAccessCodeManager
                 (still_world mid_december_2024 [] true))
          = Ok (code, expires_at)
       /\ microsecond expires_at = 0
       /\ PyDatetime.gt expires_at (mkdatetime 2024 12 31 23 59 59 0) = false.
Proof.
  split; [reflexivity|]. do 2 eexists.
  split; [vm_compute; reflexivity|].
  split; [vm_compute; reflexivity|].
  split; vm_compute; reflexivity.
Qed.

(** ** The unlock dialogue *)

Lemma input_run w :
  input w
  = (match keyboard w (reads w) with
     | Line s => Ok s
     | CtrlC => Raise KeyboardInterrupt
     | CtrlD => Raise EOFError
     end, asked w).
Proof. unfold input, asked. destruct (keyboard w (reads w)); reflexivity. Qed.

Lemma prompt_turn_outcome unicode_upper attempts w :
  Serziam.prompt_turn unicode_upper Serziam.AccessControlSystem_init attempts w
  = turn_outcome unicode_upper attempts w.
Proof.
  unfold Serziam.prompt_turn, turn_outcome, try_except.
  unfold bind at 1. rewrite input_run.
  destruct (keyboard w (reads w)) as [raw| |]; try reflexivity.
  unfold bind at 1.
  rewrite (serziam_validate_code Serziam.HiddenAccessCodeManager _ (asked w)
             _ secret_seed_bytes).
  change (clock (asked w) (ticks (asked w))) with (clock w (ticks w)).
  fold secret_bytes.
  destruct (str_eqb _ _).
  - unfold bind, print, server_call, ret. simpl.
    destruct (asterisk w (calls w)); reflexivity.
  - cbv zeta. destruct (0 <? attempts - 1); reflexivity.
Qed.

Lemma prompt_loop_run unicode_upper (fuel : nat) :
  forall (n : nat) (w : world),
    (1 <= n <= fuel)%nat ->
    exists evs,
      loop_run n evs
        (fst (Serziam.prompt_loop unicode_upper fuel
                Serziam.AccessControlSystem_init (Z.of_nat n) w))
      /\ trace (snd (Serziam.prompt_loop unicode_upper fuel
                       Serziam.AccessControlSystem_init (Z.of_nat n) w))
         = rev evs ++ trace w
      /\ reads (snd (Serziam.prompt_loop unicode_upper fuel
                       Serziam.AccessControlSystem_init (Z.of_nat n) w))
         = (count is_asked evs + reads w)%nat.
Proof.
  induction fuel as [|fuel IH]; intros n w Hn; [lia|].
  destruct n as [|n]; [lia|].
  cbn [Serziam.prompt_loop].
  replace (0 <? Z.of_nat (S n)) with true by (symmetry; apply Z.ltb_lt; lia).
  unfold bind. rewrite prompt_turn_outcome. unfold turn_outcome.
  destruct (keyboard w (reads w)) as [raw| |].
  - cbv zeta. destruct (str_eqb _ _).
    + destruct (asterisk w (calls w)).
      * eexists. split; [apply run_unlocked|]. split; reflexivity.
      * eexists. split; [apply run_restart_error|]. split; reflexivity.
    + replace (Z.of_nat (S n) - 1) with (Z.of_nat n) by lia.
      destruct (0 <? Z.of_nat n) eqn:E.
      * apply Z.ltb_lt in E. destruct n as [|n]; [lia|].
        set (w' := emit _ _).
        destruct (IH (S n) w' ltac:(lia)) as [evs [R [T Rd]]].
        exists (Asked :: Printed (MsgRemaining (Z.of_nat (S n))) :: evs).
        split; [apply run_retry; exact R|].
        split.
        -- rewrite T. simpl. rewrite <- !app_assoc. reflexivity.
        -- rewrite Rd. unfold count. simpl. lia.
      * apply Z.ltb_ge in E. assert (n = 0)%nat by lia. subst n.
        eexists. split; [apply run_exhausted|]. split; reflexivity.
  - eexists. split; [apply run_cancelled|]. split; reflexivity.
  - eexists. split; [apply run_closed|]. split; reflexivity.
Qed.

Lemma loop_run_shape n evs r :
  loop_run n evs r ->
  (count is_asked evs <= n)%nat
  /\ (count is_failure evs <= count is_asked evs <= S (count is_failure evs))%nat
  /\ (exists rest, countdown n = filter is_failure evs ++ rest)
  /\ (existsb is_too_many evs = true <-> count is_failure evs = n)
  /\ (existsb is_too_many evs = true ->
      r = Ok (Some false) /\ count is_asked evs = n)
  /\ (existsb is_correct evs = true -> existsb is_too_many evs = false)
  /\ (count is_started evs <= count is_correct evs <= 1)%nat
  /\ r <> Ok None.
Proof.
  induction 1 as [n|n|n|n| |n evs r R IH].
  1-4: unfold count; simpl; repeat split; try lia; try discriminate;
       try (eexists; reflexivity); intros; try discriminate; lia.
  - unfold count; simpl; repeat split; try lia; try discriminate;
      try (exists []; reflexivity).
  - destruct IH as [A [B [[rest C] [D [E [F [G N]]]]]]].
    unfold count in *. cbn [filter is_asked is_failure is_too_many is_correct
                            is_started existsb length orb] in *.
    repeat split; try lia; try assumption.
    + exists rest.
      change (countdown (S (S n)))
        with (Printed (MsgRemaining (Z.of_nat (S n))) :: countdown (S n)).
      rewrite C. reflexivity.
    + intros H. apply D in H. lia.
    + intros H. apply D. lia.
    + apply E; assumption.
    + apply E in H. lia.
Qed.

Lemma prompt_for_new_code_run unicode_upper w :
  Serziam._prompt_for_new_code unicode_upper Serziam.AccessControlSystem_init w
  = Serziam.prompt_loop unicode_upper 3 Serziam.AccessControlSystem_init 3
      (dialogue_start w).
Proof.
  unfold Serziam._prompt_for_new_code.
  rewrite (bind_ok _ _ _ _ _ (now_run w)).
  rewrite (bind_ok _ _ _ _ _ (serziam_get_current_period _ _)).
  rewrite (bind_ok _ _ _ _ _
             (serziam_get_current_code Serziam.HiddenAccessCodeManager _ _
                secret_seed_bytes)).
  reflexivity.
Qed.

(** C6, as the code has it.  In a turn with attempts left, when the
    entered line validates, the server is started once and the
    dialogue returns what the start answers: [True] (unlocked) when the
    server came up, [False] when it did not. *)
Theorem prompt_success_unlocks_if_started :
  forall (unicode_upper : Z -> pystr) (w : world) (attempts : Z)
         (raw : pystr) (fuel : nat),
    let self := Serziam.AccessControlSystem_init in
    0 < attempts ->
    keyboard w (reads w) = Line raw ->
    fst (Serziam.validate_code (Serziam.code_manager self)
           (upper unicode_upper (strip raw)) (asked w)) = Ok true ->
    let started := asterisk w (calls w) in
    exists w',
      Serziam.prompt_turn unicode_upper self attempts w
      = (Ok (Serziam.Return started), w')
      /\ Serziam.prompt_loop unicode_upper (S fuel) self attempts w
         = (Ok (Some started), w')
      /\ trace w'
         = Printed (if started then MsgUnlocked else MsgRestartError)
           :: Started :: Printed MsgCorrect :: Asked :: trace w
      /\ calls w' = S (calls w).
Proof.
  intros unicode_upper w attempts raw fuel self Ha Hk Hv started.
  unfold self in *.
  rewrite (serziam_validate_code Serziam.HiddenAccessCodeManager _ (asked w)
             _ secret_seed_bytes) in Hv.
  simpl in Hv. inversion Hv as [Hb]. clear Hv.
  cbn [Serziam.prompt_loop].
  replace (0 <? attempts) with true by (symmetry; apply Z.ltb_lt; exact Ha).
  unfold bind. rewrite prompt_turn_outcome. unfold turn_outcome.
  rewrite Hk. cbv zeta. unfold secret_bytes. rewrite Hb.
  fold started. destruct started; eexists; repeat split.
Qed.

Lemma prompt_success_unlocks_if_started_witness :
  0 < 3
  /\ keyboard (still_world june_2025 [Line (lit " tesxsjgm ")] true)
              (reads (still_world june_2025 [Line (lit " tesxsjgm ")] true))
     = Line (lit " tesxsjgm ")
  /\ fst (Serziam.validate_code
            (Serziam.code_manager Serziam.AccessControlSystem_init)
            (upper plain_upper (strip (lit " tesxsjgm ")))
            (asked (still_world june_2025 [Line (lit " tesxsjgm ")] true)))
     = Ok true
  /\ exists w',
       Serziam.prompt_loop plain_upper 3 Serziam.AccessControlSystem_init 3
         (still_world june_2025 [Line (lit " tesxsjgm ")] true)
       = (Ok (Some true), w').
Proof.
  split; [lia|]. split; [reflexivity|].
  assert (V : fst (Serziam.validate_code
            (Serziam.code_manager Serziam.AccessControlSystem_init)
            (upper plain_upper (strip (lit " tesxsjgm ")))
            (asked (still_world june_2025 [Line (lit " tesxsjgm ")] true)))
     = Ok true) by (vm_compute; reflexivity).
  split; [exact V|].
  destruct (prompt_success_unlocks_if_started plain_upper
              (still_world june_2025 [Line (lit " tesxsjgm ")] true)
              3 (lit " tesxsjgm ") 2 ltac:(lia) eq_refl V)
    as [w' [_ [H _]]].
  exists w'. exact H.
Defined.

(** C6 as stated fails when the server does not come up: the operator
    enters the code of June 2025 at the first attempt, the validation
    succeeds, and the dialogue returns [False]. *)
Lemma prompt_success_but_restart_fails :
  fst (Serziam.validate_code
         (Serziam.code_manager Serziam.AccessControlSystem_init)
         (upper plain_upper (strip (lit "TESXSJGM")))
         (asked (dialogue_start
                   (still_world june_2025 [Line (lit "TESXSJGM")] false))))
  = Ok true
  /\ fst (Serziam._prompt_for_new_code plain_upper
            Serziam.AccessControlSystem_init
            (still_world june_2025 [Line (lit "TESXSJGM")] false))
     = Ok (Some false)
  /\ trace (snd (Serziam._prompt_for_new_code plain_upper
                   Serziam.AccessControlSystem_init
                   (still_world june_2025 [Line (lit "TESXSJGM")] false)))
     = [Printed MsgRestartError; Started; Printed MsgCorrect; Asked;
        Printed MsgPleaseEnter; Printed MsgGenerated;
        Printed (MsgPeriod june_2025)].
Proof.
  split; [vm_compute; reflexivity|].
  split; vm_compute; reflexivity.
Qed.

(** ** Validation *)

Lemma str_eqb_refl (s : pystr) : str_eqb s s = true.
Proof. apply str_eqb_eq. reflexivity. Qed.

Lemma code_char_in_alphabet (digest : pybytes) (i : Z) :
  In (code_char digest i) alphabet.
Proof.
  unfold code_char. apply nth_In.
  pose proof (Z.mod_pos_bound
                (nth (Z.to_nat (i mod 32)) digest 0 + i) 36 ltac:(lia)).
  change (length alphabet) with 36%nat. lia.
Qed.

Lemma deriveCode_spec_alphabet pb sb n :
  Forall (fun c => In c alphabet) (deriveCode_spec pb sb n).
Proof.
  unfold deriveCode_spec. apply Forall_forall. intros c H.
  apply in_map_iff in H. destruct H as [i [<- _]].
  apply code_char_in_alphabet.
Qed.

Lemma alphabet_chars (c : Z) :
  In c alphabet -> 65 <= c <= 90 \/ 48 <= c <= 57.
Proof.
  unfold alphabet. simpl.
  intros H. repeat (destruct H as [<- | H]; [lia|]). contradiction.
Qed.


Lemma lstrip_no_space (s : pystr) :
  Forall (fun c => isspace c = false) s -> lstrip s = s.
Proof. intros [|c r H _]; [reflexivity|]. simpl. rewrite H. reflexivity. Qed.

Lemma strip_no_space (s : pystr) :
  Forall (fun c => isspace c = false) s -> strip s = s.
Proof.
  intros H. unfold strip. rewrite (lstrip_no_space s H).
  rewrite lstrip_no_space by (apply Forall_rev; exact H).
  apply rev_involutive.
Qed.



Lemma code_of_month_year_month sb (t : datetime) :
  code_of_month sb t = code_of_month sb (first_instant (year t, month t)).
Proof. reflexivity. Qed.

(** The rollovers of 2024 and 2025, by evaluation. *)
Lemma rollovers_checked :
  forallb
    (fun y =>
       forallb
         (fun m =>
            codes_differ
              (code_of_month secret_bytes (first_instant (y, m)))
              (code_of_month secret_bytes
                             (first_instant (next_month_of y m))))
         (interval 1 12))
    (interval 2024 2025) = true.
Proof. vm_compute. reflexivity. Qed.

Lemma codes_differ_false (a b : pystr) :
  codes_differ a b = true -> str_eqb a b = false.
Proof. unfold codes_differ. intros H. apply negb_true_iff in H. exact H. Qed.

Lemma codes_differ_at_rollover (y m : Z) :
  2024 <= y <= 2025 -> 1 <= m <= 12 ->
  str_eqb (code_of_month secret_bytes (first_instant (y, m)))
          (code_of_month secret_bytes (first_instant (next_month_of y m)))
  = false.
Proof.
  intros Hy Hm.
  pose proof (forallb_interval _ 2024 2025 rollovers_checked y Hy) as B.
  cbv beta in B.
  pose proof (forallb_interval _ 1 12 B m Hm) as C.
  cbv beta in C.
  exact (codes_differ_false _ _ C).
Qed.

Lemma code_of_month_alphabet sb (t : datetime) :
  Forall (fun c => In c alphabet) (code_of_month sb t).
Proof. unfold code_of_month. apply deriveCode_spec_alphabet. Qed.

Lemma code_of_month_length sb (t : datetime) : len (code_of_month sb t) = 8.
Proof. unfold code_of_month. rewrite deriveCode_spec_length. reflexivity. Qed.

(** ** The entry of the gate *)

(** [check_access] lets the operator in when the code is not expired;
    otherwise it stops the server and runs the unlock dialogue. *)
Lemma check_access_run (unicode_upper : Z -> pystr) (w : world) :
  let first := clock w (ticks w) in
  let now := clock w (3 + ticks w)%nat in
  1 <= year first <= 9999 -> 1 <= month first <= 12 ->
  ~ (year first = 9999 /\ month first = 12) ->
  Serziam.check_access unicode_upper Serziam.AccessControlSystem_init w
  = if PyDatetime.gt now (end_of_month (year first) (month first))
    then Serziam._prompt_for_new_code unicode_upper
           Serziam.AccessControlSystem_init
           (called Stopped
              (emit (Printed MsgBlockedUntilNewCode)
                 (emit (Printed MsgExpired) (advance 4 w))))
    else (Ok (Some true), emit (Printed MsgAccessValid) (advance 4 w)).
Proof.
  intros first now Hy Hm Hd. unfold Serziam.check_access.
  rewrite (bind_ok _ _ _ _ _
             (serziam_is_code_expired Serziam.HiddenAccessCodeManager w _ _
                secret_seed_bytes
                (expires_at_of_end_of_month first Hy Hm Hd))).
  fold now. destruct (PyDatetime.gt now _); reflexivity.
Qed.

(* ================================================================== *)
(** * Further properties *)

(** ** The period string *)

Lemma digits_acc (fuel : nat) (n : Z) (acc : pystr) :
  digits fuel n acc = digits fuel n [] ++ acc.
Proof.
  revert n acc. induction fuel as [|f IH]; intros n acc; cbn [digits].
  - reflexivity.
  - destruct (n <? 10); [reflexivity|].
    rewrite (IH _ (_ :: acc)), (IH _ [_]), <- app_assoc. reflexivity.
Qed.

Lemma dec_value_app (s : pystr) (c : Z) :
  dec_value (s ++ [c]) = 10 * dec_value s + (c - 48).
Proof. unfold dec_value. rewrite fold_left_app. reflexivity. Qed.

Lemma digits_value (fuel : nat) (n : Z) :
  0 <= n < 10 ^ Z.of_nat fuel -> dec_value (digits fuel n []) = n.
Proof.
  revert n. induction fuel as [|f IH]; intros n H.
  - change (10 ^ Z.of_nat 0) with 1 in H. assert (n = 0) by lia. subst.
    reflexivity.
  - cbn [digits]. destruct (n <? 10) eqn:E.
    + unfold dec_value. cbn [fold_left]. lia.
    + apply Z.ltb_ge in E. rewrite digits_acc, dec_value_app.
      rewrite Nat2Z.inj_succ, Z.pow_succ_r in H by lia.
      rewrite IH.
      * pose proof (Z.div_mod n 10 ltac:(lia)). lia.
      * split; [apply Z.div_pos; lia|].
        apply Z.div_lt_upper_bound; lia.
Qed.

Lemma pow10_log2 (n : Z) : 0 <= n -> n < 10 ^ Z.of_nat (S (Z.to_nat (Z.log2 n))).
Proof.
  intros H. destruct (Z.eq_dec n 0) as [->|N].
  - reflexivity.
  - pose proof (Z.log2_nonneg n).
    pose proof (Z.log2_spec n ltac:(lia)) as [_ U].
    rewrite Nat2Z.inj_succ, Z2Nat.id by lia.
    eapply Z.lt_le_trans; [exact U|].
    apply Z.pow_le_mono_l. lia.
Qed.

Lemma format_d_value (n : Z) : 0 <= n -> dec_value (format_d n) = n.
Proof.
  intros H. unfold format_d.
  destruct (n <? 0) eqn:E; [apply Z.ltb_lt in E; lia|].
  apply digits_value. split; [exact H | apply pow10_log2; exact H].
Qed.

Lemma format_02d_month (m : Z) :
  1 <= m <= 12 -> format_02d m = [48 + m / 10; 48 + m mod 10].
Proof.
  intros H.
  assert (m = 1 \/ m = 2 \/ m = 3 \/ m = 4 \/ m = 5 \/ m = 6 \/ m = 7
          \/ m = 8 \/ m = 9 \/ m = 10 \/ m = 11 \/ m = 12) as C by lia.
  repeat (destruct C as [-> | C]; [reflexivity|]). subst m. reflexivity.
Qed.

Lemma period_of_shape (t : datetime) :
  1 <= month t <= 12 ->
  period_of t
  = [48 + month t / 10; 48 + month t mod 10; 45] ++ format_d (year t).
Proof.
  intros H. unfold period_of. rewrite (format_02d_month _ H). reflexivity.
Qed.

Lemma cons_eq_inv {A} (x y : A) (l l' : list A) :
  x :: l = y :: l' -> x = y /\ l = l'.
Proof. intros H. inversion H. split; reflexivity. Qed.

(** X1. The period string of an instant with a month from 1 to 12 and
    a year that is not negative is the two digits of the month, a
    hyphen and the decimal digits of the year; read back, the digits
    give the year again.  Two such instants therefore get the same
    period string exactly when they lie in the same month of the same
    year. *)
Theorem period_string_identifies_month :
  forall (self : Serziam.DeterministicCodeGenerator) (w1 w2 : world),
    let t1 := clock w1 (ticks w1) in
    let t2 := clock w2 (ticks w2) in
    1 <= month t1 <= 12 -> 1 <= month t2 <= 12 ->
    0 <= year t1 -> 0 <= year t2 ->
    (exists digits_of_year,
        fst (Serziam.get_current_period self w1)
        = Ok ([48 + month t1 / 10; 48 + month t1 mod 10; 45]
              ++ digits_of_year)
        /\ dec_value digits_of_year = year t1)
    /\ (fst (Serziam.get_current_period self w1)
        = fst (Serziam.get_current_period self w2)
        <-> month t1 = month t2 /\ year t1 = year t2).
Proof.
  intros self w1 w2 t1 t2 M1 M2 Y1 Y2.
  rewrite !serziam_get_current_period. cbn [fst]. fold t1 t2.
  split.
  - exists (format_d (year t1)). split.
    + rewrite (period_of_shape t1 M1). reflexivity.
    + apply format_d_value. exact Y1.
  - split.
    + intros H. inversion H as [E]. clear H.
      rewrite (period_of_shape t1 M1), (period_of_shape t2 M2) in E.
      cbn [app] in E.
      apply cons_eq_inv in E. destruct E as [E1 E].
      apply cons_eq_inv in E. destruct E as [E2 E].
      apply cons_eq_inv in E. destruct E as [_ E3].
      split.
      * pose proof (Z.div_mod (month t1) 10 ltac:(lia)).
        pose proof (Z.div_mod (month t2) 10 ltac:(lia)). lia.
      * rewrite <- (format_d_value (year t1) Y1),
                <- (format_d_value (year t2) Y2), E3.
        reflexivity.
    + intros [Em Ey]. unfold period_of. rewrite Em, Ey. reflexivity.
Qed.

Lemma period_string_identifies_month_witness :
  1 <= 6 <= 12 /\ 1 <= 12 <= 12 /\ 0 <= 2025 /\ 0 <= 2024
  /\ (fst (Serziam.get_current_period Serziam.HiddenAccessCodeManager
             (still_world june_2025 [] true))
      = fst (Serziam.get_current_period Serziam.HiddenAccessCodeManager
               (still_world mid_december_2024 [] true))
      <-> 6 = 12 /\ 2025 = 2024).
Proof.
  split; [lia|]. split; [lia|]. split; [lia|]. split; [lia|].
  exact (proj2 (period_string_identifies_month
                  Serziam.HiddenAccessCodeManager
                  (still_world june_2025 [] true)
                  (still_world mid_december_2024 [] true)
                  ltac:(simpl; lia) ltac:(simpl; lia)
                  ltac:(simpl; lia) ltac:(simpl; lia))).
Defined.

(** ** The gate as a whole *)

(** X2. Within a month the gate never locks: when the instant compared
    with the expiry lies in the month of the instant read first, and
    not in the last second of that month after 23:59:59.000000,
    [check_access] lets the operator in, prints one line, asks nothing
    and does not touch the server. *)
Theorem check_access_open_within_month :
  forall (unicode_upper : Z -> pystr) (w : world),
    let first := clock w (ticks w) in
    let now := clock w (3 + ticks w)%nat in
    1 <= year first <= 9999 -> 1 <= month first <= 12 ->
    ~ (year first = 9999 /\ month first = 12) ->
    PyDatetime.valid now = true ->
    year now = year first -> month now = month first ->
    ~ (day now = last_day_of_month (year now) (month now)
       /\ hour now = 23 /\ minute now = 59 /\ second now = 59
       /\ 1 <= microsecond now) ->
    Serziam.check_access unicode_upper Serziam.AccessControlSystem_init w
    = (Ok (Some true), emit (Printed MsgAccessValid) (advance 4 w)).
Proof.
  intros unicode_upper w first now Hy Hm Hd V Ey Em Hl.
  rewrite (check_access_run unicode_upper w Hy Hm Hd). fold first now.
  destruct (PyDatetime.gt now (end_of_month (year first) (month first)))
    eqn:G; [|reflexivity].
  exfalso. apply Hl. rewrite <- Ey, <- Em in G.
  apply (gt_end_of_month now V). exact G.
Qed.

Lemma check_access_open_within_month_witness :
  1 <= 2024 <= 9999 /\ 1 <= 12 <= 12 /\ ~ (2024 = 9999 /\ 12 = 12)
  /\ PyDatetime.valid mid_december_2024 = true
  /\ Serziam.check_access plain_upper Serziam.AccessControlSystem_init
       (still_world mid_december_2024 [] false)
     = (Ok (Some true),
        emit (Printed MsgAccessValid)
             (advance 4 (still_world mid_december_2024 [] false))).
Proof.
  split; [lia|]. split; [lia|]. split; [lia|]. split; [reflexivity|].
  apply (check_access_open_within_month plain_upper
           (still_world mid_december_2024 [] false));
    simpl; try lia; reflexivity.
Defined.

Lemma loop_run_safe n evs r :
  loop_run n evs r ->
  (r = Ok (Some true) \/ r = Ok (Some false) \/ r = Raise EOFError)
  /\ (r = Ok (Some true) <-> In (Printed MsgUnlocked) evs)
  /\ (In Started evs -> In (Printed MsgCorrect) evs)
  /\ (r = Raise EOFError -> ~ In Started evs)
  /\ (In (Printed MsgCancelled) evs ->
      r = Ok (Some false) /\ ~ In Started evs)
  /\ ~ In Stopped evs.
Proof.
  induction 1 as [n|n|n|n| |n evs r R IH];
    [simpl; intuition (discriminate || congruence) .. |].
  destruct IH as [A [B [C [D [E F]]]]]. simpl.
  intuition (discriminate || congruence).
Qed.

Lemma gt_later_month (a b : datetime) :
  year b < year a \/ (year a = year b /\ month b < month a) ->
  PyDatetime.gt a b = true.
Proof.
  intros H. unfold PyDatetime.gt, PyDatetime.fields. cbn [PyDatetime.lex_gt].
  destruct H as [H|[E H]].
  - replace (year b <? year a) with true by (symmetry; apply Z.ltb_lt; lia).
    reflexivity.
  - replace (year a =? year b) with true by (symmetry; apply Z.eqb_eq; lia).
    replace (month b <? month a) with true
      by (symmetry; apply Z.ltb_lt; lia).
    rewrite orb_true_r. reflexivity.
Qed.

(** X4. When the instant compared with the expiry lies in a later month
    than the instant read first, [check_access] prints that the code
    expired, stops the server once, whatever the stop answers, and only
    then runs the unlock dialogue, whose answer it returns; it returns
    [True] only if the dialogue found a code correct and started the
    server again. *)
Theorem check_access_locks_after_month :
  forall (unicode_upper : Z -> pystr) (w : world),
    let first := clock w (ticks w) in
    let now := clock w (3 + ticks w)%nat in
    1 <= year first <= 9999 -> 1 <= month first <= 12 ->
    ~ (year first = 9999 /\ month first = 12) ->
    year first < year now
    \/ (year now = year first /\ month first < month now) ->
    let run := Serziam.check_access unicode_upper
                 Serziam.AccessControlSystem_init w in
    let stopped :=
      called Stopped
        (emit (Printed MsgBlockedUntilNewCode)
           (emit (Printed MsgExpired) (advance 4 w))) in
    run = Serziam._prompt_for_new_code unicode_upper
            Serziam.AccessControlSystem_init stopped
    /\ exists evs,
         trace (snd run)
         = rev evs
           ++ [Printed MsgPleaseEnter; Printed MsgGenerated;
               Printed (MsgPeriod (clock w (4 + ticks w)%nat));
               Stopped; Printed MsgBlockedUntilNewCode; Printed MsgExpired]
           ++ trace w
         /\ loop_run 3 evs (fst run)
         /\ (fst run = Ok (Some true) ->
             In Started evs /\ In (Printed MsgCorrect) evs).
Proof.
  intros unicode_upper w first now Hy Hm Hd Hl run stopped.
  assert (E : run = Serziam._prompt_for_new_code unicode_upper
                      Serziam.AccessControlSystem_init stopped).
  { unfold run. rewrite (check_access_run unicode_upper w Hy Hm Hd).
    fold first now.
    rewrite (gt_later_month now (end_of_month (year first) (month first)))
      by (simpl; lia).
    reflexivity. }
  split; [exact E|]. rewrite E, prompt_for_new_code_run.
  destruct (prompt_loop_run unicode_upper 3 3 (dialogue_start stopped)
              ltac:(lia)) as [evs [R [T _]]].
  change (Z.of_nat 3) with 3 in R, T.
  destruct (loop_run_safe _ _ _ R) as [_ [B [C _]]].
  exists evs. split; [rewrite T; reflexivity|]. split; [exact R|].
  intros H. apply B in H.
  assert (S : In Started evs).
  { clear - R H. induction R; simpl in *;
      intuition (discriminate || congruence). }
  split; [exact S | apply C; exact S].
Qed.

Lemma check_access_locks_after_month_witness :
  1 <= 2024 <= 9999 /\ 1 <= 12 <= 12 /\ ~ (2024 = 9999 /\ 12 = 12)
  /\ (2024 < 2025 \/ (2025 = 2024 /\ 12 < 1))
  /\ Serziam.check_access plain_upper Serziam.AccessControlSystem_init
       (new_year_world [Line (lit "duvngxi1")] true)
     = Serziam._prompt_for_new_code plain_upper
         Serziam.AccessControlSystem_init
         (called Stopped
            (emit (Printed MsgBlockedUntilNewCode)
               (emit (Printed MsgExpired)
                  (advance 4 (new_year_world [Line (lit "duvngxi1")] true))))).
Proof.
  split; [lia|]. split; [lia|]. split; [lia|]. split; [lia|].
  exact (proj1 (check_access_locks_after_month plain_upper
                  (new_year_world [Line (lit "duvngxi1")] true)
                  ltac:(simpl; lia) ltac:(simpl; lia) ltac:(simpl; lia)
                  ltac:(simpl; lia))).
Defined.

(** In that world the operator types the code of January 2025 in
    lowercase and is let in. *)
Example check_access_new_year :
  fst (Serziam.check_access plain_upper Serziam.AccessControlSystem_init
         (new_year_world [Line (lit "duvngxi1")] true))
  = Ok (Some true).
Proof. vm_compute. reflexivity. Qed.

(** ** Validation and the entered line *)

Lemma is_code_char_not_space (c : Z) : is_code_char c -> isspace c = false.
Proof.
  intros H. unfold is_code_char in H. unfold isspace.
  repeat (apply orb_false_iff; split);
    try (apply andb_false_iff; rewrite !Z.leb_gt; lia);
    apply Z.eqb_neq; lia.
Qed.

Lemma same_letter_not_space (x y : Z) :
  is_code_char y -> same_letter x y -> isspace x = false.
Proof.
  intros Hy [->|[Hu ->]]; [apply is_code_char_not_space; exact Hy|].
  unfold isspace.
  repeat (apply orb_false_iff; split);
    try (apply andb_false_iff; rewrite !Z.leb_gt; lia);
    apply Z.eqb_neq; lia.
Qed.

Lemma same_letter_upper (unicode_upper : Z -> pystr) (x y : Z) :
  is_code_char y -> same_letter x y -> upper_char unicode_upper x = [y].
Proof.
  intros Hy H. unfold upper_char. unfold is_code_char in Hy.
  destruct H as [->|[Hu ->]].
  - replace ((97 <=? y) && (y <=? 122)) with false
      by (symmetry; apply andb_false_iff; rewrite !Z.leb_gt; lia).
    replace (y <? 128) with true by (symmetry; apply Z.ltb_lt; lia).
    reflexivity.
  - replace ((97 <=? y + 32) && (y + 32 <=? 122)) with true
      by (symmetry; apply andb_true_iff; rewrite !Z.leb_le; lia).
    f_equal. lia.
Qed.

Lemma upper_rendition (unicode_upper : Z -> pystr) (s code : pystr) :
  Forall is_code_char code -> Forall2 same_letter s code ->
  upper unicode_upper s = code.
Proof.
  intros Hc H. unfold upper. induction H as [|x y s code Hxy _ IH].
  - reflexivity.
  - inversion Hc; subst. cbn [map concat].
    rewrite (same_letter_upper _ x y) by assumption.
    rewrite IH by assumption. reflexivity.
Qed.

Lemma rendition_not_space (s code : pystr) :
  Forall is_code_char code -> Forall2 same_letter s code ->
  Forall (fun c => isspace c = false) s.
Proof.
  intros Hc H. induction H as [|x y s code Hxy _ IH]; [constructor|].
  inversion Hc; subst. constructor.
  - apply (same_letter_not_space x y); assumption.
  - apply IH. assumption.
Qed.

Lemma lstrip_spaces (l s : pystr) :
  Forall (fun c => isspace c = true) l -> lstrip (l ++ s) = lstrip s.
Proof.
  induction 1 as [|c l Hc _ IH]; [reflexivity|].
  cbn [app lstrip]. rewrite Hc. exact IH.
Qed.

Lemma strip_padding (l s r : pystr) :
  Forall (fun c => isspace c = true) l ->
  Forall (fun c => isspace c = true) r ->
  Forall (fun c => isspace c = false) s ->
  strip (l ++ s ++ r) = s.
Proof.
  intros Hl Hr Hs. unfold strip. rewrite (lstrip_spaces l _ Hl).
  destruct s as [|c s].
  - cbn [app].
    assert (E : forall q, Forall (fun c => isspace c = true) q ->
                          lstrip q = []).
    { induction 1 as [|c q Hc _ IH]; [reflexivity|].
      cbn [lstrip]. rewrite Hc. exact IH. }
    rewrite (E r Hr). reflexivity.
  - inversion Hs as [|? ? Hc Hs']; subst.
    cbn [app lstrip]. rewrite Hc.
    change (c :: s ++ r) with ((c :: s) ++ r). rewrite rev_app_distr.
    rewrite lstrip_spaces by (apply Forall_rev; exact Hr).
    rewrite lstrip_no_space by (apply Forall_rev; exact Hs).
    apply rev_involutive.
Qed.

Lemma alphabet_is_code_char (code : pystr) :
  Forall (fun c => In c alphabet) code -> Forall is_code_char code.
Proof.
  intros H. eapply Forall_impl; [|exact H]. intros c Hc.
  apply alphabet_chars. exact Hc.
Qed.

(** X5. [validate_code] has no partial match: an input that it accepts
    has exactly 8 characters, each an uppercase letter A-Z or a digit;
    so does the copy of serziamvalidator.py. *)
Theorem validate_code_accepts_only_codes :
  forall (w : world) (input_code : pystr),
    fst (Serziam.validate_code Serziam.HiddenAccessCodeManager input_code w)
    = Ok true
    \/ fst (Validator.validate_code Validator.VisibleAccessCodeManager
              input_code w) = Ok true ->
    len input_code = 8 /\ Forall is_code_char input_code.
Proof.
  intros w input_code H.
  rewrite (serziam_validate_code Serziam.HiddenAccessCodeManager _ _ _
             secret_seed_bytes) in H.
  rewrite (validator_validate_code Validator.VisibleAccessCodeManager _ _ _
             secret_seed_bytes) in H.
  cbn [fst] in H.
  assert (E : input_code
              = code_of_month Serziam.Config.SECRET_SEED (clock w (ticks w))).
  { apply str_eqb_eq. destruct H as [H|H]; inversion H; reflexivity. }
  rewrite E. split.
  - apply code_of_month_length.
  - apply alphabet_is_code_char, code_of_month_alphabet.
Qed.

Lemma validate_code_accepts_only_codes_witness :
  (fst (Serziam.validate_code Serziam.HiddenAccessCodeManager
          (lit "TESXSJGM") (still_world june_2025 [] true)) = Ok true
   \/ fst (Validator.validate_code Validator.VisibleAccessCodeManager
             (lit "TESXSJGM") (still_world june_2025 [] true)) = Ok true)
  /\ len (lit "TESXSJGM") = 8 /\ Forall is_code_char (lit "TESXSJGM").
Proof.
  assert (H : fst (Serziam.validate_code Serziam.HiddenAccessCodeManager
                     (lit "TESXSJGM") (still_world june_2025 [] true))
              = Ok true
              \/ fst (Validator.validate_code
                        Validator.VisibleAccessCodeManager
                        (lit "TESXSJGM") (still_world june_2025 [] true))
                 = Ok true)
    by (left; vm_compute; reflexivity).
  split; [exact H|].
  exact (validate_code_accepts_only_codes _ _ H).
Defined.

(** X7. A code obtained from [get_current_code], of either file, is
    accepted by [validate_code] of either file when the clock is still
    in the same month at the time of the validation. *)
Theorem current_code_validates :
  forall (w : world),
    let issued := clock w (ticks w) in
    let checked := clock w (1 + ticks w)%nat in
    year checked = year issued -> month checked = month issued ->
    exists code,
      Serziam.get_current_code Serziam.HiddenAccessCodeManager w
      = (Ok code, advance 1 w)
      /\ Validator.get_current_code Validator.VisibleAccessCodeManager w
         = (Ok code, advance 1 w)
      /\ Serziam.validate_code Serziam.HiddenAccessCodeManager code
           (advance 1 w)
         = (Ok true, advance 2 w)
      /\ Validator.validate_code Validator.VisibleAccessCodeManager code
           (advance 1 w)
         = (Ok true, advance 2 w).
Proof.
  intros w issued checked Ey Em.
  exists (code_of_month Serziam.Config.SECRET_SEED issued).
  rewrite (serziam_get_current_code Serziam.HiddenAccessCodeManager _ _
             secret_seed_bytes).
  rewrite (validator_get_current_code Validator.VisibleAccessCodeManager _ _
             secret_seed_bytes).
  rewrite (serziam_validate_code Serziam.HiddenAccessCodeManager _ _ _
             secret_seed_bytes).
  rewrite (validator_validate_code Validator.VisibleAccessCodeManager _ _ _
             secret_seed_bytes).
  change (clock (advance 1 w) (ticks (advance 1 w))) with checked.
  fold issued.
  assert (E : code_of_month Serziam.Config.SECRET_SEED checked
              = code_of_month Serziam.Config.SECRET_SEED issued).
  { rewrite (code_of_month_year_month _ checked),
            (code_of_month_year_month _ issued), Ey, Em.
    reflexivity. }
  rewrite E, str_eqb_refl. repeat split.
Qed.

Lemma current_code_validates_witness :
  2025 = 2025 /\ 6 = 6
  /\ exists code,
       Serziam.get_current_code Serziam.HiddenAccessCodeManager
         (still_world june_2025 [] true)
       = (Ok code, advance 1 (still_world june_2025 [] true))
       /\ Validator.validate_code Validator.VisibleAccessCodeManager code
            (advance 1 (still_world june_2025 [] true))
          = (Ok true, advance 2 (still_world june_2025 [] true)).
Proof.
  split; [reflexivity|]. split; [reflexivity|].
  destruct (current_code_validates (still_world june_2025 [] true)
              eq_refl eq_refl) as [code [H1 [_ [_ H4]]]].
  exists code. split; [exact H1 | exact H4].
Defined.

(** ** The shape of a code *)

(** X8. Whatever the secret, the period and the length, the derived
    code contains only uppercase letters A-Z and digits, and the
    normalisation that the callers apply to an entered line leaves it
    as it is. *)
Theorem generated_code_is_normal :
  forall (unicode_upper : Z -> pystr) (s p : pystr) (n : Z) (w : world)
         (sb pb : pybytes),
    encode_utf8 s = Ok sb ->
    encode_utf8 p = Ok pb ->
    exists code,
      Serziam.generate_deterministic_code
        (Serziam.DeterministicCodeGenerator_init s) (Some p) n w
      = (Ok code, w)
      /\ Forall is_code_char code
      /\ upper unicode_upper (strip code) = code.
Proof.
  intros unicode_upper s p n w sb pb Hs Hp.
  exists (deriveCode_spec pb sb n).
  assert (A : Forall is_code_char (deriveCode_spec pb sb n))
    by apply alphabet_is_code_char, deriveCode_spec_alphabet.
  split; [|split].
  - rewrite serziam_generate_pure. cbn [Serziam.secret_seed
      Serziam.DeterministicCodeGenerator_init].
    rewrite (derive_result_ok s p n sb pb Hp Hs). reflexivity.
  - exact A.
  - rewrite strip_no_space.
    + apply upper_rendition; [exact A|].
      clear. induction (deriveCode_spec pb sb n); constructor;
        [left; reflexivity | assumption].
    + eapply Forall_impl; [|exact A].
      intros c Hc. apply is_code_char_not_space. exact Hc.
Qed.

Lemma generated_code_is_normal_witness :
  encode_utf8 (lit "asterisk_secure_deterministic_v1")
  = Ok (lit "asterisk_secure_deterministic_v1")
  /\ encode_utf8 (lit "12-2024") = Ok (lit "12-2024")
  /\ exists code,
       Serziam.generate_deterministic_code
         (Serziam.DeterministicCodeGenerator_init
            (lit "asterisk_secure_deterministic_v1"))
         (Some (lit "12-2024")) 8 (still_world june_2025 [] true)
       = (Ok code, still_world june_2025 [] true)
       /\ Forall is_code_char code.
Proof.
  split; [reflexivity|]. split; [reflexivity|].
  destruct (generated_code_is_normal plain_upper
              (lit "asterisk_secure_deterministic_v1") (lit "12-2024") 8
              (still_world june_2025 [] true)
              (lit "asterisk_secure_deterministic_v1") (lit "12-2024")
              eq_refl eq_refl) as [code [H1 [H2 _]]].
  exists code. split; [exact H1 | exact H2].
Defined.

Lemma alphabet_nth (k : Z) :
  0 <= k < 36 ->
  nth (Z.to_nat k) alphabet 0 = if k <? 26 then 65 + k else 22 + k.
Proof.
  intros H.
  assert (k = 0 \/ k = 1 \/ k = 2 \/ k = 3 \/ k = 4 \/ k = 5 \/ k = 6
          \/ k = 7 \/ k = 8 \/ k = 9 \/ k = 10 \/ k = 11 \/ k = 12
          \/ k = 13 \/ k = 14 \/ k = 15 \/ k = 16 \/ k = 17 \/ k = 18
          \/ k = 19 \/ k = 20 \/ k = 21 \/ k = 22 \/ k = 23 \/ k = 24
          \/ k = 25 \/ k = 26 \/ k = 27 \/ k = 28 \/ k = 29 \/ k = 30
          \/ k = 31 \/ k = 32 \/ k = 33 \/ k = 34 \/ k = 35) as C by lia.
  repeat (destruct C as [-> | C]; [reflexivity|]). subst k. reflexivity.
Qed.

Lemma alphabet_nth_inj (j k : Z) :
  0 <= j < 36 -> 0 <= k < 36 ->
  nth (Z.to_nat j) alphabet 0 = nth (Z.to_nat k) alphabet 0 -> j = k.
Proof.
  intros Hj Hk. rewrite (alphabet_nth j Hj), (alphabet_nth k Hk).
  destruct (j <? 26) eqn:Ej; destruct (k <? 26) eqn:Ek;
    rewrite ?Z.ltb_lt, ?Z.ltb_ge in *; lia.
Qed.

Lemma nth_map_range (f : Z -> Z) (n i : Z) :
  0 <= i < n -> nth (Z.to_nat i) (map f (range n)) 0 = f i.
Proof.
  intros H. unfold range. rewrite map_map.
  set (g := fun x : nat => f (Z.of_nat x)).
  rewrite (nth_indep _ 0 (g 0%nat))
    by (rewrite length_map, length_seq; lia).
  rewrite (map_nth g), seq_nth by lia. unfold g. f_equal. lia.
Qed.

(** X9. A length beyond the 32 bytes of the digest adds nothing that
    the first 32 characters do not already fix: the character at
    position [i + 32] stands 32 places after the character at position
    [i] in the alphabet, counted cyclically. *)
Theorem code_repeats_after_32 :
  forall (s p : pystr) (n : Z) (w : world) (sb pb : pybytes),
    encode_utf8 s = Ok sb ->
    encode_utf8 p = Ok pb ->
    exists code,
      Serziam.generate_deterministic_code
        (Serziam.DeterministicCodeGenerator_init s) (Some p) n w
      = (Ok code, w)
      /\ forall i k,
           0 <= i -> i + 32 < n -> 0 <= k < 36 ->
           nth (Z.to_nat i) code 0 = nth (Z.to_nat k) alphabet 0 ->
           nth (Z.to_nat (i + 32)) code 0
           = nth (Z.to_nat ((k + 32) mod 36)) alphabet 0.
Proof.
  intros s p n w sb pb Hs Hp.
  exists (deriveCode_spec pb sb n). split.
  - rewrite serziam_generate_pure. cbn [Serziam.secret_seed
      Serziam.DeterministicCodeGenerator_init].
    rewrite (derive_result_ok s p n sb pb Hp Hs). reflexivity.
  - intros i k Hi Hn Hk E. unfold deriveCode_spec in *.
    rewrite nth_map_range in E by lia. rewrite nth_map_range by lia.
    unfold code_char in *.
    set (digest := HMAC.hmac_sha256 sb pb) in *.
    replace ((i + 32) mod 32) with (i mod 32)
      by (replace (i + 32) with (i + 1 * 32) by lia;
          symmetry; apply Z_mod_plus_full).
    set (b := nth (Z.to_nat (i mod 32)) digest 0) in *.
    apply alphabet_nth_inj in E;
      [|apply Z.mod_pos_bound; lia | exact Hk].
    rewrite <- E. f_equal. f_equal.
    replace (b + (i + 32)) with (b + i + 32) by lia.
    rewrite Z.add_mod_idemp_l by lia. reflexivity.
Qed.

Lemma code_repeats_after_32_witness :
  encode_utf8 (lit "asterisk_secure_deterministic_v1")
  = Ok (lit "asterisk_secure_deterministic_v1")
  /\ encode_utf8 (lit "06-2025") = Ok (lit "06-2025")
  /\ exists code,
       Serziam.generate_deterministic_code
         (Serziam.DeterministicCodeGenerator_init
            (lit "asterisk_secure_deterministic_v1"))
         (Some (lit "06-2025")) 40 (still_world june_2025 [] true)
       = (Ok code, still_world june_2025 [] true)
       /\ (nth 0 code 0 = nth 19 alphabet 0 ->
           nth 32 code 0 = nth 15 alphabet 0).
Proof.
  split; [reflexivity|]. split; [reflexivity|].
  destruct (code_repeats_after_32
              (lit "asterisk_secure_deterministic_v1") (lit "06-2025") 40
              (still_world june_2025 [] true)
              (lit "asterisk_secure_deterministic_v1") (lit "06-2025")
              eq_refl eq_refl) as [code [H1 H2]].
  exists code. split; [exact H1|].
  exact (H2 0 19 ltac:(lia) ltac:(lia) ltac:(lia)).
Defined.

(** ** The secret *)

Lemma encode_utf8_app (a b : pystr) (ab bb : pybytes) :
  encode_utf8 a = Ok ab -> encode_utf8 b = Ok bb ->
  encode_utf8 (a ++ b) = Ok (ab ++ bb).
Proof.
  revert ab. induction a as [|c a IH]; intros ab Ha Hb.
  - inversion Ha. exact Hb.
  - cbn [app encode_utf8] in *. unfold rbind in *.
    destruct (utf8_char c) as [cb|]; [|discriminate].
    destruct (encode_utf8 a) as [rb|]; [|discriminate].
    inversion Ha. rewrite (IH rb eq_refl Hb), app_assoc. reflexivity.
Qed.

Lemma encode_utf8_nuls (k : nat) : encode_utf8 (repeat 0 k) = Ok (repeat 0 k).
Proof.
  apply encode_utf8_ascii. apply Forall_forall. intros c H.
  apply repeat_spec in H. subst c. unfold is_ascii. lia.
Qed.

Lemma block_key_nuls (key : pybytes) (k : nat) :
  len key + Z.of_nat k <= 64 ->
  HMAC.block_key (key ++ repeat 0 k) = HMAC.block_key key.
Proof.
  intros H. unfold HMAC.block_key, HMAC.block_size, len in *.
  rewrite length_app, repeat_length in *.
  replace (64 <? Z.of_nat (length key + k)) with false
    by (symmetry; apply Z.ltb_ge; lia).
  replace (64 <? Z.of_nat (length key)) with false
    by (symmetry; apply Z.ltb_ge; lia).
  rewrite length_app, repeat_length, <- app_assoc, <- repeat_app.
  f_equal. f_equal. lia.
Qed.

(** X10. The secret is padded with zero bytes to the block of the hash:
    a secret of fewer than 64 bytes and the same secret followed by
    NUL characters, up to 64 bytes in all, give the same code for every
    period and every length. *)
Theorem trailing_nuls_of_secret_are_ignored :
  forall (s p : pystr) (n : Z) (w : world) (sb : pybytes) (k : nat),
    encode_utf8 s = Ok sb ->
    len sb + Z.of_nat k <= 64 ->
    Serziam.generate_deterministic_code
      (Serziam.DeterministicCodeGenerator_init (s ++ repeat 0 k))
      (Some p) n w
    = Serziam.generate_deterministic_code
        (Serziam.DeterministicCodeGenerator_init s) (Some p) n w.
Proof.
  intros s p n w sb k Hs Hk.
  rewrite !serziam_generate_pure.
  cbn [Serziam.secret_seed Serziam.DeterministicCodeGenerator_init].
  unfold derive_result.
  rewrite (encode_utf8_app s (repeat 0 k) sb (repeat 0 k) Hs
             (encode_utf8_nuls k)), Hs.
  cbn [rbind]. destruct (encode_utf8 p) as [pb|]; [|reflexivity].
  cbn [rbind]. unfold deriveCode_spec, HMAC.hmac_sha256.
  rewrite (block_key_nuls sb k Hk). reflexivity.
Qed.

Lemma trailing_nuls_of_secret_are_ignored_witness :
  encode_utf8 (lit "abc") = Ok (lit "abc")
  /\ len (lit "abc") + Z.of_nat 2 <= 64
  /\ Serziam.generate_deterministic_code
       (Serziam.DeterministicCodeGenerator_init (lit "abc" ++ repeat 0 2%nat))
       (Some (lit "06-2025")) 8 (still_world june_2025 [] true)
     = Serziam.generate_deterministic_code
         (Serziam.DeterministicCodeGenerator_init (lit "abc"))
         (Some (lit "06-2025")) 8 (still_world june_2025 [] true).
Proof.
  split; [reflexivity|]. split; [simpl; lia|].
  apply (trailing_nuls_of_secret_are_ignored (lit "abc") (lit "06-2025") 8
           (still_world june_2025 [] true) (lit "abc") 2 eq_refl).
  simpl. lia.
Defined.

(** ** The days that remain *)

Lemma diff_days_end_of_month (t : datetime) :
  PyDatetime.valid t = true ->
  PyDatetime.diff_days (end_of_month (year t) (month t)) t
  = last_day_of_month (year t) (month t) - day t
    - (if (hour t =? 23) && (minute t =? 59) && (second t =? 59)
          && (1 <=? microsecond t)
       then 1 else 0).
Proof.
  intros V. apply valid_inv in V.
  destruct V as [[Hy [Hm Hd]] [Hh [Hmi [Hs Hu]]]].
  rewrite (days_in_month_last_day _ _ Hm) in Hd.
  unfold PyDatetime.diff_days, PyDatetime.microseconds_of,
    PyDatetime.toordinal, PyDatetime.ymd2ord, end_of_month.
  cbn [year month day hour minute second microsecond].
  set (base := PyDatetime.days_before_year (year t)
               + PyDatetime.days_before_month (year t) (month t)).
  set (last := last_day_of_month (year t) (month t)) in *.
  destruct ((hour t =? 23) && (minute t =? 59) && (second t =? 59)
            && (1 <=? microsecond t)) eqn:E.
  - rewrite !andb_true_iff, !Z.eqb_eq, Z.leb_le in E.
    destruct E as [[[Eh Em] Es] Eu].
    symmetry. apply (Z.div_unique _ _ _ (86400000000 - microsecond t)); lia.
  - symmetry.
    apply (Z.div_unique _ _ _
             (86399000000
              - (((hour t * 60 + minute t) * 60 + second t) * 1000000
                 + microsecond t))).
    + left. split; [|lia].
      rewrite !andb_false_iff, !Z.eqb_neq, Z.leb_gt in E. lia.
    + lia.
Qed.

(** X11. The panel of serziamvalidator.py prints, as days that remain,
    the last day of the month minus the day of the current date, or one
    less in the last second of a day after 23:59:59.000000: between 0
    and 30, and -1 only in the last second of the month. *)
Theorem display_code_status_days_remaining :
  forall (w : world),
    let current_date := clock w (ticks w) in
    let y := year current_date in
    let m := month current_date in
    let last := last_day_of_month y m in
    PyDatetime.valid current_date = true ->
    ~ (y = 9999 /\ m = 12) ->
    let days :=
      last - day current_date
      - (if (hour current_date =? 23) && (minute current_date =? 59)
            && (second current_date =? 59)
            && (1 <=? microsecond current_date)
         then 1 else 0) in
    exists code name,
      Validator.display_code_status Validator.VisibleAccessCodeManager w
      = (Ok (code, end_of_month y m),
         emit (Printed (MsgDaysRemaining days))
           (emit (Printed (MsgExpiresOn (end_of_month y m)))
              (emit (Printed (MsgCodeVisible name y code)) (advance 3 w))))
      /\ -1 <= days <= 30
      /\ (days = -1 ->
          day current_date = last /\ hour current_date = 23
          /\ minute current_date = 59 /\ second current_date = 59).
Proof.
  intros w current_date y m last V Hd days.
  pose proof (valid_inv _ V) as [[Hy [Hm Hday]] _].
  fold current_date y m in Hy, Hm, Hday.
  rewrite (days_in_month_last_day _ _ Hm) in Hday. fold last in Hday.
  pose proof (expires_at_of_end_of_month current_date Hy Hm Hd) as E.
  destruct (month_name_found m Hm) as [name Hn].
  exists (code_of_month Serziam.Config.SECRET_SEED
                        (clock w (2 + ticks w)%nat)), name.
  split; [|split].
  - rewrite (validator_display_code_status
               Validator.VisibleAccessCodeManager w _ _ name
               secret_seed_bytes E Hn).
    unfold days, last, y, m, current_date in *.
    rewrite (diff_days_end_of_month _ V). reflexivity.
  - pose proof (last_day_bounds y m). fold last in H. unfold days.
    destruct (_ && _); lia.
  - unfold days.
    destruct ((hour current_date =? 23) && (minute current_date =? 59)
              && (second current_date =? 59)
              && (1 <=? microsecond current_date)) eqn:B; [|lia].
    rewrite !andb_true_iff, !Z.eqb_eq in B. intros D.
    repeat split; try apply B. lia.
Qed.

Lemma display_code_status_days_remaining_witness :
  PyDatetime.valid mid_december_2024 = true
  /\ ~ (2024 = 9999 /\ 12 = 12)
  /\ exists code name,
       Validator.display_code_status Validator.VisibleAccessCodeManager
         (still_world mid_december_2024 [] true)
       = (Ok (code, end_of_month 2024 12),
          emit (Printed (MsgDaysRemaining 16))
            (emit (Printed (MsgExpiresOn (end_of_month 2024 12)))
               (emit (Printed (MsgCodeVisible name 2024 code))
                  (advance 3 (still_world mid_december_2024 [] true))))).
Proof.
  split; [reflexivity|]. split; [lia|].
  destruct (display_code_status_days_remaining
              (still_world mid_december_2024 [] true)
              eq_refl ltac:(simpl; lia)) as [code [name [H _]]].
  exists code, name. exact H.
Defined.

(* ================================================================== *)
(** * The rest of the program: the machine *)

Lemma commands_app (j1 j2 : list action) :
  commands (j1 ++ j2) = commands j2 ++ commands j1.
Proof.
  unfold commands. rewrite flat_map_app, rev_app_distr. reflexivity.
Qed.

(** ** Running a program step by step *)

Lemma pbind_pbind {A B C} (m : P A) (k : A -> P B) (k' : B -> P C) s :
  pbind (pbind m k) k' s = pbind m (fun x => pbind (k x) k') s.
Proof.
  unfold pbind. destruct (m s) as [[a|f] s1]; reflexivity.
Qed.

Lemma pbind_pret {A B} (a : A) (k : A -> P B) s : pbind (pret a) k s = k a s.
Proof. reflexivity. Qed.

Lemma pbind_raise {A B} f (k : A -> P B) s :
  pbind (raise f) k s = (Fault f, s).
Proof. reflexivity. Qed.

Lemma pbind_say {B} line (k : unit -> P B) s :
  pbind (say line) k s = k tt (note (Said line) s).
Proof. reflexivity. Qed.

Lemma pbind_sleep {B} n (k : unit -> P B) s :
  pbind (sleep n) k s = k tt (note (Slept n) s).
Proof. reflexivity. Qed.

Lemma pbind_fault {A B} (m : P A) (k : A -> P B) s f s1 :
  m s = (Fault f, s1) -> pbind m k s = (Fault f, s1).
Proof. unfold pbind. intros ->. reflexivity. Qed.

Lemma pbind_fine {A B} (m : P A) (k : A -> P B) s a s1 :
  m s = (Fine a, s1) -> pbind m k s = k a s1.
Proof. unfold pbind. intros ->. reflexivity. Qed.

Lemma try_catch_fine {A} (body : P A) h s a s1 :
  body s = (Fine a, s1) -> try_catch body h s = (Fine a, s1).
Proof. unfold try_catch. intros ->. reflexivity. Qed.

Lemma try_catch_exception {A} (body : P A) (h : fault -> P A) s f s1 :
  body s = (Fault f, s1) -> is_exception f = true ->
  try_catch body (on_exception h) s = h f s1.
Proof.
  unfold try_catch, on_exception. intros -> ->. reflexivity.
Qed.

Lemma try_catch_anything {A} (body : P A) (h : P A) s f s1 :
  body s = (Fault f, s1) -> try_catch body (on_anything h) s = h s1.
Proof. unfold try_catch, on_anything. intros ->. reflexivity. Qed.

(** An operation goes on, or breaks with its exception. *)
Lemma operate_cases {B} a broken (k : Z -> P B) s :
  let s1 := next_operation (note a s) in
  (exists status, answers s (operations s) = Exits status
                  /\ pbind (operate a broken) k s = k status s1)
  \/ (answers s (operations s) = Breaks
      /\ pbind (operate a broken) k s = (Fault broken, s1)).
Proof.
  unfold pbind, operate. cbn.
  destruct (answers s (operations s)) as [status|].
  - left. exists status. split; reflexivity.
  - right. split; reflexivity.
Qed.

(** A checked command goes on when it succeeds, and raises an exception
    when it does not. *)
Lemma run_checked_cases {B} argv (k : unit -> P B) s :
  let s1 := next_operation (note (Ran argv) s) in
  (succeeded (answers s (operations s)) = true
   /\ pbind (run_checked argv) k s = k tt s1)
  \/ (exists f, succeeded (answers s (operations s)) = false
                /\ is_exception f = true
                /\ (f = CalledProcessError \/ f = OSError)
                /\ pbind (run_checked argv) k s = (Fault f, s1)).
Proof.
  unfold run_checked, run. cbn zeta. rewrite pbind_pbind.
  destruct (operate_cases (Ran argv) OSError
              (fun x => pbind (if x =? 0 then pret tt
                               else raise CalledProcessError) k) s)
    as [[status [Ha ->]] | [Ha ->]]; rewrite Ha; unfold succeeded.
  - destruct (status =? 0).
    + left. split; reflexivity.
    + right. exists CalledProcessError. repeat split; auto.
  - right. exists OSError. repeat split; auto.
Qed.

Lemma commands_ran argv j : commands (Ran argv :: j) = commands j ++ [argv].
Proof. reflexivity. Qed.

Lemma commands_said line j : commands (Said line :: j) = commands j.
Proof. reflexivity. Qed.

Ltac machine_state :=
  cbn [operations answers next_operation note journal disk table term
       set_disk set_table set_term euid os_release stamps dice draws next_draw].

Ltac machine_state_in H :=
  cbn [operations answers next_operation note journal disk table term
       set_disk set_table set_term euid os_release stamps dice draws
       next_draw] in H.

(** The next checked command: it succeeds, or the handler runs. *)
Ltac checked_step :=
  rewrite ?pbind_pbind;
  match goal with
  | |- context [pbind (run_checked ?argv) ?k ?s] =>
      let H := fresh "H" in
      let Hf := fresh "Hf" in
      destruct (run_checked_cases argv k s)
        as [[H ->] | [?f [H [Hf [_ ->]]]]];
      cbn [operations answers next_operation note] in H;
      rewrite H;
      [ | unfold on_exception; rewrite Hf ]
  end.

Ltac journal_commands :=
  machine_state;
  repeat first [rewrite commands_said | rewrite commands_ran];
  rewrite <- ?app_assoc; reflexivity.

(** X14 (serziamupdate.py, configure_firewall): the thirteen commands of
    the firewall are run in their order up to the first that does not
    succeed; the function raises nothing and returns True exactly when
    all thirteen succeeded.  So ufw is enabled only after the reset,
    the two default policies and the eight port rules were accepted. *)
Theorem configure_firewall_stops_at_first_failure s :
  exists s',
    SystemInstaller.configure_firewall s
    = (Fine (Some (forallb succeeded (fates s 13))), s')
    /\ commands (journal s')
       = commands (journal s)
         ++ firstn (attempted (fates s 13)) firewall_commands.
Proof.
  unfold SystemInstaller.configure_firewall.
  rewrite pbind_say.
  unfold fates, firewall_commands.
  cbn [seq map forallb attempted Nat.add SystemInstaller.asterisk_ports for_all app].
  unfold try_catch.
  do 13 (checked_step;
         [ rewrite ?pbind_pbind, ?pbind_say, ?pbind_pret
         | rewrite !pbind_say; cbn [pret andb firstn];
           eexists; split; [reflexivity | journal_commands] ]).
  rewrite ?pbind_pbind, ?pbind_pret, ?pbind_say. cbn [pret andb firstn].
  eexists; split; [reflexivity | journal_commands].
Qed.

Lemma performed_cons a j :
  performed (a :: j) = performed j ++ (if is_operation a then [a] else []).
Proof.
  unfold performed. cbn [filter].
  destruct (is_operation a); cbn [rev]; [reflexivity|].
  rewrite app_nil_r. reflexivity.
Qed.

Lemma did_nothing s : did 0 [] s s.
Proof.
  unfold did. rewrite app_nil_r. repeat split; reflexivity.
Qed.

Lemma did_trans n1 n2 a1 a2 s1 s2 s3 :
  did n1 a1 s1 s2 -> did n2 a2 s2 s3 -> did (n2 + n1) (a1 ++ a2) s1 s3.
Proof.
  unfold did.
  intros (A1 & O1 & J1 & D1 & T1 & W1 & U1) (A2 & O2 & J2 & D2 & T2 & W2 & U2).
  repeat split; try congruence.
  - rewrite O2, O1. lia.
  - rewrite J2, J1, app_assoc. reflexivity.
Qed.

Lemma did_say line s : did 0 [] s (note (Said line) s).
Proof.
  unfold did. machine_state. rewrite performed_cons.
  repeat split; reflexivity.
Qed.

Lemma did_operation a s :
  is_operation a = true -> did 1 [a] s (next_operation (note a s)).
Proof.
  intros Ha. unfold did. machine_state. rewrite performed_cons, Ha.
  repeat split; reflexivity.
Qed.

(** One query: the package joins the missing ones when dpkg says so. *)
Lemma check_package_run missing item s :
  exists s',
    SystemInstaller.check_package missing item s
    = (Fine (missing ++ if is_missing (answers s (operations s))
                        then [item] else []), s')
    /\ did 1 [Ran (query item)] s s'.
Proof.
  destruct item as [package description].
  unfold SystemInstaller.check_package, run, try_catch.
  destruct (operate_cases (Ran ["dpkg"; "-l"; package]%string) OSError
              (fun status =>
                 if negb (status =? 0)
                 then pret (missing ++ [(package, description)])
                 else pbind (say [T "✅ "; T package; T " ("; T description;
                                  T ") - Installé"])
                            (fun _ => pret missing)) s)
    as [[status [Ha ->]] | [Ha ->]]; rewrite Ha; cbn [is_missing].
  - destruct (negb (status =? 0)).
    + eexists. split; [reflexivity|].
      apply did_operation. reflexivity.
    + rewrite pbind_say, app_nil_r. eexists. split; [reflexivity|].
      eapply (did_trans 1 0 [_] []);
        [apply did_operation; reflexivity | apply did_say].
  - cbn [on_exception is_exception]. rewrite pbind_say, app_nil_r.
    eexists. split; [reflexivity|].
    eapply (did_trans 1 0 [_] []);
      [apply did_operation; reflexivity | apply did_say].
Qed.

Lemma check_packages_run l : forall missing s,
  exists s',
    for_fold l missing SystemInstaller.check_package s
    = (Fine (missing ++ missing_among (answers s) (operations s) l), s')
    /\ did (List.length l) (map (fun p => Ran (query p)) l) s s'.
Proof.
  induction l as [|item r IH]; intros missing s.
  - exists s. cbn. rewrite app_nil_r. split; [reflexivity | apply did_nothing].
  - cbn [for_fold missing_among map List.length].
    destruct (check_package_run missing item s) as (s1 & E1 & D1).
    rewrite (pbind_fine _ _ _ _ _ E1).
    destruct (IH (missing ++ if is_missing (answers s (operations s))
                             then [item] else []) s1) as (s2 & E2 & D2).
    exists s2. split.
    + rewrite E2. destruct D1 as (A1 & O1 & _). rewrite A1, O1.
      rewrite <- app_assoc. reflexivity.
    + replace (S (List.length r)) with (List.length r + 1)%nat by lia.
      apply (did_trans _ _ [_] _ _ _ _ D1 D2).
Qed.

(** The installation: [apt update], then [apt install] if that
    succeeded; nothing is raised. *)
Lemma install_packages_run missing s :
  exists s',
    SystemInstaller.install_packages missing s
    = (Fine (succeeded (answers s (operations s))
             && succeeded (answers s (S (operations s)))), s')
    /\ did (if succeeded (answers s (operations s)) then 2 else 1)
           (Ran ["apt"; "update"]%string
            :: if succeeded (answers s (operations s))
               then [Ran (["apt"; "install"; "-y"]%string ++ map fst missing)]
               else [])
           s s'.
Proof.
  unfold SystemInstaller.install_packages, try_catch.
  rewrite pbind_say.
  match goal with
  | |- context [pbind (run_checked ?argv) ?k ?s0] =>
      destruct (run_checked_cases argv k s0)
        as [[H ->] | [f [H [Hf [Hc ->]]]]]
  end; cbn [operations answers next_operation note] in H; rewrite H.
  - rewrite pbind_say.
    match goal with
    | |- context [pbind (run_checked ?argv) ?k ?s0] =>
        destruct (run_checked_cases argv k s0)
          as [[H' ->] | [f [H' [Hf [Hc ->]]]]]
    end; cbn [operations answers next_operation note] in H'; rewrite H'.
    + rewrite pbind_say. eexists. split; [reflexivity|].
      unfold did. machine_state. rewrite !performed_cons.
      cbn [is_operation]. rewrite !app_nil_r, <- !app_assoc.
      repeat split; reflexivity.
    + assert (E : forall (h1 h2 : P bool),
                match f with
                | CalledProcessError => Some h1
                | _ => on_exception (fun _ => h2) f
                end = Some (match f with CalledProcessError => h1 | _ => h2 end)).
      { intros h1 h2. destruct Hc as [-> | ->]; reflexivity. }
      destruct Hc as [-> | ->]; cbn [on_exception is_exception];
        rewrite !pbind_say; eexists; (split; [reflexivity|]);
        unfold did; machine_state; rewrite !performed_cons;
        cbn [is_operation]; rewrite !app_nil_r, <- !app_assoc;
        repeat split; reflexivity.
  - destruct Hc as [-> | ->]; cbn [on_exception is_exception];
      rewrite !pbind_say; eexists; (split; [reflexivity|]);
      unfold did; machine_state; rewrite !performed_cons;
      cbn [is_operation]; rewrite !app_nil_r;
      repeat split; reflexivity.
Qed.

Lemma check_and_install_packages_run s :
  exists s',
    SystemInstaller.check_and_install_packages s = (Fine None, s')
    /\ did (List.length (installer_commands s))
           (map Ran (installer_commands s)) s s'.
Proof.
  unfold SystemInstaller.check_and_install_packages.
  rewrite pbind_say.
  destruct (check_packages_run SystemInstaller.required_packages []
              (note (Said [T "🔍 Vérification des paquets système..."]) s))
    as (s1 & E1 & D1).
  rewrite (pbind_fine _ _ _ _ _ E1).
  machine_state. cbn [app].
  assert (D0 : did 5 (map Ran (map query SystemInstaller.required_packages))
                 s s1).
  { rewrite map_map.
    apply (did_trans 0 5 [] _ _ _ _ (did_say _ s) D1). }
  unfold installer_commands.
  destruct (missing_among (answers s) (operations s)
              SystemInstaller.required_packages) as [|p r] eqn:Em.
  - rewrite pbind_say. eexists. split; [reflexivity|].
    rewrite app_nil_r.
    replace (List.length (map query SystemInstaller.required_packages))
      with (0 + 5)%nat by reflexivity.
    rewrite <- (app_nil_r (map Ran _)).
    apply (did_trans _ _ _ _ _ _ _ D0 (did_say _ s1)).
  - rewrite pbind_say.
    destruct (install_packages_run (p :: r)
                (note (Said [T nl; T "📦 Installation de ";
                             N (Z.of_nat (List.length (p :: r)));
                             T " paquet(s) manquant(s)..."]) s1))
      as (s2 & E2 & D2).
    rewrite (pbind_fine _ _ _ _ _ E2). cbn [pret].
    eexists. split; [reflexivity|].
    cbn [operations answers note] in D2, E2.
    destruct D0 as (A0 & O0 & _). 
    assert (D3 := did_trans _ _ _ _ _ _ _ (did_say _ s1) D2).
    assert (D4 := did_trans _ _ _ _ _ _ _ D1 D3).
    assert (D5 := did_trans _ _ _ _ _ _ _ (did_say _ s) D4).
    rewrite A0, O0 in D5.
    rewrite map_app, length_app.
    cbn [app] in D5. rewrite map_map in *.
    destruct (succeeded (answers s (5 + operations s)%nat));
      cbn [map List.length]; cbn [map List.length Nat.add] in D5;
      exact D5.
Qed.

(** X13 (serziamupdate.py, check_and_install_packages): the function
    asks dpkg about the five packages in their order and, when some are
    missing, runs [apt update] and then one [apt install -y] with
    exactly the missing ones, unless [apt update] failed.  A package
    whose query could not be run is not installed.  Nothing is raised,
    and the function returns None whatever happened. *)
Theorem check_and_install_packages_installs_missing s :
  exists s',
    SystemInstaller.check_and_install_packages s = (Fine None, s')
    /\ performed (journal s')
       = performed (journal s) ++ map Ran (installer_commands s).
Proof.
  destruct (check_and_install_packages_run s) as (s' & E & D).
  exists s'. split; [exact E|]. apply D.
Qed.

Lemma full_system_install_run s :
  exists s',
    SystemInstaller.full_system_install s = (Fine false, s')
    /\ performed (journal s')
       = performed (journal s) ++ map Ran (installer_commands s)
    /\ hd_error (journal s')
       = Some (Said [T "❌ "; T "Vérification des paquets"; T " - ÉCHEC"])
    /\ disk s' = disk s
    /\ table s' = table s.
Proof.
  unfold SystemInstaller.full_system_install, SystemInstaller.steps.
  rewrite !pbind_say. cbn [SystemInstaller.run_steps]. rewrite pbind_say.
  match goal with
  | |- context [pbind _ _ ?s0] =>
      destruct (check_and_install_packages_run s0) as (s1 & E & D);
      set (s2 := s0) in *
  end.
  rewrite (pbind_fine _ _ _ _ _ E). cbn [truthy]. rewrite pbind_say.
  eexists. split; [reflexivity|].
  destruct D as (_ & _ & J & Dk & Tb & _).
  machine_state. repeat split.
  - rewrite performed_cons. cbn [is_operation]. rewrite app_nil_r, J.
    unfold s2. machine_state. rewrite !performed_cons.
    cbn [is_operation]. rewrite !app_nil_r. reflexivity.
  - rewrite Dk. reflexivity.
  - rewrite Tb. reflexivity.
Qed.

(** X12 (serziamupdate.py, full_system_install): the installation never
    gets past its first step.  [check_and_install_packages] returns
    None, which counts as a failure: the function reports the failure
    of the step and returns False, without touching the firewall, the
    configuration of Asterisk or the database, whether the packages
    were installed or not. *)
Theorem full_system_install_stops_after_packages s :
  exists s',
    SystemInstaller.full_system_install s = (Fine false, s')
    /\ performed (journal s')
       = performed (journal s) ++ map Ran (installer_commands s)
    /\ hd_error (journal s')
       = Some (Said [T "❌ "; T "Vérification des paquets"; T " - ÉCHEC"])
    /\ disk s' = disk s
    /\ table s' = table s.
Proof. apply full_system_install_run. Qed.

(** ** The checks of the system *)

Section SystemChecks.

Variable unicode_lower : Z -> pystr.

Lemma check_ubuntu_run s :
  SystemChecker._check_ubuntu unicode_lower s
  = (Fine (nth 0 (requirements unicode_lower s) false),
     next_operation (note (ReadFile "/etc/os-release") s)).
Proof.
  unfold SystemChecker._check_ubuntu, try_catch, read_os_release.
  rewrite pbind_pbind.
  match goal with
  | |- context [pbind (operate ?a ?b) ?k ?s0] =>
      destruct (operate_cases a b k s0) as [[st [Ha ->]] | [Ha ->]]
  end; cbn [nth requirements]; rewrite Ha; reflexivity.
Qed.

Lemma check_internet_run s :
  SystemChecker._check_internet s
  = (Fine (answered (answers s (operations s))),
     next_operation (note (Ran ["ping"; "-c"; "1"; "8.8.8.8"]%string) s)).
Proof.
  unfold SystemChecker._check_internet, try_catch, run.
  match goal with
  | |- context [pbind (operate ?a ?b) ?k ?s0] =>
      destruct (operate_cases a b k s0) as [[st [Ha ->]] | [Ha ->]]
  end; rewrite Ha; reflexivity.
Qed.

Lemma check_database_run s :
  SystemChecker._check_database s
  = (Fine (answered (answers s (operations s))),
     next_operation (note Connected s)).
Proof.
  unfold SystemChecker._check_database, try_catch, connect.
  rewrite pbind_pbind.
  match goal with
  | |- context [pbind (operate ?a ?b) ?k ?s0] =>
      destruct (operate_cases a b k s0) as [[st [Ha ->]] | [Ha ->]]
  end; rewrite Ha; reflexivity.
Qed.

Lemma check_asterisk_service_run s :
  SystemChecker._check_asterisk_service s
  = (Fine (succeeded (answers s (operations s))),
     next_operation
       (note (Ran ["systemctl"; "is-active"; "asterisk"]%string) s)).
Proof.
  unfold SystemChecker._check_asterisk_service, try_catch, run.
  match goal with
  | |- context [pbind (operate ?a ?b) ?k ?s0] =>
      destruct (operate_cases a b k s0) as [[st [Ha ->]] | [Ha ->]]
  end; rewrite Ha; reflexivity.
Qed.

(** The line of a check, and what is left of [all_ok]. *)
Lemma check_line {B} (ok all_ok : bool) name (k : bool -> P B) s :
  pbind (if ok then pbind (say [T "✅ "; T name]) (fun _ => pret all_ok)
         else pbind (say [T "❌ "; T name]) (fun _ => pret false)) k s
  = k (all_ok && ok)
      (note (Said [T (if ok then "✅ " else "❌ ")%string; T name]) s).
Proof.
  destruct ok; rewrite pbind_pbind, pbind_say, pbind_pret;
    [rewrite andb_true_r | rewrite andb_false_r]; reflexivity.
Qed.

Lemma check_system_requirements_run s :
  exists s',
    SystemChecker.check_system_requirements unicode_lower s
    = (Fine (forallb (fun ok => ok) (requirements unicode_lower s)), s')
    /\ performed (journal s')
       = performed (journal s) ++ requirement_operations
    /\ table s' = table s /\ disk s' = disk s.
Proof.
  unfold SystemChecker.check_system_requirements, SystemChecker.checks.
  rewrite pbind_say. cbn [for_fold].
  rewrite pbind_pbind, (pbind_fine _ _ _ _ _ (check_ubuntu_run _)).
  cbv beta. rewrite check_line.
  rewrite pbind_pbind,
    (pbind_fine _ _ _ _ _ (eq_refl : SystemChecker._check_root _ = _)).
  cbv beta. rewrite check_line.
  rewrite pbind_pbind, (pbind_fine _ _ _ _ _ (check_internet_run _)).
  cbv beta. rewrite check_line.
  rewrite pbind_pbind, (pbind_fine _ _ _ _ _ (check_database_run _)).
  cbv beta. rewrite check_line.
  rewrite pbind_pbind, (pbind_fine _ _ _ _ _ (check_asterisk_service_run _)).
  cbv beta. rewrite check_line.
  eexists. split.
  - unfold pret. apply f_equal2; [|reflexivity]. apply f_equal.
    cbn [requirements nth forallb]. machine_state.
    rewrite andb_true_r. cbn [Nat.add]. rewrite <- !andb_assoc. reflexivity.
  - machine_state. rewrite !performed_cons. cbn [is_operation].
    rewrite !app_nil_r, <- !app_assoc. repeat split; reflexivity.
Qed.

(** X15 (serziamupdate.py, check_system_requirements): the five checks
    are all made, in their order, whatever the earlier ones found, and
    nothing is raised; the function returns True exactly when all five
    passed.  The check of the connectivity passes as soon as ping could
    be run: its exit status is not looked at. *)
Theorem check_system_requirements_runs_all_checks s :
  exists s',
    SystemChecker.check_system_requirements unicode_lower s
    = (Fine (forallb (fun ok => ok) (requirements unicode_lower s)), s')
    /\ performed (journal s')
       = performed (journal s) ++ requirement_operations.
Proof.
  destruct (check_system_requirements_run s) as (s' & E & J & _).
  exists s'. split; assumption.
Qed.

(** X25 (serziamupdate.py, main): when one of the five checks fails,
    the program ends with exit status 1 and the menu is not opened,
    whatever the menu is: the installation that is tried first cannot
    succeed.  The table and the files are as they were. *)
Theorem main_exits_when_a_check_fails s :
  forallb (fun ok => ok) (requirements unicode_lower s) = false ->
  exists s',
    (forall main_menu : P unit,
       Update.main unicode_lower main_menu s = (Fault (SystemExit 1), s'))
    /\ table s' = table s
    /\ disk s' = disk s.
Proof.
  intros Hreq.
  set (s0 := note (Said [T "============================================================"])
               (note (Said [T "   Système professionnel de gestion Asterisk"])
                  (note (Said [T "🚀 ASTERISK MANAGER - INSTALLATION AUTOMATIQUE"])
                        s))).
  destruct (check_system_requirements_run s0) as (s1 & E1 & _ & T1 & D1).
  change (requirements unicode_lower s0)
    with (requirements unicode_lower s) in E1.
  rewrite Hreq in E1.
  set (s2 := note (Said [T "🔧 Lancement de l'installation automatique..."])
               (note (Said [T nl; T "❌ Prérequis système non satisfaits."])
                     s1)).
  destruct (full_system_install_run s2) as (s3 & E3 & _ & _ & D3 & T3).
  eexists. split; [|split].
  - intros main_menu. unfold Update.main, try_catch.
    rewrite !pbind_say. fold s0.
    rewrite (pbind_fine _ _ _ _ _ E1). cbn [negb].
    repeat first [rewrite pbind_pbind | rewrite pbind_say].
    fold s2. rewrite (pbind_fine _ _ _ _ _ E3). cbn [negb].
    repeat first [rewrite pbind_pbind | rewrite pbind_say].
    rewrite pbind_raise. cbn [on_exception is_exception]. reflexivity.
  - machine_state. rewrite T3. unfold s2. machine_state. rewrite T1.
    reflexivity.
  - machine_state. rewrite D3. unfold s2. machine_state. rewrite D1.
    reflexivity.
Qed.

End SystemChecks.

(* ================================================================== *)
(** * The users *)

Lemma string_digit (x : nat) :
  is_digit (nth (x mod 10) UserManager.string_digits 48).
Proof.
  assert (H : (x mod 10 < 10)%nat) by (apply Nat.mod_upper_bound; lia).
  unfold is_digit. remember (x mod 10)%nat as d eqn:E. clear E.
  do 10 (destruct d as [|d]; [cbn; lia|]). lia.
Qed.

Lemma did_draw s : did 0 [] s (next_draw s).
Proof.
  unfold did. machine_state. rewrite app_nil_r. repeat split; reflexivity.
Qed.

Lemma random_digits_run n : forall s,
  exists s',
    UserManager.random_digits n s
    = (Fine (map (fun i => nth (dice s (i + draws s) mod 10)
                               UserManager.string_digits 48) (seq 0 n)), s')
    /\ draws s' = (n + draws s)%nat
    /\ dice s' = dice s
    /\ did 0 [] s s'.
Proof.
  induction n as [|n IH]; intros s.
  - exists s. cbn.
    split; [reflexivity|]. split; [reflexivity|]. split; [reflexivity|].
    apply did_nothing.
  - cbn [UserManager.random_digits].
    change (pbind UserManager.choice_digit ?k s)
      with (k (nth (dice s (draws s) mod 10) UserManager.string_digits 48)
              (next_draw s)).
    cbv beta.
    destruct (IH (next_draw s)) as (s' & E & Dr & Di & D).
    rewrite (pbind_fine _ _ _ _ _ E). exists s'. split; [|split; [|split]].
    + unfold pret. apply f_equal2; [|reflexivity]. apply f_equal.
      cbn [seq map]. apply f_equal2; [reflexivity|].
      rewrite <- seq_shift, map_map. apply map_ext. intros i.
      machine_state. rewrite Nat.add_succ_r. reflexivity.
    + rewrite Dr. machine_state. lia.
    + rewrite Di. reflexivity.
    + apply (did_trans 0 0 [] [] _ _ _ (did_draw s) D).
Qed.

Lemma find_taken (t : list user) n :
  match find (fun u => str_eqb (numero u) n) t with
  | None => taken t n = false
  | Some _ => taken t n = true
  end.
Proof.
  unfold taken. induction t as [|u t IH]; cbn; [reflexivity|].
  destruct (str_eqb (numero u) n); [reflexivity | exact IH].
Qed.

(** One query of the loop: it breaks, or it tells whether the number
    is taken. *)
Lemma select_id_cases {B} n (k : option Z -> P B) s :
  let s1 := next_operation
              (note (Executed "SELECT id FROM users WHERE numero = ?") s) in
  (answers s (operations s) = Breaks
   /\ pbind (UserManager.select_id n) k s = (Fault DatabaseError, s1))
  \/ (answered (answers s (operations s)) = true
      /\ taken (table s) n = true
      /\ exists id, pbind (UserManager.select_id n) k s = k (Some id) s1)
  \/ (answered (answers s (operations s)) = true
      /\ taken (table s) n = false
      /\ pbind (UserManager.select_id n) k s = k None s1).
Proof.
  unfold UserManager.select_id. cbn zeta. rewrite pbind_pbind.
  match goal with
  | |- context [pbind (operate ?a ?b) ?k0 ?s0] =>
      destruct (operate_cases a b k0 s0) as [[st [Ha ->]] | [Ha ->]]
  end; rewrite Ha.
  - right. unfold pbind. machine_state.
    pose proof (find_taken (table s) n) as F.
    destruct (find _ (table s)) as [u|]; cbn [option_map].
    + left. repeat split; eauto.
    + right. repeat split; auto.
  - left. split; reflexivity.
Qed.

Lemma candidate_well_formed s k :
  exists ds, candidate s k = lit "601" ++ ds
             /\ List.length ds = 6%nat
             /\ Forall is_digit ds.
Proof.
  unfold candidate. eexists. split; [reflexivity|]. split.
  - rewrite length_map, length_seq. reflexivity.
  - apply Forall_forall. intros c Hc. apply in_map_iff in Hc.
    destruct Hc as (i & <- & _). apply string_digit.
Qed.

Lemma candidate_next s s1 k :
  dice s1 = dice s -> draws s1 = (6 + draws s)%nat ->
  candidate s1 k = candidate s (S k).
Proof.
  intros Hd Hr. unfold candidate. rewrite Hd, Hr. apply f_equal.
  apply map_ext. intros i.
  replace (i + (6 * k + (6 + draws s)))%nat
    with (i + (6 * S k + draws s))%nat by lia.
  reflexivity.
Qed.

(** What the loop leaves as it was, and what it can return. *)
Lemma number_loop_run fuel : forall s,
  exists r s' n acts,
    UserManager.number_loop fuel s = (r, s')
    /\ did n acts s s'
    /\ (forall f, r = Fault f -> f = DatabaseError)
    /\ (forall p, r = Fine (Some (Some p)) ->
          (exists k, p = candidate s k) /\ taken (table s) p = false).
Proof.
  induction fuel as [|fuel IH]; intros s.
  - exists (Fine None), s, 0%nat, []. cbn.
    split; [reflexivity|]. split; [apply did_nothing|].
    split; discriminate.
  - cbn [UserManager.number_loop].
    destruct (random_digits_run 6 s) as (s1 & E1 & Dr & Di & D1).
    rewrite (pbind_fine _ _ _ _ _ E1).
    cbv beta zeta.
    set (p0 := UserManager.EXTENSION_PREFIX ++ _).
    assert (Ep : p0 = candidate s 0) by reflexivity.
    match goal with
    | |- context [pbind (UserManager.select_id p0) ?k ?s0] =>
        destruct (select_id_cases p0 k s0)
          as [[Ha ->] | [(Ha & Ht & id & ->) | (Ha & Ht & ->)]]
    end.
    + do 4 eexists. split; [reflexivity|]. split; [|split].
      * eapply did_trans; [exact D1 | apply did_operation; reflexivity].
      * intros f [= <-]. reflexivity.
      * discriminate.
    + assert (D2 := did_trans _ _ _ _ _ _ _ D1
                      (did_operation
                         (Executed "SELECT id FROM users WHERE numero = ?")
                         s1 eq_refl)).
      destruct (IH (next_operation
                      (note (Executed "SELECT id FROM users WHERE numero = ?")
                            s1)))
        as (r & s' & n & acts & E & D & Hf & Hp).
      exists r, s'. do 2 eexists. split; [exact E|]. split; [|split].
      * eapply did_trans; [exact D2 | exact D].
      * exact Hf.
      * intros p Hr. destruct (Hp p Hr) as [[k Hk] Hfree].
        destruct D2 as (_ & _ & _ & _ & Tb & _). rewrite Tb in Hfree.
        split; [|exact Hfree]. exists (S k). rewrite Hk.
        apply candidate_next; machine_state; assumption.
    + do 4 eexists. split; [reflexivity|]. split; [|split].
      * eapply did_trans; [exact D1 | apply did_operation; reflexivity].
      * discriminate.
      * intros p [= <-]. split; [exists 0%nat; exact Ep|].
        destruct D1 as (_ & _ & _ & _ & Tb & _). rewrite <- Tb. exact Ht.
Qed.

(** An operation that gives nothing back: it goes on or it breaks. *)
Lemma unit_operation_cases {B} a broken (k : unit -> P B) s :
  let s1 := next_operation (note a s) in
  (answered (answers s (operations s)) = true
   /\ pbind (pbind (operate a broken) (fun _ => pret tt)) k s = k tt s1)
  \/ (answered (answers s (operations s)) = false
      /\ pbind (pbind (operate a broken) (fun _ => pret tt)) k s
         = (Fault broken, s1)).
Proof.
  cbn zeta. rewrite pbind_pbind.
  destruct (operate_cases a broken
              (fun x => pbind (pret tt) k) s) as [[st [Ha ->]] | [Ha ->]];
    rewrite Ha; [left | right]; split; reflexivity.
Qed.

Lemma connect_cases {B} (k : unit -> P B) s :
  let s1 := next_operation (note Connected s) in
  (answered (answers s (operations s)) = true
   /\ pbind connect k s = k tt s1)
  \/ (answered (answers s (operations s)) = false
      /\ pbind connect k s = (Fault DatabaseError, s1)).
Proof. apply unit_operation_cases. Qed.

Lemma execute_cases {B} statement (k : unit -> P B) s :
  let s1 := next_operation (note (Executed statement) s) in
  (answered (answers s (operations s)) = true
   /\ pbind (execute statement) k s = k tt s1)
  \/ (answered (answers s (operations s)) = false
      /\ pbind (execute statement) k s = (Fault DatabaseError, s1)).
Proof. apply unit_operation_cases. Qed.

Lemma makedirs_cases {B} path (k : unit -> P B) s :
  let s1 := next_operation (note (MadeDir path) s) in
  (answered (answers s (operations s)) = true
   /\ pbind (makedirs path) k s = k tt s1)
  \/ (answered (answers s (operations s)) = false
      /\ pbind (makedirs path) k s = (Fault OSError, s1)).
Proof. apply unit_operation_cases. Qed.

(** A commit keeps the change, or breaks and keeps nothing. *)
Lemma commit_with_cases {B} change (k : unit -> P B) s :
  let s1 := next_operation (note Committed s) in
  (answered (answers s (operations s)) = true
   /\ pbind (commit_with change) k s
      = k tt (set_table (change (table s)) s1))
  \/ (answered (answers s (operations s)) = false
      /\ pbind (commit_with change) k s = (Fault DatabaseError, s1)).
Proof.
  cbn zeta. unfold commit_with. rewrite pbind_pbind.
  match goal with
  | |- context [pbind (operate ?a ?b) ?k0 ?s0] =>
      destruct (operate_cases a b k0 s0) as [[st [Ha ->]] | [Ha ->]]
  end; rewrite Ha; [left | right]; split; reflexivity.
Qed.

(** A file is written, or the write breaks and the disk is as before. *)
Lemma write_file_cases {B} path content (k : unit -> P B) s :
  let s1 := next_operation (note (Wrote path content) s) in
  (answered (answers s (operations s)) = true
   /\ pbind (write_file path content) k s
      = k tt (set_disk ((path, content) :: disk s) s1))
  \/ (answered (answers s (operations s)) = false
      /\ pbind (write_file path content) k s = (Fault OSError, s1)).
Proof.
  cbn zeta. unfold write_file. rewrite pbind_pbind.
  match goal with
  | |- context [pbind (operate ?a ?b) ?k0 ?s0] =>
      destruct (operate_cases a b k0 s0) as [[st [Ha ->]] | [Ha ->]]
  end; rewrite Ha; [left | right]; split; reflexivity.
Qed.

Lemma generate_phone_number_run fuel s :
  exists r s' n acts,
    UserManager.generate_phone_number fuel s = (Fine r, s')
    /\ did n acts s s'
    /\ (forall p, r = Some (Some p) ->
          (exists k, p = candidate s k) /\ taken (table s) p = false).
Proof.
  unfold UserManager.generate_phone_number, try_catch.
  destruct (connect_cases (fun _ => UserManager.number_loop fuel) s)
    as [[Ha ->] | [Ha ->]].
  - set (s1 := next_operation (note Connected s)).
    assert (D1 : did 1 [Connected] s s1)
      by (apply did_operation; reflexivity).
    destruct (number_loop_run fuel s1) as (r & s2 & n & acts & E & D & Hf & Hp).
    rewrite E. destruct r as [r|f].
    + do 4 eexists. split; [reflexivity|]. split.
      * eapply did_trans; [exact D1 | exact D].
      * intros p ->. destruct (Hp p eq_refl) as [[k Hk] Ht].
        split; [exists k; exact Hk | exact Ht].
    + rewrite (Hf f eq_refl). cbn [on_exception is_exception].
      rewrite pbind_say. do 4 eexists. split; [reflexivity|]. split.
      * eapply did_trans; [eapply did_trans; [exact D1 | exact D]|].
        apply did_say.
      * discriminate.
  - cbn [on_exception is_exception]. rewrite pbind_say.
    do 4 eexists. split; [reflexivity|]. split.
    + eapply did_trans;
        [apply (did_operation Connected); reflexivity | apply did_say].
    + discriminate.
Qed.

(** X16 (serziam.py, generate_phone_number): the function raises
    nothing and changes neither the table nor the files; a number that
    it returns is 601 followed by six decimal digits, and no row of the
    table has it. *)
Theorem generate_phone_number_fresh fuel s :
  exists r s',
    UserManager.generate_phone_number fuel s = (Fine r, s')
    /\ table s' = table s
    /\ disk s' = disk s
    /\ (forall p, r = Some (Some p) ->
          (exists ds, p = lit "601" ++ ds
                      /\ List.length ds = 6%nat
                      /\ Forall is_digit ds)
          /\ taken (table s) p = false).
Proof.
  destruct (generate_phone_number_run fuel s)
    as (r & s' & n & acts & E & D & Hp).
  exists r, s'. split; [exact E|].
  destruct D as (_ & _ & _ & Dk & Tb & _).
  split; [exact Tb|]. split; [exact Dk|].
  intros p Hr. destruct (Hp p Hr) as [[k ->] Ht].
  split; [apply candidate_well_formed | exact Ht].
Qed.

(** The loop returns the first candidate that is free. *)
Lemma number_loop_first_free k : forall fuel s,
  (k < fuel)%nat ->
  (forall i, (i <= k)%nat ->
     answered (answers s (i + operations s)) = true) ->
  (forall j, (j < k)%nat -> taken (table s) (candidate s j) = true) ->
  taken (table s) (candidate s k) = false ->
  exists s',
    UserManager.number_loop fuel s = (Fine (Some (Some (candidate s k))), s')
    /\ operations s' = (S k + operations s)%nat.
Proof.
  induction k as [|k IH]; intros fuel s Hfuel Hans Htaken Hfree;
    (destruct fuel as [|fuel]; [lia|]);
    cbn [UserManager.number_loop];
    destruct (random_digits_run 6 s) as (s1 & E1 & Dr & Di & D1);
    rewrite (pbind_fine _ _ _ _ _ E1); cbv beta zeta;
    set (p0 := UserManager.EXTENSION_PREFIX ++ _);
    assert (Ep : p0 = candidate s 0) by reflexivity;
    destruct D1 as (A1 & O1 & _ & _ & T1 & _);
    match goal with
    | |- context [pbind (UserManager.select_id p0) ?k0 ?s0] =>
        destruct (select_id_cases p0 k0 s0)
          as [[Ha _] | [(_ & Ht & id & ->) | (_ & Ht & ->)]]
    end.
  - specialize (Hans 0%nat (Nat.le_refl _)). cbn [Nat.add] in Hans.
    rewrite A1, O1 in Ha. cbn [Nat.add] in Ha. rewrite Ha in Hans.
    discriminate.
  - rewrite T1, Ep, Hfree in Ht. discriminate.
  - rewrite Ep. eexists. split; [reflexivity|]. machine_state.
    rewrite O1. reflexivity.
  - specialize (Hans 0%nat (Nat.le_0_l _)). cbn [Nat.add] in Hans.
    rewrite A1, O1 in Ha. cbn [Nat.add] in Ha. rewrite Ha in Hans.
    discriminate.
  - set (s2 := next_operation _).
    destruct (IH fuel s2) as (s' & E & O).
    + lia.
    + intros i Hi. unfold s2. machine_state. rewrite A1, O1.
      cbn [Nat.add]. rewrite <- Nat.add_succ_comm. apply Hans. lia.
    + intros j Hj. unfold s2. machine_state. rewrite T1.
      rewrite (candidate_next s); [apply Htaken; lia | | ];
        machine_state; assumption.
    + unfold s2. machine_state. rewrite T1.
      rewrite (candidate_next s); [exact Hfree | | ];
        machine_state; assumption.
    + exists s'. split.
      * rewrite E. rewrite (candidate_next s); [reflexivity | | ];
          unfold s2; machine_state; assumption.
      * rewrite O. unfold s2. machine_state. rewrite O1. lia.
  - rewrite T1, Ep in Ht. rewrite Htaken in Ht; [discriminate | lia].
Qed.

(** X17 (serziam.py, generate_phone_number): when the database answers,
    the function returns the first number drawn that no row has: the
    numbers drawn before it were all taken. *)
Theorem generate_phone_number_first_free s k fuel :
  (k < fuel)%nat ->
  (forall i, (i <= S k)%nat ->
     answered (answers s (i + operations s)) = true) ->
  (forall j, (j < k)%nat -> taken (table s) (candidate s j) = true) ->
  taken (table s) (candidate s k) = false ->
  exists s',
    UserManager.generate_phone_number fuel s
    = (Fine (Some (Some (candidate s k))), s')
    /\ table s' = table s.
Proof.
  intros Hfuel Hans Htaken Hfree.
  unfold UserManager.generate_phone_number, try_catch.
  destruct (connect_cases (fun _ => UserManager.number_loop fuel) s)
    as [[Ha ->] | [Ha ->]].
  - set (s1 := next_operation (note Connected s)).
    destruct (number_loop_first_free k fuel s1) as (s' & E & O).
    + exact Hfuel.
    + intros i Hi. unfold s1. machine_state.
      rewrite <- Nat.add_succ_comm. apply Hans. lia.
    + exact Htaken.
    + exact Hfree.
    + change (candidate s1 k) with (candidate s k) in E. rewrite E.
      exists s'. split; [reflexivity|].
      destruct (number_loop_run fuel s1) as (r & s2 & n & acts & E' & D & _).
      rewrite E in E'. injection E' as _ <-.
      destruct D as (_ & _ & _ & _ & Tb & _). exact Tb.
  - specialize (Hans 0%nat (Nat.le_0_l _)). cbn [Nat.add] in Hans.
    rewrite Hans in Ha. discriminate.
Qed.

Lemma generate_phone_number_first_free_witness :
  exists s',
    UserManager.generate_phone_number 2 (sample_machine [] all_well)
    = (Fine (Some (Some (lit "601111111"))), s')
    /\ table s' = sample_rows.
Proof.
  apply (generate_phone_number_first_free (sample_machine [] all_well) 1 2).
  - lia.
  - intros i _. reflexivity.
  - intros j Hj. destruct j as [|j]; [vm_compute; reflexivity | lia].
  - vm_compute. reflexivity.
Defined.

Lemma taken_in (t : list user) p :
  taken t p = false -> ~ In p (map numero t).
Proof.
  unfold taken. induction t as [|u t IH]; cbn [existsb map In]; [tauto|].
  intros H. apply orb_false_iff in H. destruct H as [Hu Ht].
  intros [E | Hin]; [|exact (IH Ht Hin)].
  rewrite E, str_eqb_refl in Hu. discriminate.
Qed.

Lemma insert_user_cases {B} p pw ctx (k : user -> P B) s :
  let s1 := next_operation
              (note (Executed "INSERT INTO users (numero, password, context) VALUES (?, ?, ?)") s) in
  taken (table s) p = false ->
  (answered (answers s (operations s)) = true
   /\ exists row,
        numero row = p /\ password row = pw /\ context row = ctx
        /\ pbind (UserManager.insert_user p pw ctx) k s = k row s1)
  \/ (answered (answers s (operations s)) = false
      /\ pbind (UserManager.insert_user p pw ctx) k s
         = (Fault DatabaseError, s1)).
Proof.
  cbn zeta. intros Hfree. unfold UserManager.insert_user.
  rewrite pbind_pbind.
  match goal with
  | |- context [pbind (operate ?a ?b) ?k0 ?s0] =>
      destruct (operate_cases a b k0 s0) as [[st [Ha ->]] | [Ha ->]]
  end; rewrite Ha.
  - left. split; [reflexivity|]. unfold pbind. machine_state.
    unfold taken in Hfree. rewrite Hfree.
    eexists. split; [|split; [|split]]; [| | |reflexivity]; reflexivity.
  - right. split; reflexivity.
Qed.

Lemma add_user_run fuel pw ctx s :
  exists r s',
    UserManager.add_user fuel pw ctx s = (Fine r, s')
    /\ disk s' = disk s
    /\ match r with
       | Some (Some p) =>
           taken (table s) p = false
           /\ (exists k, p = candidate s k)
           /\ exists row,
                table s' = table s ++ [row]
                /\ numero row = p /\ password row = pw /\ context row = ctx
       | _ => table s' = table s
       end.
Proof.
  unfold UserManager.add_user, try_catch.
  destruct (generate_phone_number_run fuel s)
    as (r & s1 & n & acts & E & D & Hp).
  rewrite (pbind_fine _ _ _ _ _ E).
  destruct D as (_ & _ & _ & D1 & T1 & _).
  destruct r as [[p|]|];
    [|do 2 eexists; (split; [reflexivity|]); split; assumption ..].
  destruct (Hp p eq_refl) as [[k Hk] Hfree].
  destruct p as [|c p]; [discriminate Hk|].
  cbv beta iota. set (q := c :: p) in *.
  match goal with
  | |- context [pbind connect ?k0 ?s0] =>
      destruct (connect_cases k0 s0) as [[_ ->] | [_ ->]]
  end.
  - set (s2 := next_operation (note Connected s1)).
    match goal with
    | |- context [pbind (UserManager.insert_user q pw ctx) ?k0 ?s0] =>
        destruct (insert_user_cases q pw ctx k0 s0)
          as [(_ & row & Hn & Hw & Hc & ->) | [_ ->]]
    end.
    + unfold s2. machine_state. rewrite T1. exact Hfree.
    + set (s3 := next_operation _).
      match goal with
      | |- context [pbind (commit_with ?ch) ?k0 ?s0] =>
          destruct (commit_with_cases ch k0 s0) as [[_ ->] | [_ ->]]
      end.
      * rewrite pbind_say. do 2 eexists. split; [reflexivity|].
        unfold s3, s2. machine_state. split; [exact D1|].
        split; [exact Hfree|]. split; [exists k; exact Hk|].
        exists row. rewrite T1. repeat split; assumption.
      * cbn [on_exception is_exception]. rewrite pbind_say.
        do 2 eexists. split; [reflexivity|].
        unfold s3, s2. machine_state. split; assumption.
    + cbn [on_exception is_exception]. rewrite pbind_say.
      do 2 eexists. split; [reflexivity|].
      unfold s2. machine_state. split; assumption.
  - cbn [on_exception is_exception]. rewrite pbind_say.
    do 2 eexists. split; [reflexivity|].
    machine_state. split; assumption.
Qed.

(** X18 (serziam.py, add_user): the function raises nothing.  When it
    returns a number, the table has one row more, with this number and
    the password and context given, and the number is 601 followed by
    six digits that no other row has; otherwise the table is as it
    was.  So the numbers of the table stay distinct. *)
Theorem add_user_keeps_numbers_distinct fuel pw ctx s :
  NoDup (map numero (table s)) ->
  exists r s',
    UserManager.add_user fuel pw ctx s = (Fine r, s')
    /\ NoDup (map numero (table s'))
    /\ match r with
       | Some (Some p) =>
           (exists ds, p = lit "601" ++ ds
                       /\ List.length ds = 6%nat
                       /\ Forall is_digit ds)
           /\ exists row,
                table s' = table s ++ [row]
                /\ numero row = p /\ password row = pw /\ context row = ctx
       | _ => table s' = table s
       end.
Proof.
  intros Hnd.
  destruct (add_user_run fuel pw ctx s) as (r & s' & E & _ & H).
  exists r, s'. split; [exact E|].
  destruct r as [[p|]|]; try (rewrite H; split; [exact Hnd | reflexivity]).
  destruct H as (Hfree & [k ->] & row & Ht & Hn & Hw & Hc).
  split; [|split; [apply candidate_well_formed | exists row; auto]].
  rewrite Ht, map_app. cbn [map]. rewrite Hn.
  apply NoDup_app; [exact Hnd | repeat constructor; intros [] |].
  intros x Hx [<- | []]. exact (taken_in _ _ Hfree Hx).
Qed.

Lemma add_user_keeps_numbers_distinct_witness :
  NoDup (map numero sample_rows)
  /\ exists r s',
       UserManager.add_user 2 (lit "pw") (lit "default")
         (sample_machine [] all_well) = (Fine r, s')
       /\ NoDup (map numero (table s'))
       /\ match r with
          | Some (Some p) =>
              (exists ds, p = lit "601" ++ ds
                          /\ List.length ds = 6%nat
                          /\ Forall is_digit ds)
              /\ exists row,
                   table s' = sample_rows ++ [row]
                   /\ numero row = p /\ password row = lit "pw"
                   /\ context row = lit "default"
          | _ => table s' = sample_rows
          end.
Proof.
  assert (H : NoDup (map numero sample_rows))
    by (repeat constructor; intros []).
  split; [exact H|].
  exact (add_user_keeps_numbers_distinct 2 (lit "pw") (lit "default")
           (sample_machine [] all_well) H).
Defined.

Lemma delete_user_run p s :
  exists s',
    UserManager.delete_user p s
    = (Fine (forallb answered (fates s 3)), s')
    /\ table s'
       = (if forallb answered (fates s 3)
          then filter (fun u => negb (str_eqb (numero u) p)) (table s)
          else table s)
    /\ disk s' = disk s.
Proof.
  unfold UserManager.delete_user, try_catch, fates.
  cbn [seq map forallb Nat.add].
  match goal with
  | |- context [pbind connect ?k ?s0] =>
      destruct (connect_cases k s0) as [[H0 ->] | [H0 ->]]
  end; rewrite H0; cbn [andb];
    [|cbn [on_exception is_exception]; rewrite pbind_say;
      eexists; split; [reflexivity | split; reflexivity]].
  match goal with
  | |- context [pbind (execute ?st) ?k ?s0] =>
      destruct (execute_cases st k s0) as [[H1 ->] | [H1 ->]]
  end; cbn [operations answers next_operation note] in H1; rewrite H1;
    cbn [andb];
    [|cbn [on_exception is_exception]; rewrite pbind_say;
      eexists; split; [reflexivity | split; reflexivity]].
  match goal with
  | |- context [pbind (commit_with ?c) ?k ?s0] =>
      destruct (commit_with_cases c k s0) as [[H2 ->] | [H2 ->]]
  end; cbn [operations answers next_operation note] in H2; rewrite H2;
    cbn [andb];
    [|cbn [on_exception is_exception]; rewrite pbind_say;
      eexists; split; [reflexivity | split; reflexivity]].
  rewrite pbind_say. eexists. split; [reflexivity | split; reflexivity].
Qed.

(** X19 (serziam.py, delete_user): the function raises nothing.  When
    the three operations on the database go through it returns True
    and the table has lost the rows of this number and no other,
    whether there was such a row or not; when one of them breaks it
    returns False and the table is as it was. *)
Theorem delete_user_removes_the_number p s :
  exists s',
    UserManager.delete_user p s
    = (Fine (forallb answered (fates s 3)), s')
    /\ table s'
       = (if forallb answered (fates s 3)
          then filter (fun u => negb (str_eqb (numero u) p)) (table s)
          else table s)
    /\ disk s' = disk s.
Proof. apply delete_user_run. Qed.

(* ================================================================== *)
(** * The configuration of Asterisk *)

Lemma blind_pret {A} (a : A) : blind (pret a).
Proof. intros s. reflexivity. Qed.

Lemma blind_say line : blind (say line).
Proof. intros s. reflexivity. Qed.

Lemma blind_operate a broken : blind (operate a broken).
Proof.
  intros s. unfold operate. cbn [forget_passwords set_table answers operations].
  destruct (answers s (operations s)); reflexivity.
Qed.

Lemma blind_pbind {A B} (m : P A) (k : A -> P B) :
  blind m -> (forall a, blind (k a)) -> blind (pbind m k).
Proof.
  intros Hm Hk s. unfold pbind. rewrite Hm.
  destruct (m s) as [[a|f] s1]; cbn [fst snd]; [apply Hk | reflexivity].
Qed.

Lemma blind_try_catch {A} (body : P A) handler :
  blind body ->
  (forall f h, handler f = Some h -> blind h) ->
  blind (try_catch body handler).
Proof.
  intros Hb Hh s. unfold try_catch. rewrite Hb.
  destruct (body s) as [[a|f] s1]; cbn [fst snd]; [reflexivity|].
  destruct (handler f) as [h|] eqn:E; [apply (Hh f h E) | reflexivity].
Qed.

Lemma blind_on_exception {A} (h : fault -> P A) :
  (forall f, blind (h f)) ->
  forall f h', on_exception h f = Some h' -> blind h'.
Proof.
  intros H f h'. unfold on_exception.
  destruct (is_exception f); [intros [= <-]; apply H | discriminate].
Qed.

Lemma blind_write_file path content : blind (write_file path content).
Proof.
  apply blind_pbind; [apply blind_operate|]. intros _ s. reflexivity.
Qed.

Section BlindConfiguration.

Variable order_by_created_at_desc : list listing -> list listing.

Lemma blind_list_users :
  blind (UserManager.list_users order_by_created_at_desc).
Proof.
  apply blind_try_catch.
  - apply blind_pbind.
    + apply blind_pbind; [apply blind_operate | intros; apply blind_pret].
    + intros _. apply blind_pbind; [apply blind_operate|].
      intros _ s. cbn [forget_passwords set_table table fst snd].
      rewrite map_map. reflexivity.
  - apply blind_on_exception. intros f.
    apply blind_pbind; [apply blind_say | intros; apply blind_pret].
Qed.

Lemma blind_configure_asterisk :
  blind (AsteriskConfigurator.configure_asterisk order_by_created_at_desc).
Proof.
  apply blind_pbind; [apply blind_say|]. intros _.
  apply blind_try_catch.
  - apply blind_pbind.
    { apply blind_pbind; [apply blind_operate | intros; apply blind_pret]. }
    intros _. apply blind_pbind; [apply blind_write_file|].
    intros _. apply blind_pbind.
    { apply blind_pbind; [apply blind_list_users|].
      intros users. apply blind_write_file. }
    intros _. apply blind_pbind.
    { apply blind_pbind; [apply blind_list_users|].
      intros users. apply blind_write_file. }
    intros _. apply blind_pbind; [apply blind_say | intros; apply blind_pret].
  - apply blind_on_exception. intros f.
    apply blind_pbind; [apply blind_say | intros; apply blind_pret].
Qed.

(** X20 (serziam.py, configure_asterisk and the three files it writes):
    the passwords of the users play no part in the configuration.  On a
    table whose passwords are erased the function returns the same,
    writes the same files and prints the same lines. *)
Theorem configure_asterisk_ignores_passwords s :
  AsteriskConfigurator.configure_asterisk order_by_created_at_desc
    (forget_passwords s)
  = (fst (AsteriskConfigurator.configure_asterisk
            order_by_created_at_desc s),
     forget_passwords
       (snd (AsteriskConfigurator.configure_asterisk
               order_by_created_at_desc s))).
Proof. apply blind_configure_asterisk. Qed.

End BlindConfiguration.

Lemma fold_left_sections (section : pystr -> pystr) (users : list listing) :
  forall head,
    fold_left
      (fun conf (user : listing) =>
         let '(phone_number, _, _) := user in conf ++ section phone_number)
      users head
    = head ++ concat (map section (numbers users)).
Proof.
  induction users as [|[[n c] t] users IH]; intros head; cbn [fold_left].
  - cbn. rewrite app_nil_r. reflexivity.
  - rewrite IH. cbn [numbers map concat fst]. rewrite <- app_assoc.
    reflexivity.
Qed.

Section Configuration.

Variable order_by_created_at_desc : list listing -> list listing.

(** The listing, when the database answers. *)
Lemma list_users_answered {B} (k : list listing -> P B) s :
  answered (answers s (operations s)) = true ->
  answered (answers s (S (operations s))) = true ->
  exists s',
    pbind (UserManager.list_users order_by_created_at_desc) k s
    = k (order_by_created_at_desc (map selected (table s))) s'
    /\ answers s' = answers s
    /\ operations s' = S (S (operations s))
    /\ disk s' = disk s
    /\ table s' = table s.
Proof.
  intros H0 H1. unfold UserManager.list_users, pbind at 1, try_catch.
  match goal with
  | |- context [pbind connect ?k0 ?s0] =>
      destruct (connect_cases k0 s0) as [[_ ->] | [Ha _]]
  end; [|rewrite H0 in Ha; discriminate].
  match goal with
  | |- context [pbind (operate ?a ?b) ?k0 ?s0] =>
      destruct (operate_cases a b k0 s0) as [[st [_ ->]] | [Ha _]]
  end.
  - eexists. split; [reflexivity|]. machine_state. repeat split.
  - cbn [operations answers next_operation note] in Ha.
    rewrite Ha in H1. discriminate.
Qed.

(** The listing, when the database cannot be reached. *)
Lemma list_users_unreachable {B} (k : list listing -> P B) s :
  answers s (operations s) = Breaks ->
  exists s',
    pbind (UserManager.list_users order_by_created_at_desc) k s = k [] s'
    /\ answers s' = answers s
    /\ operations s' = S (operations s)
    /\ disk s' = disk s
    /\ table s' = table s.
Proof.
  intros H0. unfold UserManager.list_users, pbind at 1, try_catch.
  match goal with
  | |- context [pbind connect ?k0 ?s0] =>
      destruct (connect_cases k0 s0) as [[Ha _] | [_ ->]]
  end; [rewrite H0 in Ha; discriminate|].
  cbn [on_exception is_exception]. rewrite pbind_say.
  eexists. split; [reflexivity|]. machine_state. repeat split.
Qed.

(** X21 (serziam.py, configure_asterisk and the three files it writes):
    when every operation goes through, the function returns True and
    has written sip.conf, then extensions.conf with one line for every
    user listed, then pjsip.conf with the three sections of every user
    listed, in the order of the listing; the password of an account is
    its number.  The table is as it was. *)
Theorem configure_asterisk_writes_every_user s :
  (forall i, (i < 8)%nat ->
     answered (answers s (i + operations s)) = true) ->
  let users := numbers (order_by_created_at_desc (map selected (table s))) in
  exists s',
    AsteriskConfigurator.configure_asterisk order_by_created_at_desc s
    = (Fine true, s')
    /\ disk s'
       = ("/etc/asterisk/pjsip.conf"%string,
          AsteriskConfigurator.pjsip_head
          ++ concat (map AsteriskConfigurator.pjsip_of users))
         :: ("/etc/asterisk/extensions.conf"%string,
             AsteriskConfigurator.extensions_head
             ++ concat (map AsteriskConfigurator.extension_of users))
         :: ("/etc/asterisk/sip.conf"%string, AsteriskConfigurator.sip_conf)
         :: disk s
    /\ table s' = table s.
Proof.
  intros Hans users.
  pose proof (Hans 0%nat ltac:(lia)) as H0.
  pose proof (Hans 1%nat ltac:(lia)) as H1.
  pose proof (Hans 2%nat ltac:(lia)) as H2.
  pose proof (Hans 3%nat ltac:(lia)) as H3.
  pose proof (Hans 4%nat ltac:(lia)) as H4.
  pose proof (Hans 5%nat ltac:(lia)) as H5.
  pose proof (Hans 6%nat ltac:(lia)) as H6.
  pose proof (Hans 7%nat ltac:(lia)) as H7.
  cbn [Nat.add] in *. clear Hans.
  unfold AsteriskConfigurator.configure_asterisk.
  rewrite pbind_say. unfold try_catch.
  match goal with
  | |- context [pbind (makedirs ?p) ?k0 ?s0] =>
      destruct (makedirs_cases p k0 s0) as [[_ ->] | [Ha _]]
  end; [|machine_state_in Ha; rewrite H0 in Ha; discriminate].
  unfold AsteriskConfigurator._create_sip_config.
  match goal with
  | |- context [pbind (write_file ?p ?c) ?k0 ?s0] =>
      destruct (write_file_cases p c k0 s0) as [[_ ->] | [Ha _]]
  end; [|machine_state_in Ha; rewrite H1 in Ha; discriminate].
  unfold AsteriskConfigurator._create_extensions_config.
  rewrite pbind_pbind.
  match goal with
  | |- context [pbind (UserManager.list_users _) ?k0 ?s0] =>
      destruct (list_users_answered k0 s0) as (s1 & -> & A1 & O1 & D1 & T1)
  end; [exact H2 | exact H3 |].
  cbv beta zeta. rewrite fold_left_sections.
  match goal with
  | |- context [pbind (write_file ?p ?c) ?k0 ?s0] =>
      destruct (write_file_cases p c k0 s0) as [[_ ->] | [Ha _]]
  end; [|rewrite A1, O1 in Ha; machine_state_in Ha; rewrite H4 in Ha;
         discriminate].
  unfold AsteriskConfigurator._create_pjsip_config.
  rewrite pbind_pbind.
  match goal with
  | |- context [pbind (UserManager.list_users _) ?k0 ?s0] =>
      destruct (list_users_answered k0 s0) as (s2 & -> & A2 & O2 & D2 & T2)
  end; [machine_state; rewrite A1, O1; exact H5
       | machine_state; rewrite A1, O1; exact H6 |].
  cbv beta zeta. rewrite fold_left_sections.
  match goal with
  | |- context [pbind (write_file ?p ?c) ?k0 ?s0] =>
      destruct (write_file_cases p c k0 s0) as [[_ ->] | [Ha _]]
  end; [|rewrite A2, O2 in Ha; machine_state_in Ha; rewrite A1, O1 in Ha;
         machine_state_in Ha; rewrite H7 in Ha; discriminate].
  rewrite pbind_say. eexists. split; [reflexivity|].
  machine_state. rewrite D2, T2. machine_state. rewrite D1, T1.
  machine_state. split; reflexivity.
Qed.

(** X22 (serziam.py, configure_asterisk): when the database cannot be
    reached but the files can be written, the function still returns
    True: it writes extensions.conf and pjsip.conf without any user,
    whatever the table holds. *)
Theorem configure_asterisk_without_database s :
  answered (answers s (operations s)) = true ->
  answered (answers s (1 + operations s)%nat) = true ->
  answers s (2 + operations s)%nat = Breaks ->
  answered (answers s (3 + operations s)%nat) = true ->
  answers s (4 + operations s)%nat = Breaks ->
  answered (answers s (5 + operations s)%nat) = true ->
  exists s',
    AsteriskConfigurator.configure_asterisk order_by_created_at_desc s
    = (Fine true, s')
    /\ disk s'
       = ("/etc/asterisk/pjsip.conf"%string, AsteriskConfigurator.pjsip_head)
         :: ("/etc/asterisk/extensions.conf"%string,
             AsteriskConfigurator.extensions_head)
         :: ("/etc/asterisk/sip.conf"%string, AsteriskConfigurator.sip_conf)
         :: disk s
    /\ table s' = table s.
Proof.
  cbn [Nat.add]. intros H0 H1 H2 H3 H4 H5.
  unfold AsteriskConfigurator.configure_asterisk.
  rewrite pbind_say. unfold try_catch.
  match goal with
  | |- context [pbind (makedirs ?p) ?k0 ?s0] =>
      destruct (makedirs_cases p k0 s0) as [[_ ->] | [Ha _]]
  end; [|machine_state_in Ha; rewrite H0 in Ha; discriminate].
  unfold AsteriskConfigurator._create_sip_config.
  match goal with
  | |- context [pbind (write_file ?p ?c) ?k0 ?s0] =>
      destruct (write_file_cases p c k0 s0) as [[_ ->] | [Ha _]]
  end; [|machine_state_in Ha; rewrite H1 in Ha; discriminate].
  unfold AsteriskConfigurator._create_extensions_config.
  rewrite pbind_pbind.
  match goal with
  | |- context [pbind (UserManager.list_users _) ?k0 ?s0] =>
      destruct (list_users_unreachable k0 s0) as (s1 & -> & A1 & O1 & D1 & T1)
  end; [exact H2|].
  cbv beta zeta. cbn [fold_left].
  match goal with
  | |- context [pbind (write_file ?p ?c) ?k0 ?s0] =>
      destruct (write_file_cases p c k0 s0) as [[_ ->] | [Ha _]]
  end; [|rewrite A1, O1 in Ha; machine_state_in Ha; rewrite H3 in Ha;
         discriminate].
  unfold AsteriskConfigurator._create_pjsip_config.
  rewrite pbind_pbind.
  match goal with
  | |- context [pbind (UserManager.list_users _) ?k0 ?s0] =>
      destruct (list_users_unreachable k0 s0) as (s2 & -> & A2 & O2 & D2 & T2)
  end; [machine_state; rewrite A1, O1; exact H4|].
  cbv beta zeta. cbn [fold_left].
  match goal with
  | |- context [pbind (write_file ?p ?c) ?k0 ?s0] =>
      destruct (write_file_cases p c k0 s0) as [[_ ->] | [Ha _]]
  end; [|rewrite A2, O2 in Ha; machine_state_in Ha; rewrite A1, O1 in Ha;
         machine_state_in Ha; rewrite H5 in Ha; discriminate].
  rewrite pbind_say. eexists. split; [reflexivity|].
  machine_state. rewrite D2, T2. machine_state. rewrite D1, T1.
  machine_state. split; reflexivity.
Qed.

End Configuration.

Lemma configure_asterisk_writes_every_user_witness :
  (forall i, (i < 8)%nat ->
     answered (answers (sample_machine [] all_well)
                 (i + operations (sample_machine [] all_well))) = true)
  /\ exists s',
       AsteriskConfigurator.configure_asterisk (fun l => l)
         (sample_machine [] all_well) = (Fine true, s')
       /\ disk s'
          = [ ("/etc/asterisk/pjsip.conf"%string,
               AsteriskConfigurator.pjsip_head
               ++ AsteriskConfigurator.pjsip_of (lit "601000000"));
              ("/etc/asterisk/extensions.conf"%string,
               AsteriskConfigurator.extensions_head
               ++ AsteriskConfigurator.extension_of (lit "601000000"));
              ("/etc/asterisk/sip.conf"%string,
               AsteriskConfigurator.sip_conf) ]
       /\ table s' = sample_rows.
Proof.
  assert (H : forall i, (i < 8)%nat ->
                answered (answers (sample_machine [] all_well)
                            (i + operations (sample_machine [] all_well)))
                = true) by (intros i _; reflexivity).
  split; [exact H|].
  destruct (configure_asterisk_writes_every_user (fun l => l)
              (sample_machine [] all_well) H) as (s' & E & D & Tb).
  exists s'. split; [exact E|]. split; [|exact Tb].
  rewrite D. cbn [sample_machine fresh_machine disk table sample_rows map
                  selected numbers numero context created_at fst concat].
  rewrite !app_nil_r. reflexivity.
Defined.

Lemma configure_asterisk_without_database_witness :
  exists s',
    AsteriskConfigurator.configure_asterisk (fun l => l)
      (sample_machine [] unreachable_database) = (Fine true, s')
    /\ disk s'
       = [ ("/etc/asterisk/pjsip.conf"%string,
            AsteriskConfigurator.pjsip_head);
           ("/etc/asterisk/extensions.conf"%string,
            AsteriskConfigurator.extensions_head);
           ("/etc/asterisk/sip.conf"%string, AsteriskConfigurator.sip_conf) ]
    /\ table s' = sample_rows.
Proof.
  apply (configure_asterisk_without_database (fun l => l)
           (sample_machine [] unreachable_database)); reflexivity.
Defined.

(* ================================================================== *)
(** * The menus of the users *)

Lemma harmless_pret {A} (a : A) : harmless (pret a).
Proof. intros s. split; [reflexivity | discriminate]. Qed.

Lemma harmless_say line : harmless (say line).
Proof. intros s. split; [reflexivity | discriminate]. Qed.

Lemma harmless_operate a broken :
  is_exception broken = true -> harmless (operate a broken).
Proof.
  intros Hb s. unfold operate.
  destruct (answers s (operations s)); cbn [fst snd]; machine_state;
    (split; [reflexivity|]); [discriminate | intros f [= <-]; exact Hb].
Qed.

Lemma harmless_pbind {A B} (m : P A) (k : A -> P B) :
  harmless m -> (forall a, harmless (k a)) -> harmless (pbind m k).
Proof.
  intros Hm Hk s. unfold pbind. destruct (Hm s) as [Tm Fm].
  destruct (m s) as [[a|f] s1]; cbn [fst snd] in *.
  - destruct (Hk a s1) as [Tk Fk]. rewrite Tk, Tm. split; [reflexivity|].
    exact Fk.
  - split; [exact Tm|]. intros f0 [= <-]. exact (Fm f eq_refl).
Qed.

(** [try ... except Exception] around a harmless body raises nothing. *)
Lemma try_catch_harmless {A} (body : P A) (h : fault -> P A) s :
  harmless body ->
  (forall f s1, exists a s2, h f s1 = (Fine a, s2) /\ table s2 = table s1) ->
  exists a s',
    try_catch body (on_exception h) s = (Fine a, s')
    /\ table s' = table s.
Proof.
  intros Hb Hh. unfold try_catch, on_exception. destruct (Hb s) as [Tb Fb].
  destruct (body s) as [[a|f] s1]; cbn [fst snd] in *.
  - exists a, s1. split; [reflexivity | exact Tb].
  - rewrite (Fb f eq_refl). destruct (Hh f s1) as (a & s2 & -> & T2).
    exists a, s2. split; [reflexivity | congruence].
Qed.

Lemma harmless_of_total {A} (m : P A) :
  (forall s, exists a s', m s = (Fine a, s') /\ table s' = table s) ->
  harmless m.
Proof.
  intros H s. destruct (H s) as (a & s' & -> & Tb).
  split; [exact Tb | discriminate].
Qed.

Section UserMenus.

Variable order_by_created_at_desc : list listing -> list listing.
Variable unicode_lower : Z -> pystr.
Variable int : pystr -> option Z.

Lemma list_users_frame s :
  exists users s',
    UserManager.list_users order_by_created_at_desc s = (Fine users, s')
    /\ table s' = table s.
Proof.
  apply try_catch_harmless.
  - apply harmless_pbind.
    + apply harmless_pbind;
        [apply harmless_operate; reflexivity | intros; apply harmless_pret].
    + intros _. apply harmless_pbind;
        [apply harmless_operate; reflexivity|].
      intros _ s0. split; [reflexivity | discriminate].
  - intros f s1. rewrite pbind_say. do 2 eexists. split; reflexivity.
Qed.

Lemma harmless_write_file path content : harmless (write_file path content).
Proof.
  apply harmless_pbind; [apply harmless_operate; reflexivity|].
  intros _ s. split; [reflexivity | discriminate].
Qed.

(** The configuration raises nothing and leaves the table alone. *)
Lemma configure_asterisk_frame s :
  exists b s',
    AsteriskConfigurator.configure_asterisk order_by_created_at_desc s
    = (Fine b, s')
    /\ table s' = table s.
Proof.
  unfold AsteriskConfigurator.configure_asterisk. rewrite pbind_say.
  match goal with
  | |- context [try_catch ?b (on_exception ?h) ?s0] =>
      destruct (try_catch_harmless b h s0) as (a & s' & E & Tb)
  end.
  - apply harmless_pbind.
    { apply harmless_pbind;
        [apply harmless_operate; reflexivity | intros; apply harmless_pret]. }
    intros _. apply harmless_pbind; [apply harmless_write_file|].
    intros _. apply harmless_pbind.
    { apply harmless_pbind;
        [apply harmless_of_total; apply list_users_frame|].
      intros users. apply harmless_write_file. }
    intros _. apply harmless_pbind.
    { apply harmless_pbind;
        [apply harmless_of_total; apply list_users_frame|].
      intros users. apply harmless_write_file. }
    intros _. apply harmless_pbind;
      [apply harmless_say | intros; apply harmless_pret].
  - intros f s1. rewrite pbind_say. do 2 eexists. split; reflexivity.
  - exists a, s'. split; [exact E | exact Tb].
Qed.

(** A line is read, or the keyboard interrupts. *)
Lemma ask_cases {B} line (k : pystr -> P B) s :
  let s1 := set_term (asked (term s)) (note (Prompted line) s) in
  (exists raw, keyboard (term s) (reads (term s)) = Line raw
               /\ pbind (ask line) k s = k raw s1)
  \/ (exists f, pbind (ask line) k s = (Fault (Py f), s1)
                /\ (f = KeyboardInterrupt \/ f = EOFError)).
Proof.
  cbn zeta. unfold ask. rewrite pbind_pbind.
  unfold pbind at 1. unfold pbind, on_term.
  cbn [term note]. rewrite input_run.
  destruct (keyboard (term s) (reads (term s))) as [raw| |].
  - left. exists raw. split; reflexivity.
  - right. exists KeyboardInterrupt. split; [reflexivity | left; reflexivity].
  - right. exists EOFError. split; [reflexivity | right; reflexivity].
Qed.

Lemma show_header_run {B} (k : unit -> P B) s :
  exists s',
    pbind CompleteMenuManager.show_header k s = k tt s'
    /\ table s' = table s /\ term s' = term s.
Proof.
  unfold CompleteMenuManager.show_header, CompleteMenuManager.clear_screen,
    pbind, say.
  eexists. split; [reflexivity|]. split; reflexivity.
Qed.

(** The lines of a loop that only prints. *)
Lemma for_all_says {X} (l : list X) (body : X -> P unit) :
  (forall x s, exists line, body x s = (Fine tt, note (Said line) s)) ->
  forall s, exists s',
    for_all l body s = (Fine tt, s')
    /\ table s' = table s /\ term s' = term s.
Proof.
  intros Hb. induction l as [|x l IH]; intros s; cbn [for_all].
  - exists s. repeat split.
  - destruct (Hb x s) as (line & E). rewrite (pbind_fine _ _ _ _ _ E).
    destruct (IH (note (Said line) s)) as (s' & E' & Tb & Tm).
    exists s'. split; [exact E'|]. split; assumption.
Qed.

Lemma delete_choice_run users s :
  exists r s',
    CompleteMenuManager.delete_choice order_by_created_at_desc
      unicode_lower int users s = (r, s')
    /\ r <> Fault (Py IndexError)
    /\ (table s' = table s
        \/ exists raw choice user confirm,
             keyboard (term s) (reads (term s)) = Line raw
             /\ int (strip raw) = Some choice
             /\ 1 <= choice <= len users
             /\ nth_error users (Z.to_nat (choice - 1)) = Some user
             /\ keyboard (term s) (S (reads (term s))) = Line confirm
             /\ (lower unicode_lower (strip confirm) = lit "o"
                 \/ lower unicode_lower (strip confirm) = lit "oui")
             /\ table s'
                = filter (fun u => negb (str_eqb (numero u) (fst (fst user))))
                         (table s)).
Proof.
  unfold CompleteMenuManager.delete_choice.
  match goal with
  | |- context [pbind (ask ?l) ?k ?s0] =>
      destruct (ask_cases l k s0) as [(raw & Hk & ->) | (f & -> & Hf)]
  end.
  2:{ do 2 eexists. split; [reflexivity|]. split.
      - destruct Hf as [-> | ->]; discriminate.
      - left. reflexivity. }
  set (s1 := set_term _ _).
  assert (T1 : table s1 = table s) by reflexivity.
  assert (K1 : keyboard (term s1) (reads (term s1))
               = keyboard (term s) (S (reads (term s)))) by reflexivity.
  clearbody s1. cbv beta zeta.
  destruct (int (strip raw)) as [choice|] eqn:Hint.
  2:{ rewrite pbind_raise. do 2 eexists. split; [reflexivity|].
      split; [discriminate | left; exact T1]. }
  rewrite pbind_pret.
  destruct (choice =? 0) eqn:Hz.
  { do 2 eexists. split; [reflexivity|].
    split; [discriminate | left; exact T1]. }
  destruct ((1 <=? choice) && (choice <=? len users)) eqn:Hb.
  2:{ rewrite pbind_say. do 2 eexists. split; [reflexivity|].
      split; [discriminate | left; exact T1]. }
  apply andb_true_iff in Hb. destruct Hb as [Hlo Hhi].
  apply Z.leb_le in Hlo. apply Z.leb_le in Hhi.
  destruct (nth_error users (Z.to_nat (choice - 1))) as [user|] eqn:Hn.
  2:{ apply nth_error_None in Hn. unfold len in Hhi. lia. }
  cbv zeta. rewrite pbind_pbind.
  match goal with
  | |- context [pbind (ask ?l) ?k ?s0] =>
      destruct (ask_cases l k s0) as [(confirm & Hk2 & ->) | (f & -> & Hf)]
  end.
  2:{ do 2 eexists. split; [reflexivity|]. split.
      - destruct Hf as [-> | ->]; discriminate.
      - left. exact T1. }
  set (s2 := set_term _ _).
  assert (T2 : table s2 = table s) by exact T1.
  clearbody s2. cbv beta.
  destruct (str_eqb (lower unicode_lower (strip confirm)) (lit "o")
            || str_eqb (lower unicode_lower (strip confirm)) (lit "oui"))
    eqn:Hc.
  2:{ rewrite pbind_say. do 2 eexists. split; [reflexivity|].
      split; [discriminate | left; exact T2]. }
  destruct (delete_user_run (fst (fst user)) s2) as (s3 & E3 & T3 & _).
  rewrite !pbind_pbind, (pbind_fine _ _ _ _ _ E3).
  destruct (forallb answered (fates s2 3)).
  - rewrite pbind_pbind, pbind_say, pbind_pbind.
    match goal with
    | |- context [pbind (AsteriskConfigurator.configure_asterisk _) ?k ?s0] =>
        destruct (configure_asterisk_frame s0) as (b & s4 & E4 & T4);
        rewrite (pbind_fine _ _ _ _ _ E4)
    end.
    rewrite !pbind_pret. do 2 eexists. split; [reflexivity|].
    split; [discriminate|]. right.
    exists raw, choice, user, confirm.
    split; [exact Hk|]. split; [exact Hint|]. split; [lia|].
    split; [exact Hn|]. split; [rewrite <- K1; exact Hk2|].
    split.
    + apply orb_true_iff in Hc.
      destruct Hc as [Hc | Hc]; apply str_eqb_eq in Hc; auto.
    + rewrite T4. machine_state. rewrite T3, T2. reflexivity.
  - rewrite !pbind_pret. do 2 eexists. split; [reflexivity|].
    split; [discriminate|]. left. rewrite T3. exact T2.
Qed.

(** X23 (serziam.py, delete_user_menu): the menu never raises
    IndexError, and it changes the table only in one case: the line
    read is a number between 1 and the length of the list shown, and
    the second line, stripped and in lower case, is o or oui.  The rows
    that go are then those of the number shown at this place. *)
Theorem delete_user_menu_deletes_only_the_choice users s :
  exists r s',
    CompleteMenuManager.delete_user_menu order_by_created_at_desc
      unicode_lower int users s = (r, s')
    /\ r <> Fault (Py IndexError)
    /\ (table s' = table s
        \/ exists raw choice user confirm,
             keyboard (term s) (reads (term s)) = Line raw
             /\ int (strip raw) = Some choice
             /\ 1 <= choice <= len users
             /\ nth_error users (Z.to_nat (choice - 1)) = Some user
             /\ keyboard (term s) (S (reads (term s))) = Line confirm
             /\ (lower unicode_lower (strip confirm) = lit "o"
                 \/ lower unicode_lower (strip confirm) = lit "oui")
             /\ table s'
                = filter (fun u => negb (str_eqb (numero u) (fst (fst user))))
                         (table s)).
Proof.
  unfold CompleteMenuManager.delete_user_menu.
  destruct users as [|u0 users0].
  { rewrite pbind_say.
    match goal with
    | |- context [pbind (ask ?l) ?k ?s0] =>
        destruct (ask_cases l k s0) as [(raw & _ & ->) | (f & -> & Hf)]
    end; do 2 eexists; (split; [reflexivity|]).
    - split; [discriminate | left; reflexivity].
    - split; [destruct Hf as [-> | ->]; discriminate | left; reflexivity]. }
  set (users := u0 :: users0).
  match goal with
  | |- context [pbind CompleteMenuManager.show_header ?k ?s0] =>
      destruct (show_header_run k s0) as (s1 & -> & T1 & W1)
  end.
  rewrite !pbind_say.
  match goal with
  | |- context [pbind (for_all ?l ?body) ?k ?s0] =>
      destruct (for_all_says l body) with (s := s0) as (s2 & E2 & T2 & W2)
  end.
  { intros [i [[n c] t]] s0. eexists. reflexivity. }
  rewrite (pbind_fine _ _ _ _ _ E2).
  machine_state_in T2. machine_state_in W2.
  destruct (delete_choice_run users s2) as (r & s3 & E3 & Hr & Ht).
  rewrite W2, W1, T2, T1 in Ht.
  unfold pbind at 1. unfold try_catch. rewrite E3.
  destruct r as [returned|f]; cbv beta iota zeta.
  - destruct returned.
    + do 2 eexists. split; [reflexivity|].
      split; [discriminate | exact Ht].
    + match goal with
      | |- context [pbind (ask ?l) ?k ?s0] =>
          destruct (ask_cases l k s0) as [(raw & _ & ->) | (f & -> & Hf)]
      end; do 2 eexists; (split; [reflexivity|]).
      * split; [discriminate | exact Ht].
      * split; [destruct Hf as [-> | ->]; discriminate | exact Ht].
  - assert (Hv : f = Py ValueError \/ f <> Py ValueError).
    { destruct f as [e| | | |st]; try (right; discriminate).
      destruct e; try (right; discriminate). left. reflexivity. }
    destruct Hv as [-> | Hv].
    + rewrite pbind_say. unfold pret at 1. cbv beta iota zeta.
      match goal with
      | |- context [pbind (ask ?l) ?k ?s0] =>
          destruct (ask_cases l k s0) as [(raw & _ & ->) | (f & -> & Hf)]
      end; do 2 eexists; (split; [reflexivity|]).
      * split; [discriminate | exact Ht].
      * split; [destruct Hf as [-> | ->]; discriminate | exact Ht].
    + exists (Fault f), s3. split.
      * destruct f as [e| | | |st]; try reflexivity.
        destruct e; try reflexivity. contradiction Hv. reflexivity.
      * split; [|exact Ht]. intros [= ->]. apply Hr. reflexivity.
Qed.

(** X24 (serziam.py, add_user_menu): the menu changes the table only
    when the first line read, stripped, is not empty.  The table then
    has one row more: its password is this stripped line, its context
    is the second line stripped, or default when that is empty, and
    its number is one that no row had. *)
Theorem add_user_menu_adds_what_was_read fuel s :
  exists r s',
    CompleteMenuManager.add_user_menu order_by_created_at_desc fuel s
    = (r, s')
    /\ (table s' = table s
        \/ exists raw1 raw2 row,
             keyboard (term s) (reads (term s)) = Line raw1
             /\ keyboard (term s) (S (reads (term s))) = Line raw2
             /\ strip raw1 <> []
             /\ table s' = table s ++ [row]
             /\ password row = strip raw1
             /\ context row = match strip raw2 with
                              | [] => lit "default"
                              | given => given
                              end
             /\ taken (table s) (numero row) = false).
Proof.
  unfold CompleteMenuManager.add_user_menu.
  match goal with
  | |- context [pbind CompleteMenuManager.show_header ?k ?s0] =>
      destruct (show_header_run k s0) as (s1 & -> & T1 & W1)
  end.
  rewrite !pbind_say.
  match goal with
  | |- context [pbind (ask ?l) ?k ?s0] =>
      destruct (ask_cases l k s0) as [(raw1 & K1 & ->) | (f & -> & Hf)]
  end.
  2:{ do 2 eexists. split; [reflexivity|]. left. exact T1. }
  machine_state_in K1. rewrite W1 in K1.
  set (s2 := set_term _ _).
  assert (T2 : table s2 = table s) by exact T1.
  assert (K2 : keyboard (term s2) (reads (term s2))
               = keyboard (term s) (S (reads (term s))))
    by (unfold s2; cbn [set_term term note asked keyboard reads];
        rewrite W1; reflexivity).
  clearbody s2. cbv beta zeta.
  match goal with
  | |- context [pbind (ask ?l) ?k ?s0] =>
      destruct (ask_cases l k s0) as [(raw2 & K3 & ->) | (f & -> & Hf)]
  end.
  2:{ do 2 eexists. split; [reflexivity|]. left. exact T2. }
  rewrite K2 in K3.
  set (s3 := set_term _ _).
  assert (T3 : table s3 = table s) by exact T2.
  clearbody s3. cbv beta zeta.
  set (ctx := match strip raw2 with [] => lit "default" | given => given end).
  destruct (strip raw1) as [|c pw] eqn:Hpw.
  { rewrite pbind_pbind, pbind_say, pbind_pret. cbv beta iota.
    match goal with
    | |- context [pbind (ask ?l) ?k ?s0] =>
        pose proof (ask_cases l k s0) as HH
    end. destruct HH as [(raw & _ & ->) | (f & -> & Hf)].
    - do 2 eexists. split; [reflexivity|]. left. exact T3.
    - do 2 eexists. split; [reflexivity|]. left. exact T3. }
  destruct (add_user_run fuel (c :: pw) ctx s3) as (r & s4 & E4 & _ & H4).
  rewrite !pbind_pbind, (pbind_fine _ _ _ _ _ E4).
  destruct r as [[p|]|].
  - destruct H4 as (Hfree & [k Hk] & row & Ht & Hn & Hw & Hc).
    destruct p as [|d p]; [discriminate Hk|].
    cbv beta iota.
    repeat first [rewrite pbind_pbind | rewrite pbind_say].
    match goal with
    | |- context [pbind (AsteriskConfigurator.configure_asterisk _) ?k0 ?s0] =>
        destruct (configure_asterisk_frame s0) as (b & s5 & E5 & T5);
        rewrite (pbind_fine _ _ _ _ _ E5)
    end.
    rewrite !pbind_pret. cbv beta iota. machine_state_in T5.
    assert (R : exists raw1' raw2' row',
                  keyboard (term s) (reads (term s)) = Line raw1'
                  /\ keyboard (term s) (S (reads (term s))) = Line raw2'
                  /\ strip raw1' <> []
                  /\ table s5 = table s ++ [row']
                  /\ password row' = strip raw1'
                  /\ context row'
                     = match strip raw2' with
                       | [] => lit "default"
                       | given => given
                       end
                  /\ taken (table s) (numero row') = false).
    { exists raw1, raw2, row. rewrite Hpw.
      split; [exact K1|]. split; [exact K3|]. split; [discriminate|].
      split; [rewrite T5, Ht, T3; reflexivity|].
      split; [exact Hw|]. split; [exact Hc|].
      rewrite Hn, <- T3. exact Hfree. }
    match goal with
    | |- context [pbind (ask ?l) ?k0 ?s0] =>
        destruct (ask_cases l k0 s0) as [(raw & _ & ->) | (f & -> & Hf)]
    end; do 2 eexists; (split; [reflexivity|]); right; exact R.
  - rewrite pbind_pbind, pbind_say, pbind_pret. cbv beta iota.
    match goal with
    | |- context [pbind (ask ?l) ?k0 ?s0] =>
        destruct (ask_cases l k0 s0) as [(raw & _ & ->) | (f & -> & Hf)]
    end; do 2 eexists; (split; [reflexivity|]); left;
      machine_state; rewrite H4; exact T3.
  - rewrite !pbind_pret. cbv beta iota.
    do 2 eexists. split; [reflexivity|]. left.
    rewrite H4. exact T3.
Qed.

End UserMenus.

Lemma main_exits_when_a_check_fails_witness :
  forallb (fun ok => ok)
    (requirements (fun c => [c]) (sample_machine [] all_well)) = false
  /\ exists s',
       (forall main_menu : P unit,
          Update.main (fun c => [c]) main_menu (sample_machine [] all_well)
          = (Fault (SystemExit 1), s'))
       /\ table s' = sample_rows
       /\ disk s' = [].
Proof.
  split; [reflexivity|].
  exact (main_exits_when_a_check_fails (fun c => [c])
           (sample_machine [] all_well) eq_refl).
Defined.

(* ================================================================== *)
(** * The tests of the synchronization *)

Lemma on_term_pure {A} (m : M A) (a : A) s :
  m (term s) = (Ok a, term s) -> on_term m s = (Fine a, s).
Proof.
  intros H. unfold on_term. rewrite H. destruct s. reflexivity.
Qed.

Lemma is_ascii_checked (l : pystr) :
  forallb (fun c => (0 <=? c) && (c <? 128)) l = true -> Forall is_ascii l.
Proof.
  intros H. apply Forall_forall. intros c Hc.
  pose proof (proj1 (forallb_forall _ l) H c Hc) as B.
  apply andb_true_iff in B. unfold is_ascii. lia.
Qed.

(** The derivation of serziamtest.py on a period of ASCII characters. *)
Lemma synctest_code p n s :
  Forall is_ascii p ->
  on_term (SyncTest.generate_deterministic_code p n) s
  = (Fine (deriveCode_spec p SyncTest.SECRET_SEED n), s).
Proof.
  intros Hp. apply on_term_pure. rewrite synctest_generate_pure.
  rewrite (derive_result_ok SyncTest.SECRET_SEED p n SyncTest.SECRET_SEED p
             (encode_utf8_ascii p Hp)
             (eq_refl : encode_utf8 SyncTest.SECRET_SEED
                        = Ok SyncTest.SECRET_SEED)).
  reflexivity.
Qed.

Lemma check_periods_run l :
  Forall (Forall is_ascii) l ->
  forall acc s, exists s',
    for_fold l acc SerziamTest.check_period s = (Fine acc, s').
Proof.
  induction 1 as [|p l Hp _ IH]; intros acc s; cbn [for_fold].
  - exists s. reflexivity.
  - unfold SerziamTest.check_period at 1.
    rewrite !pbind_pbind, (pbind_fine _ _ _ _ _ (synctest_code p _ s Hp)).
    rewrite !pbind_pbind, (pbind_fine _ _ _ _ _ (synctest_code p _ s Hp)).
    cbv zeta. rewrite str_eqb_refl. cbn [negb].
    rewrite pbind_pbind, pbind_say, pbind_pret. apply IH.
Qed.

Lemma check_generations_run p l :
  Forall is_ascii p ->
  forall state s,
    state = (None, true)
    \/ state = (Some (deriveCode_spec p SyncTest.SECRET_SEED
                        SyncTest.default_length), true) ->
    exists state' s',
      for_fold l state (SerziamTest.check_generation p) s = (Fine state', s')
      /\ snd state' = true.
Proof.
  intros Hp. induction l as [|i l IH]; intros state s Hs; cbn [for_fold].
  - exists state, s. split; [reflexivity|].
    destruct Hs as [-> | ->]; reflexivity.
  - unfold SerziamTest.check_generation at 1.
    destruct Hs as [-> | ->];
      rewrite !pbind_pbind, (pbind_fine _ _ _ _ _ (synctest_code p _ s Hp));
      cbv beta iota zeta.
    + rewrite pbind_pbind, pbind_say, pbind_pret. apply IH.
      right. reflexivity.
    + rewrite str_eqb_refl. cbn [negb].
      rewrite pbind_pbind, pbind_say, pbind_pret. apply IH.
      right. reflexivity.
Qed.

Lemma fixed_periods_ascii : Forall (Forall is_ascii) SerziamTest.fixed_periods.
Proof.
  unfold SerziamTest.fixed_periods. cbn [map].
  repeat (constructor; [apply is_ascii_checked; reflexivity|]).
  constructor.
Qed.

(** X26 (serziamtest.py, test_synchronization): the test cannot fail.
    Whatever the clock shows, it raises nothing and ends with the four
    lines of success: each code is only compared with a second call of
    the same function. *)
Theorem test_synchronization_always_succeeds s :
  exists s',
    SerziamTest.test_synchronization s = (Fine tt, s')
    /\ firstn 4 (journal s') = success_lines.
Proof.
  unfold SerziamTest.test_synchronization.
  rewrite !pbind_say.
  rewrite (pbind_fine _ _ _ _ _
             (eq_refl : on_term now _ = (Fine _, _))).
  cbv zeta.
  match goal with
  | |- context [on_term (SyncTest.generate_deterministic_code ?p _)] =>
      set (period := p)
  end.
  assert (Hp : Forall is_ascii period) by apply period_of_ascii.
  clearbody period.
  match goal with
  | |- context [pbind (on_term _) ?k ?s0] =>
      rewrite (pbind_fine _ _ _ _ _ (synctest_code period _ s0 Hp))
  end.
  rewrite !pbind_say.
  match goal with
  | |- context [pbind (for_fold ?l ?acc SerziamTest.check_period) ?k ?s0] =>
      destruct (check_periods_run l
                  (Forall_cons _ Hp fixed_periods_ascii) acc s0)
        as (s1 & E1);
      rewrite (pbind_fine _ _ _ _ _ E1)
  end.
  rewrite !pbind_say.
  match goal with
  | |- context [pbind (for_fold ?l ?st (SerziamTest.check_generation _)) ?k ?s0] =>
      destruct (check_generations_run period l Hp st s0
                  (or_introl eq_refl))
        as (state & s2 & E2 & Hr);
      rewrite (pbind_fine _ _ _ _ _ E2)
  end.
  cbv zeta. rewrite Hr, !pbind_say. cbn [andb].
  rewrite !pbind_say. eexists. split; reflexivity.
Qed.

Lemma pbind_on_term {A B} (m : M A) (k : A -> P B) s a w :
  m (term s) = (Ok a, w) -> pbind (on_term m) k s = k a (set_term w s).
Proof. intros H. unfold pbind, on_term. rewrite H. reflexivity. Qed.

(** The verdict of the menu compares the codes of two readings of the
    clock. *)
Lemma menu_test_synchronization_run s :
  exists r s' rest,
    SynchronizationMenu.test_synchronization s = (r, s')
    /\ journal s'
       = Prompted [T nl; T "Appuyez sur Entrée pour continuer..."]
         :: verdict (str_eqb
                       (code_of_month secret_bytes
                          (clock (term s) (ticks (term s))))
                       (code_of_month secret_bytes
                          (clock (term s) (S (ticks (term s))))))
         ++ rest.
Proof.
  unfold SynchronizationMenu.test_synchronization.
  match goal with
  | |- context [pbind CompleteMenuManager.show_header ?k ?s0] =>
      destruct (show_header_run k s0) as (s1 & -> & _ & W1)
  end.
  rewrite !pbind_say.
  match goal with
  | |- context [pbind (on_term _) ?k ?s0] =>
      rewrite (pbind_on_term _ k s0 _ _
                 (serziam_get_current_code Serziam.HiddenAccessCodeManager
                    (term s0) _ secret_seed_bytes))
  end.
  match goal with
  | |- context [pbind (on_term _) ?k ?s0] =>
      rewrite (pbind_on_term _ k s0 _ _
                 (serziam_get_current_period Serziam.HiddenAccessCodeManager
                    (term s0)))
  end.
  match goal with
  | |- context [pbind (on_term (Serziam.generate_deterministic_code
                                  ?self (Some ?p) ?n)) ?k ?s0] =>
      rewrite (pbind_on_term _ k s0 (deriveCode_spec p secret_bytes n)
                 (term s0))
  end.
  2:{ rewrite serziam_generate_pure.
      rewrite (derive_result_ok _ _ _ secret_bytes _
                 (encode_period_of _) secret_seed_bytes).
      reflexivity. }
  rewrite !pbind_say.
  cbn [term note set_term advance clock ticks Nat.add]. rewrite W1.
  change (deriveCode_spec
            (period_of (clock (term s) (S (ticks (term s)))))
            secret_bytes Serziam.default_length)
    with (code_of_month secret_bytes (clock (term s) (S (ticks (term s))))).
  change Serziam.Config.SECRET_SEED with secret_bytes.
  destruct (str_eqb
              (code_of_month secret_bytes (clock (term s) (ticks (term s))))
              (code_of_month secret_bytes
                 (clock (term s) (S (ticks (term s))))));
    cbv beta iota.
  - rewrite !pbind_pbind, !pbind_say.
    match goal with
    | |- context [pbind (ask ?l) ?k0 ?s0] =>
        destruct (ask_cases l k0 s0) as [(raw & _ & ->) | (f & -> & Hf)]
    end; do 3 eexists; (split; [reflexivity|]); reflexivity.
  - rewrite !pbind_say.
    match goal with
    | |- context [pbind (ask ?l) ?k0 ?s0] =>
        destruct (ask_cases l k0 s0) as [(raw & _ & ->) | (f & -> & Hf)]
    end; do 3 eexists; (split; [reflexivity|]); reflexivity.
Qed.

(** X27 (serziam.py, test_synchronization of the menu): the test
    compares the code of one reading of the clock with the code of the
    next.  When both readings fall in the same month of the same year,
    the verdict printed before the last prompt is PARFAITE. *)
Theorem menu_test_perfect_within_a_month s :
  year (clock (term s) (S (ticks (term s))))
  = year (clock (term s) (ticks (term s))) ->
  month (clock (term s) (S (ticks (term s))))
  = month (clock (term s) (ticks (term s))) ->
  exists r s' rest,
    SynchronizationMenu.test_synchronization s = (r, s')
    /\ journal s'
       = Prompted [T nl; T "Appuyez sur Entrée pour continuer..."]
         :: verdict true ++ rest.
Proof.
  intros Ey Em.
  destruct (menu_test_synchronization_run s) as (r & s' & rest & E & J).
  exists r, s', rest. split; [exact E|].
  rewrite J.
  rewrite (code_of_month_year_month _ (clock (term s) (S (ticks (term s))))).
  rewrite (code_of_month_year_month _ (clock (term s) (ticks (term s)))).
  rewrite Ey, Em, str_eqb_refl. reflexivity.
Qed.

Lemma menu_test_perfect_within_a_month_witness :
  year (clock (term (sample_machine [] all_well))
          (S (ticks (term (sample_machine [] all_well)))))
  = year (clock (term (sample_machine [] all_well))
            (ticks (term (sample_machine [] all_well))))
  /\ month (clock (term (sample_machine [] all_well))
              (S (ticks (term (sample_machine [] all_well)))))
     = month (clock (term (sample_machine [] all_well))
                (ticks (term (sample_machine [] all_well))))
  /\ exists r s' rest,
       SynchronizationMenu.test_synchronization (sample_machine [] all_well)
       = (r, s')
       /\ journal s'
          = Prompted [T nl; T "Appuyez sur Entrée pour continuer..."]
            :: verdict true ++ rest.
Proof.
  split; [reflexivity|]. split; [reflexivity|].
  exact (menu_test_perfect_within_a_month (sample_machine [] all_well)
           eq_refl eq_refl).
Defined.

(** X28 (serziam.py, test_synchronization of the menu): when the month
    changes between the two readings of the clock, for a month of 2024
    or 2025, the verdict printed before the last prompt is ÉCHEC,
    although one and the same generator made both codes. *)
Theorem menu_test_fails_across_months s :
  2024 <= year (clock (term s) (ticks (term s))) <= 2025 ->
  1 <= month (clock (term s) (ticks (term s))) <= 12 ->
  (year (clock (term s) (S (ticks (term s)))),
   month (clock (term s) (S (ticks (term s)))))
  = next_month_of (year (clock (term s) (ticks (term s))))
                  (month (clock (term s) (ticks (term s)))) ->
  exists r s' rest,
    SynchronizationMenu.test_synchronization s = (r, s')
    /\ journal s'
       = Prompted [T nl; T "Appuyez sur Entrée pour continuer..."]
         :: verdict false ++ rest.
Proof.
  intros Hy Hm Hnext.
  destruct (menu_test_synchronization_run s) as (r & s' & rest & E & J).
  exists r, s', rest. split; [exact E|].
  rewrite J.
  rewrite (code_of_month_year_month _ (clock (term s) (S (ticks (term s))))).
  rewrite (code_of_month_year_month _ (clock (term s) (ticks (term s)))).
  rewrite Hnext, (codes_differ_at_rollover _ _ Hy Hm). reflexivity.
Qed.

Lemma menu_test_fails_across_months_witness :
  2024 <= 2024 <= 2025 /\ 1 <= 12 <= 12
  /\ (2025, 1) = next_month_of 2024 12
  /\ exists r s' rest,
       SynchronizationMenu.test_synchronization
         (turning_machine last_second_2024 new_year_2025) = (r, s')
       /\ journal s'
          = Prompted [T nl; T "Appuyez sur Entrée pour continuer..."]
            :: verdict false ++ rest.
Proof.
  split; [lia|]. split; [lia|]. split; [reflexivity|].
  apply (menu_test_fails_across_months
           (turning_machine last_second_2024 new_year_2025));
    [simpl; lia | simpl; lia | reflexivity].
Defined.

(** Two sessions at the menus of the users. *)
Example add_user_menu_session :
  map (fun u => (numero u, password u, context u))
      (table (snd (CompleteMenuManager.add_user_menu (fun l => l) 2
                     (sample_machine
                        [Line (lit " pw "); Line (lit "  "); Line []]
                        all_well))))
  = [ (lit "601000000", lit "secret", lit "default");
      (lit "601111111", lit "pw", lit "default") ].
Proof. vm_compute. reflexivity. Qed.

Example delete_user_menu_session :
  table (snd (CompleteMenuManager.delete_user_menu (fun l => l)
                (fun c => [c]) decimal
                [(lit "601000000", lit "default", 0)]
                (sample_machine
                   [Line (lit "1"); Line (lit " OUI "); Line []]
                   all_well)))
  = [].
Proof. vm_compute. reflexivity. Qed.

Example delete_user_menu_not_confirmed :
  table (snd (CompleteMenuManager.delete_user_menu (fun l => l)
                (fun c => [c]) decimal
                [(lit "601000000", lit "default", 0)]
                (sample_machine
                   [Line (lit "1"); Line (lit "non"); Line []]
                   all_well)))
  = sample_rows.
Proof. vm_compute. reflexivity. Qed.

(* ================================================================== *)
(** * The validation and its callers *)

Lemma validation_of_line unicode_upper w k raw :
  keyboard w (k + reads w) = Line raw ->
  validation unicode_upper w k
  = Some (str_eqb (upper unicode_upper (strip raw))
                  (code_of_month secret_bytes (clock w (k + ticks w)))).
Proof.
  intros H. unfold validation. rewrite H.
  rewrite (serziam_validate_code Serziam.HiddenAccessCodeManager _ _ _
             secret_seed_bytes).
  reflexivity.
Qed.

(** One turn of the loop, seen from the loop. *)
Lemma prompt_loop_step unicode_upper fuel attempts w :
  0 < attempts ->
  Serziam.prompt_loop unicode_upper (S fuel) Serziam.AccessControlSystem_init
    attempts w
  = match turn_outcome unicode_upper attempts w with
    | (Ok (Serziam.Return b), w') => (Ok (Some b), w')
    | (Ok (Serziam.Continue attempts'), w') =>
        Serziam.prompt_loop unicode_upper fuel
          Serziam.AccessControlSystem_init attempts' w'
    | (Raise e, w') => (Raise e, w')
    end.
Proof.
  intros H. cbn [Serziam.prompt_loop].
  replace (0 <? attempts) with true by (symmetry; apply Z.ltb_lt; exact H).
  unfold bind. rewrite prompt_turn_outcome.
  destruct (turn_outcome unicode_upper attempts w) as [[[b|a]|e] w'];
    reflexivity.
Qed.

(** The turn that validates the line [raw]. *)
Lemma turn_outcome_line unicode_upper attempts w raw :
  keyboard w (reads w) = Line raw ->
  turn_outcome unicode_upper attempts w
  = let w2 := advance 1 (asked w) in
    if str_eqb (upper unicode_upper (strip raw))
               (code_of_month secret_bytes (clock w (ticks w)))
    then
      (Ok (Serziam.Return (asterisk w (calls w))),
       emit (Printed (if asterisk w (calls w)
                      then MsgUnlocked else MsgRestartError))
            (called Started (emit (Printed MsgCorrect) w2)))
    else if 0 <? attempts - 1
    then (Ok (Serziam.Continue (attempts - 1)),
          emit (Printed (MsgRemaining (attempts - 1))) w2)
    else (Ok (Serziam.Return false), emit (Printed MsgTooMany) w2).
Proof.
  intros H. unfold turn_outcome. rewrite H. cbv zeta.
  destruct (str_eqb _ _); [|reflexivity].
  destruct (asterisk w (calls w)); reflexivity.
Qed.

Ltac world_state :=
  cbn [dialogue_start emit advance asked called clock ticks keyboard reads
       asterisk calls trace fst snd Nat.add failed_turns app].

(** The runs of the dialogue, by the validations of the lines entered:
    [k] validations fail, and then the operator cancels, or the input
    ends, or a validation succeeds, or the third one fails too. *)
Lemma dialogue_cases unicode_upper w :
  let start := dialogue_start w in
  let run := Serziam._prompt_for_new_code unicode_upper
               Serziam.AccessControlSystem_init w in
  exists k,
    (k < 3)%nat
    /\ (forall j, (j < k)%nat ->
          validation unicode_upper start j = Some false)
    /\ reads (snd run) = (S k + reads w)%nat
    /\ ((keyboard w (k + reads w) = CtrlC
         /\ fst run = Ok (Some false)
         /\ trace (snd run)
            = Printed MsgCancelled :: Asked :: failed_turns k ++ trace start
         /\ calls (snd run) = calls w)
        \/ (keyboard w (k + reads w) = CtrlD
            /\ fst run = Raise EOFError
            /\ trace (snd run) = Asked :: failed_turns k ++ trace start
            /\ calls (snd run) = calls w)
        \/ (validation unicode_upper start k = Some true
            /\ fst run = Ok (Some (asterisk w (calls w)))
            /\ trace (snd run)
               = Printed (if asterisk w (calls w)
                          then MsgUnlocked else MsgRestartError)
                 :: Started :: Printed MsgCorrect :: Asked
                 :: failed_turns k ++ trace start
            /\ calls (snd run) = S (calls w))
        \/ (k = 2%nat
            /\ validation unicode_upper start 2 = Some false
            /\ fst run = Ok (Some false)
            /\ trace (snd run)
               = Printed MsgTooMany :: Asked :: failed_turns 2 ++ trace start
            /\ calls (snd run) = calls w)).
Proof.
  intros start run. unfold run.
  rewrite prompt_for_new_code_run. fold start.
  rewrite prompt_loop_step by lia.
  destruct (keyboard start (reads start)) as [raw0| |] eqn:K0.
  2:{ unfold turn_outcome. rewrite K0. exists 0%nat.
      split; [lia|]. split; [intros j Hj; lia|]. split; [reflexivity|].
      left. repeat split. exact K0. }
  2:{ unfold turn_outcome. rewrite K0. exists 0%nat.
      split; [lia|]. split; [intros j Hj; lia|]. split; [reflexivity|].
      right. left. repeat split. exact K0. }
  pose proof (validation_of_line unicode_upper start 0 raw0 K0) as V0.
  rewrite (turn_outcome_line _ _ _ _ K0). cbv zeta.
  cbn [Nat.add] in V0.
  destruct (str_eqb (upper unicode_upper (strip raw0))
              (code_of_month secret_bytes (clock start (ticks start)))).
  { exists 0%nat.
    split; [lia|]. split; [intros j Hj; lia|]. split; [reflexivity|].
    right. right. left. repeat split. exact V0. }
  change (0 <? 3 - 1) with true. cbv iota.
  set (w1 := emit (Printed (MsgRemaining (3 - 1))) (advance 1 (asked start))).
  rewrite prompt_loop_step by lia.
  destruct (keyboard w1 (reads w1)) as [raw1| |] eqn:K1.
  2:{ unfold turn_outcome. rewrite K1. exists 1%nat.
      split; [lia|].
      split; [intros j Hj; replace j with 0%nat by lia; exact V0|].
      split; [reflexivity|].
      left. repeat split. exact K1. }
  2:{ unfold turn_outcome. rewrite K1. exists 1%nat.
      split; [lia|].
      split; [intros j Hj; replace j with 0%nat by lia; exact V0|].
      split; [reflexivity|].
      right. left. repeat split. exact K1. }
  pose proof (validation_of_line unicode_upper start 1 raw1 K1) as V1.
  rewrite (turn_outcome_line _ _ _ _ K1). cbv zeta.
  change (clock w1 (ticks w1)) with (clock start (1 + ticks start)%nat).
  destruct (str_eqb (upper unicode_upper (strip raw1))
              (code_of_month secret_bytes
                 (clock start (1 + ticks start)%nat))).
  { exists 1%nat.
    split; [lia|].
    split; [intros j Hj; replace j with 0%nat by lia; exact V0|].
    split; [reflexivity|].
    right. right. left. repeat split. exact V1. }
  change (0 <? 3 - 1 - 1) with true. cbv iota.
  set (w2 := emit (Printed (MsgRemaining (3 - 1 - 1)))
               (advance 1 (asked w1))).
  rewrite prompt_loop_step by lia.
  assert (F : forall j, (j < 2)%nat ->
                validation unicode_upper start j = Some false).
  { intros j Hj. destruct j as [|[|j]]; [exact V0 | exact V1 | lia]. }
  destruct (keyboard w2 (reads w2)) as [raw2| |] eqn:K2.
  2:{ unfold turn_outcome. rewrite K2. exists 2%nat.
      split; [lia|]. split; [exact F|]. split; [reflexivity|].
      left. repeat split. exact K2. }
  2:{ unfold turn_outcome. rewrite K2. exists 2%nat.
      split; [lia|]. split; [exact F|]. split; [reflexivity|].
      right. left. repeat split. exact K2. }
  pose proof (validation_of_line unicode_upper start 2 raw2 K2) as V2.
  rewrite (turn_outcome_line _ _ _ _ K2). cbv zeta.
  change (clock w2 (ticks w2)) with (clock start (2 + ticks start)%nat).
  destruct (str_eqb (upper unicode_upper (strip raw2))
              (code_of_month secret_bytes
                 (clock start (2 + ticks start)%nat))).
  { exists 2%nat.
    split; [lia|]. split; [exact F|]. split; [reflexivity|].
    right. right. left. repeat split. exact V2. }
  change (0 <? 3 - 1 - 1 - 1) with false. cbv iota.
  exists 2%nat.
  split; [lia|]. split; [exact F|]. split; [reflexivity|].
  right. right. right. repeat split. exact V2.
Qed.

Lemma validation_without_line unicode_upper w k :
  keyboard w (k + reads w) = CtrlC \/ keyboard w (k + reads w) = CtrlD ->
  validation unicode_upper (dialogue_start w) k = None.
Proof.
  intros H. unfold validation.
  change (keyboard (dialogue_start w) (k + reads (dialogue_start w)))
    with (keyboard w (k + reads w)).
  destruct H as [-> | ->]; reflexivity.
Qed.





(** C5. In every run of the unlock dialogue the counter starts at 3.
    A turn decrements it exactly when [validate_code] answered False on
    the line entered, stripped and put to uppercase; when it answered
    True the turn ends the dialogue with the start of the server.  The
    dialogue is blocked by exhaustion (its last line is "too many
    attempts") exactly when the validations of the first three lines
    all failed: never after fewer, and then it returns [False] after
    exactly three prompts, with 2 and then 1 attempt announced.  No run
    has a fourth prompt, and a successful validation among the first
    three prevents the exhaustion. *)
Theorem prompt_for_new_code_attempts :
  forall (unicode_upper : Z -> pystr) (w : world),
    let self := Serziam.AccessControlSystem_init in
    let start := dialogue_start w in
    let run := Serziam._prompt_for_new_code unicode_upper self w in
    let failed := fun k => validation unicode_upper start k = Some false in
    let blocked := hd_error (trace (snd run)) = Some (Printed MsgTooMany) in
    run = Serziam.prompt_loop unicode_upper 3 self 3 start
    /\ (forall attempts w0 raw valid w2,
           keyboard w0 (reads w0) = Line raw ->
           Serziam.validate_code (Serziam.code_manager self)
             (upper unicode_upper (strip raw)) (asked w0) = (Ok valid, w2) ->
           Serziam.prompt_turn unicode_upper self attempts w0
           = if valid
             then (Ok (Serziam.Return (asterisk w0 (calls w0))),
                   emit (Printed (if asterisk w0 (calls w0)
                                  then MsgUnlocked else MsgRestartError))
                        (called Started (emit (Printed MsgCorrect) w2)))
             else if 0 <? attempts - 1
             then (Ok (Serziam.Continue (attempts - 1)),
                   emit (Printed (MsgRemaining (attempts - 1))) w2)
             else (Ok (Serziam.Return false), emit (Printed MsgTooMany) w2))
    /\ (blocked <-> failed 0%nat /\ failed 1%nat /\ failed 2%nat)
    /\ (blocked ->
        fst run = Ok (Some false)
        /\ reads (snd run) = (3 + reads w)%nat
        /\ trace (snd run)
           = Printed MsgTooMany :: Asked
             :: Printed (MsgRemaining 1) :: Asked
             :: Printed (MsgRemaining 2) :: Asked :: trace start)
    /\ (1 + reads w <= reads (snd run) <= 3 + reads w)%nat
    /\ (forall k, (k < 2)%nat ->
          (forall j, (j <= k)%nat -> failed j) ->
          exists evs,
            trace (snd run) = evs ++ failed_turns (S k) ++ trace start)
    /\ (forall k, (k < 3)%nat ->
          validation unicode_upper start k = Some true ->
          ~ blocked)
    /\ (forall k, (k < 3)%nat ->
          (forall j, (j < k)%nat -> failed j) ->
          validation unicode_upper start k = Some true ->
          fst run = Ok (Some (asterisk w (calls w)))
          /\ reads (snd run) = (S k + reads w)%nat).
Proof.
  intros unicode_upper w self start run failed blocked.
  subst self start run failed blocked. cbv beta.
  assert (I : hd_error
                (trace (snd (Serziam._prompt_for_new_code unicode_upper
                               Serziam.AccessControlSystem_init w)))
              = Some (Printed MsgTooMany)
              <-> validation unicode_upper (dialogue_start w) 0 = Some false
                  /\ validation unicode_upper (dialogue_start w) 1
                     = Some false
                  /\ validation unicode_upper (dialogue_start w) 2
                     = Some false).
  { destruct (dialogue_cases unicode_upper w)
      as (k & Hk & F & _ & [(K & _ & T & _) | [(K & _ & T & _)
           | [(V & _ & T & _) | (-> & V & _ & T & _)]]]);
      rewrite T; cbn [hd_error].
    - split; [discriminate|]. intros (F0 & F1 & F2).
      pose proof (validation_without_line unicode_upper w k (or_introl K))
        as N.
      destruct k as [|[|[|k]]]; [| | |lia]; congruence.
    - split; [discriminate|]. intros (F0 & F1 & F2).
      pose proof (validation_without_line unicode_upper w k (or_intror K))
        as N.
      destruct k as [|[|[|k]]]; [| | |lia]; congruence.
    - split.
      + destruct (asterisk w (calls w)); discriminate.
      + intros (F0 & F1 & F2).
        destruct k as [|[|[|k]]]; [| | |lia]; congruence.
    - split; [|reflexivity]. intros _.
      split; [apply F; lia|]. split; [apply F; lia | exact V]. }
  split; [apply prompt_for_new_code_run|].
  split.
  { intros attempts w0 raw valid w2 K Hv.
    rewrite prompt_turn_outcome, (turn_outcome_line _ _ _ _ K). cbv zeta.
    rewrite (serziam_validate_code Serziam.HiddenAccessCodeManager _ _ _
               secret_seed_bytes) in Hv.
    change (clock (asked w0) (ticks (asked w0))) with (clock w0 (ticks w0))
      in Hv.
    assert (E1 : str_eqb (upper unicode_upper (strip raw))
                   (code_of_month secret_bytes (clock w0 (ticks w0)))
                 = valid)
      by (change secret_bytes with Serziam.Config.SECRET_SEED;
          inversion Hv; reflexivity).
    assert (E2 : w2 = advance 1 (asked w0)) by (inversion Hv; reflexivity).
    rewrite E1, E2. reflexivity. }
  split; [exact I|].
  destruct (dialogue_cases unicode_upper w)
    as (k & Hk & F & R & C).
  split.
  { intros B. apply I in B. destruct B as (F0 & F1 & F2).
    destruct C as [(K & _ & T & _) | [(K & _ & T & _)
       | [(V & _ & T & _) | (-> & V & Hr & T & _)]]].
    - pose proof (validation_without_line unicode_upper w k (or_introl K))
        as N.
      destruct k as [|[|[|k]]]; [| | |lia]; congruence.
    - pose proof (validation_without_line unicode_upper w k (or_intror K))
        as N.
      destruct k as [|[|[|k]]]; [| | |lia]; congruence.
    - destruct k as [|[|[|k]]]; [| | |lia]; congruence.
    - split; [exact Hr|]. split; [exact R | exact T]. }
  split; [rewrite R; lia|].
  split.
  { intros k0 Hk0 Hf.
    assert (Hlt : (k0 < k)%nat).
    { destruct (Nat.lt_ge_cases k0 k) as [L | G]; [exact L|]. exfalso.
      pose proof (Hf k G) as Fk.
      destruct C as [(K & _) | [(K & _) | [(V & _) | (-> & _)]]].
      - pose proof (validation_without_line unicode_upper w k (or_introl K))
          as N. congruence.
      - pose proof (validation_without_line unicode_upper w k (or_intror K))
          as N. congruence.
      - congruence.
      - lia. }
    assert (P : exists pre, failed_turns k = pre ++ failed_turns (S k0)).
    { destruct k as [|[|[|k]]]; [lia | | | lia].
      - replace k0 with 0%nat by lia. exists []. reflexivity.
      - destruct k0 as [|[|k0]]; [| | lia].
        + eexists [_; _]. reflexivity.
        + exists []. reflexivity. }
    destruct P as [pre P].
    destruct C as [(_ & _ & T & _) | [(_ & _ & T & _)
       | [(_ & _ & T & _) | (Ek & _ & _ & T & _)]]]; rewrite T.
    - exists (Printed MsgCancelled :: Asked :: pre).
      rewrite P, <- app_assoc. reflexivity.
    - exists (Asked :: pre). rewrite P, <- app_assoc. reflexivity.
    - exists (Printed (if asterisk w (calls w)
                       then MsgUnlocked else MsgRestartError)
              :: Started :: Printed MsgCorrect :: Asked :: pre).
      rewrite P, <- app_assoc. reflexivity.
    - exists (Printed MsgTooMany :: Asked :: pre).
      rewrite Ek in P. rewrite P, <- app_assoc. reflexivity. }
  split.
  { intros k0 Hk0 Hv B. apply I in B.
    destruct B as (F0 & F1 & F2).
    destruct k0 as [|[|[|k0]]]; [| | |lia]; congruence. }
  intros k0 Hk0 Hf Hv.
  assert (E : k = k0).
  { destruct (Nat.lt_trichotomy k k0) as [L | [E | G]]; [|exact E|];
      exfalso.
    - pose proof (Hf k L) as Fk.
      destruct C as [(K & _) | [(K & _) | [(V & _) | (-> & _)]]].
      + pose proof (validation_without_line unicode_upper w k (or_introl K))
          as N. congruence.
      + pose proof (validation_without_line unicode_upper w k (or_intror K))
          as N. congruence.
      + congruence.
      + lia.
    - pose proof (F k0 G). congruence. }
  subst k0. split; [|exact R].
  destruct C as [(K & _) | [(K & _) | [(_ & Hr & _) | (-> & V & _)]]].
  - pose proof (validation_without_line unicode_upper w k (or_introl K))
      as N. congruence.
  - pose proof (validation_without_line unicode_upper w k (or_intror K))
      as N. congruence.
  - exact Hr.
  - congruence.
Qed.


(* ================================================================== *)
(** * The menus that validate a code *)

Lemma ask_line {B} line (k : pystr -> P B) s raw :
  keyboard (term s) (reads (term s)) = Line raw ->
  pbind (ask line) k s
  = k raw (set_term (asked (term s)) (note (Prompted line) s)).
Proof.
  intros H. unfold ask. rewrite pbind_pbind.
  unfold pbind at 1. unfold pbind, on_term.
  cbn [term note]. rewrite input_run, H. reflexivity.
Qed.

Lemma ask_last line s :
  exists r,
    pbind (ask line) (fun _ => pret tt) s
    = (r, set_term (asked (term s)) (note (Prompted line) s)).
Proof.
  destruct (ask_cases line (fun _ : pystr => @pret unit tt) s)
    as [(raw & _ & E) | (f & E & _)]; cbn zeta in E; rewrite E.
  - eexists. reflexivity.
  - eexists. reflexivity.
Qed.

Lemma visible_show_header_run {B} (k : unit -> P B) s :
  exists s',
    pbind VisibleMenuManager.show_header k s = k tt s'
    /\ table s' = table s /\ term s' = term s
    /\ exists lines, journal s' = lines ++ journal s.
Proof.
  unfold VisibleMenuManager.show_header, VisibleMenuManager.clear_screen,
    pbind, say.
  eexists. split; [reflexivity|]. split; [reflexivity|].
  split; [reflexivity|].
  cbn [journal note]. eexists [_; _; _; _; _; _]. reflexivity.
Qed.

(** The validation menu of serziam.py on a line [raw]: the verdict it
    prints is the answer of [validate_code] on the line stripped and
    put to uppercase. *)
Lemma complete_menu_run unicode_upper s raw :
  keyboard (term s) (reads (term s)) = Line raw ->
  exists r s' rest,
    CompleteMenuManager.validate_code_menu unicode_upper s = (r, s')
    /\ journal s'
       = Prompted [T nl; T "Appuyez sur Entrée pour continuer..."]
         :: validation_line
              (str_eqb (upper unicode_upper (strip raw))
                       (code_of_month secret_bytes
                                      (clock (term s) (ticks (term s)))))
         :: Prompted [T "Code à valider: "] :: rest.
Proof.
  intros H. unfold CompleteMenuManager.validate_code_menu.
  destruct (show_header_run
              (fun _ : unit =>
                 (say [T "🔐 VALIDATION DE CODE"] ;;
                  say [] ;;
                  raw <- ask [T "Code à valider: "] ;;
                  valid <- on_term
                             (Serziam.validate_code
                                Serziam.HiddenAccessCodeManager
                                (upper unicode_upper (strip raw))) ;;
                  (if valid then say [T "✅ Code valide!"]
                   else say [T "❌ Code invalide ou expiré"]) ;;
                  _ <- ask [T nl; T "Appuyez sur Entrée pour continuer..."] ;;
                  pret tt)%machine) s) as (s1 & E & _ & T1).
  rewrite E. clear E.
  rewrite !pbind_say.
  rewrite (ask_line _ _ _ raw) by (cbn [term note]; rewrite T1; exact H).
  cbv beta.
  rewrite (pbind_on_term _ _ _ _ _
             (serziam_validate_code Serziam.HiddenAccessCodeManager _ _ _
                secret_seed_bytes)).
  cbn [term set_term note asked clock ticks]. rewrite T1.
  destruct (str_eqb _ _); cbv beta iota; rewrite pbind_say;
    match goal with
    | |- context [pbind (ask ?l) _ ?s0] =>
        destruct (ask_last l s0) as [r Er]
    end; rewrite Er; do 3 eexists; (split; [reflexivity|]);
    cbn [journal set_term note validation_line]; reflexivity.
Qed.

(** The validation menu of serziamvalidator.py prints the current code
    first, so that its validation reads the clock one tick later. *)
Lemma visible_menu_run unicode_upper s raw :
  keyboard (term s) (reads (term s)) = Line raw ->
  exists r s' rest,
    VisibleMenuManager.validate_code_menu unicode_upper
      Validator.VisibleAccessCodeManager s = (r, s')
    /\ journal s'
       = Prompted [T nl; T "Appuyez sur Entrée pour continuer..."]
         :: validation_line
              (str_eqb (upper unicode_upper (strip raw))
                       (code_of_month secret_bytes
                          (clock (term s) (1 + ticks (term s))%nat)))
         :: Prompted [T "Code à valider: "]
         :: Said []
         :: Said [T "Code actuel: ";
                  V (code_of_month secret_bytes
                                   (clock (term s) (ticks (term s))))]
         :: rest.
Proof.
  intros H. unfold VisibleMenuManager.validate_code_menu.
  destruct (visible_show_header_run
              (fun _ : unit =>
                 (say [T "🔐 VALIDATION DE CODE"] ;;
                  current_code <- on_term
                                    (Validator.get_current_code
                                       Validator.VisibleAccessCodeManager) ;;
                  say [T "Code actuel: "; V current_code] ;;
                  say [] ;;
                  raw <- ask [T "Code à valider: "] ;;
                  valid <- on_term
                             (Validator.validate_code
                                Validator.VisibleAccessCodeManager
                                (upper unicode_upper (strip raw))) ;;
                  (if valid then say [T "✅ Code valide!"]
                   else say [T "❌ Code invalide ou expiré"]) ;;
                  _ <- ask [T nl; T "Appuyez sur Entrée pour continuer..."] ;;
                  pret tt)%machine) s) as (s1 & E & _ & T1 & _).
  rewrite E. clear E.
  rewrite pbind_say.
  rewrite (pbind_on_term _ _ _ _ _
             (validator_get_current_code Validator.VisibleAccessCodeManager
                _ _ secret_seed_bytes)).
  rewrite !pbind_say.
  rewrite (ask_line _ _ _ raw)
    by (cbn [term set_term note advance keyboard reads]; rewrite T1; exact H).
  cbv beta.
  rewrite (pbind_on_term _ _ _ _ _
             (validator_validate_code Validator.VisibleAccessCodeManager
                _ _ _ secret_seed_bytes)).
  cbn [term set_term note asked advance clock ticks]. rewrite T1.
  fold secret_bytes.
  destruct (str_eqb _ _); cbv beta iota; rewrite pbind_say;
    match goal with
    | |- context [pbind (ask ?l) _ ?s0] =>
        destruct (ask_last l s0) as [r Er]
    end; rewrite Er; do 3 eexists; (split; [reflexivity|]);
    cbn [journal set_term note validation_line]; reflexivity.
Qed.

(* ================================================================== *)
(** * The validation, as the code has it *)

(** The turn of the dialogue that reads the line [raw], by the answer
    of [validate_code] on the line stripped and put to uppercase. *)
Lemma prompt_turn_line unicode_upper attempts w raw :
  keyboard w (reads w) = Line raw ->
  let entered := upper unicode_upper (strip raw) in
  let valid := str_eqb entered
                 (code_of_month secret_bytes (clock w (ticks w))) in
  let turn := Serziam.prompt_turn unicode_upper
                Serziam.AccessControlSystem_init attempts w in
  fst (Serziam.validate_code Serziam.HiddenAccessCodeManager entered
         (asked w)) = Ok valid
  /\ fst turn
     = Ok (if valid then Serziam.Return (asterisk w (calls w))
           else if 0 <? attempts - 1 then Serziam.Continue (attempts - 1)
           else Serziam.Return false)
  /\ trace (snd turn)
     = (if valid
        then [Printed (if asterisk w (calls w)
                       then MsgUnlocked else MsgRestartError);
              Started; Printed MsgCorrect]
        else [Printed (if 0 <? attempts - 1
                       then MsgRemaining (attempts - 1) else MsgTooMany)])
       ++ Asked :: trace w.
Proof.
  intros H entered valid turn. subst entered valid turn.
  rewrite (serziam_validate_code Serziam.HiddenAccessCodeManager _ _ _
             secret_seed_bytes).
  rewrite prompt_turn_outcome, (turn_outcome_line _ _ _ raw H).
  cbv zeta. fold secret_bytes.
  change (clock (asked w) (ticks (asked w))) with (clock w (ticks w)).
  split; [reflexivity|].
  destruct (str_eqb _ _); [split; reflexivity|].
  destruct (0 <? attempts - 1); split; reflexivity.
Qed.

Lemma Ok_injective {A} (a b : A) : Ok a = Ok b -> a = b.
Proof. intros [= ->]. reflexivity. Qed.




(* ================================================================== *)
(** * A line that the callers accept *)

(** The normalisation of a line made of a rendition of the code, each
    letter in either case, with white space around it. *)
Lemma rendition_normalised unicode_upper (t : datetime) (l x r : pystr) :
  Forall (fun c => isspace c = true) l ->
  Forall (fun c => isspace c = true) r ->
  Forall2 same_letter x (code_of_month secret_bytes t) ->
  upper unicode_upper (strip (l ++ x ++ r)) = code_of_month secret_bytes t.
Proof.
  intros Hl Hr Hx.
  assert (A : Forall is_code_char (code_of_month secret_bytes t))
    by apply alphabet_is_code_char, code_of_month_alphabet.
  rewrite (strip_padding l x r Hl Hr (rendition_not_space x _ A Hx)).
  apply upper_rendition; assumption.
Qed.

(** X6. The callers of [validate_code] normalise the entered line with
    [.strip().upper()] before they pass it on.  When the operator
    enters the current code, each letter in either case, with any white
    space before and after, the unlock dialogue finds the code correct,
    starts the server and returns what the start reports; the
    validation menu of serziam.py prints that the code is valid; and so
    does the validation menu of serziamvalidator.py, which reads the
    clock once more before it validates, when that reading is in the
    same month. *)
Theorem normalized_line_is_accepted :
  forall (unicode_upper : Z -> pystr) (s : machine) (code l x r : pystr),
    fst (Serziam.get_current_code Serziam.HiddenAccessCodeManager (term s))
    = Ok code ->
    Forall (fun c => isspace c = true) l ->
    Forall (fun c => isspace c = true) r ->
    Forall2 same_letter x code ->
    keyboard (term s) (reads (term s)) = Line (l ++ x ++ r) ->
    (forall attempts,
        fst (Serziam.prompt_turn unicode_upper
               Serziam.AccessControlSystem_init attempts (term s))
        = Ok (Serziam.Return (asterisk (term s) (calls (term s))))
        /\ trace (snd (Serziam.prompt_turn unicode_upper
                         Serziam.AccessControlSystem_init attempts (term s)))
           = Printed (if asterisk (term s) (calls (term s))
                      then MsgUnlocked else MsgRestartError)
             :: Started :: Printed MsgCorrect :: Asked :: trace (term s))
    /\ (exists r0 s' rest,
           CompleteMenuManager.validate_code_menu unicode_upper s = (r0, s')
           /\ journal s'
              = Prompted [T nl; T "Appuyez sur Entrée pour continuer..."]
                :: Said [T "✅ Code valide!"]
                :: Prompted [T "Code à valider: "] :: rest)
    /\ ((year (clock (term s) (1 + ticks (term s))%nat),
         month (clock (term s) (1 + ticks (term s))%nat))
        = (year (clock (term s) (ticks (term s))),
           month (clock (term s) (ticks (term s)))) ->
        exists r0 s' rest,
          VisibleMenuManager.validate_code_menu unicode_upper
            Validator.VisibleAccessCodeManager s = (r0, s')
          /\ journal s'
             = Prompted [T nl; T "Appuyez sur Entrée pour continuer..."]
               :: Said [T "✅ Code valide!"]
               :: Prompted [T "Code à valider: "]
               :: Said []
               :: Said [T "Code actuel: "; V code] :: rest).
Proof.
  intros unicode_upper s code l x r Hc Hl Hr Hx Hk.
  rewrite (serziam_get_current_code Serziam.HiddenAccessCodeManager _ _
             secret_seed_bytes) in Hc.
  cbn [fst] in Hc. apply Ok_injective in Hc. fold secret_bytes in Hc.
  subst code.
  pose proof (rendition_normalised unicode_upper _ l x r Hl Hr Hx) as N.
  split; [|split].
  - intros attempts.
    destruct (prompt_turn_line unicode_upper attempts (term s) _ Hk)
      as (_ & Hf & Ht).
    rewrite N, str_eqb_refl in Hf, Ht.
    split; [exact Hf | exact Ht].
  - destruct (complete_menu_run unicode_upper s _ Hk)
      as (r0 & s' & rest & E & J).
    rewrite N, str_eqb_refl in J.
    exists r0, s', rest. split; [exact E | exact J].
  - intros Hs.
    destruct (visible_menu_run unicode_upper s _ Hk)
      as (r0 & s' & rest & E & J).
    rewrite N in J.
    change (1 + ticks (term s))%nat with (S (ticks (term s))) in J, Hs.
    rewrite (code_of_month_year_month _ (clock (term s) (S _))) in J.
    injection Hs as Hy Hm. rewrite Hy, Hm in J.
    rewrite <- (code_of_month_year_month _ (clock (term s) (ticks (term s))))
      in J.
    rewrite str_eqb_refl in J.
    exists r0, s', rest. split; [exact E | exact J].
Qed.

Lemma normalized_line_is_accepted_witness :
  fst (Serziam.get_current_code Serziam.HiddenAccessCodeManager
         (term (typing_machine
                  [Line ([32; 9] ++ lit "tEsXsJgM" ++ [32]); Line []])))
  = Ok (lit "TESXSJGM")
  /\ Forall (fun c => isspace c = true) [32; 9]
  /\ Forall (fun c => isspace c = true) [32]
  /\ Forall2 same_letter (lit "tEsXsJgM") (lit "TESXSJGM")
  /\ keyboard
       (term (typing_machine
                [Line ([32; 9] ++ lit "tEsXsJgM" ++ [32]); Line []]))
       (reads (term (typing_machine
                       [Line ([32; 9] ++ lit "tEsXsJgM" ++ [32]); Line []])))
     = Line ([32; 9] ++ lit "tEsXsJgM" ++ [32])
  /\ fst (Serziam.prompt_turn plain_upper Serziam.AccessControlSystem_init 3
            (term (typing_machine
                     [Line ([32; 9] ++ lit "tEsXsJgM" ++ [32]); Line []])))
     = Ok (Serziam.Return true).
Proof.
  assert (C : fst (Serziam.get_current_code Serziam.HiddenAccessCodeManager
                     (term (typing_machine
                              [Line ([32; 9] ++ lit "tEsXsJgM" ++ [32]);
                               Line []])))
              = Ok (lit "TESXSJGM")) by (vm_compute; reflexivity).
  assert (L : Forall (fun c => isspace c = true) [32; 9])
    by (repeat constructor).
  assert (R : Forall (fun c => isspace c = true) [32])
    by (repeat constructor).
  assert (S : Forall2 same_letter (lit "tEsXsJgM") (lit "TESXSJGM")).
  { repeat constructor; unfold same_letter; simpl; lia. }
  assert (K : keyboard
                (term (typing_machine
                         [Line ([32; 9] ++ lit "tEsXsJgM" ++ [32]); Line []]))
                (reads (term (typing_machine
                                [Line ([32; 9] ++ lit "tEsXsJgM" ++ [32]);
                                 Line []])))
              = Line ([32; 9] ++ lit "tEsXsJgM" ++ [32])) by reflexivity.
  split; [exact C|]. split; [exact L|]. split; [exact R|].
  split; [exact S|]. split; [exact K|].
  exact (proj1 (proj1 (normalized_line_is_accepted plain_upper _ _ _ _ _
                         C L R S K) 3)).
Defined.
